(** * Backup-Replication.py: a shallow embedding and its verified properties

    The script is a one-shot backup rotation: it resolves today's file from
    the weekday mapping, zips it, copies the archive to the file server,
    deletes the backups of the next [DAYS_TO_DELETE] weekdays, removes the
    temporary archive and reports by e-mail.

    The embedding starts at line 95 of the script (configuration loaded,
    logger initialised).  Python exceptions, [sys.exit], the module-level
    flag [process_success] and the function-local names that shadow it are
    modelled explicitly; the file system is a finite map from paths to
    contents, and the failures of the operating system and of the SMTP
    server are supplied by the environment.

    Conventions: paths follow [posixpath]; two paths denote the same file
    exactly when they are the same string; [FILES_MAP] holds strings; a
    failed copy leaves no partial file behind; logging never raises. *)

From Stdlib Require Import ZArith Lia Ascii String.
From Stdlib Require DecimalString DecimalPos.
From stdpp Require Import gmap strings list fin_maps.

Local Open Scope string_scope.
Local Open Scope Z_scope.

(** ** Python exceptions *)

(** [exit = sys.exit] raises [SystemExit], which derives from
    [BaseException] and is therefore not caught by [except Exception]. *)
Inductive exn : Type :=
| Exception (cls : string) (msg : string)
| SystemExit (code : Z).

Inductive outcome (A : Type) : Type :=
| Normal (a : A)
| Raised (e : exn).
Arguments Normal {A} a.
Arguments Raised {A} e.

Module Pure.

Definition bind {A B} (o : outcome A) (k : A → outcome B) : outcome B :=
  match o with
  | Normal a => k a
  | Raised e => Raised e
  end.

(** A list comprehension [[f(i) for i in l]]: elements are evaluated left
    to right and the first exception aborts the comprehension. *)
Fixpoint comprehension {A B} (f : A → outcome B) (l : list A) : outcome (list B) :=
  match l with
  | [] => Normal []
  | x :: l' =>
      bind (f x) (λ y, bind (comprehension f l') (λ ys, Normal (y :: ys)))
  end.

End Pure.

(** ** Python built-ins used by the script *)

(** [l.index(x)]: position of the first occurrence, [ValueError] when there
    is none.  The message text is CPython's and is never relied upon. *)
Fixpoint index_from (x : string) (l : list string) (i : Z) : outcome Z :=
  match l with
  | [] => Raised (Exception "ValueError" ("'" +:+ x +:+ "' is not in list"))
  | y :: l' => if decide (y = x) then Normal i else index_from x l' (i + 1)
  end.

Definition list_index (x : string) (l : list string) : outcome Z :=
  index_from x l 0.

(** [l[i]] with Python's negative indices and [IndexError]. *)
Definition getitem {A} (l : list A) (i : Z) : outcome A :=
  let n := Z.of_nat (length l) in
  let j := if i <? 0 then i + n else i in
  if (0 <=? j) && (j <? n)
  then match l !! Z.to_nat j with
       | Some a => Normal a
       | None => Raised (Exception "IndexError" "list index out of range")
       end
  else Raised (Exception "IndexError" "list index out of range").

(** [range(lo, hi)], empty when [hi <= lo]. *)
Definition range (lo hi : Z) : list Z :=
  (λ k : nat, lo + Z.of_nat k) <$> seq 0 (Z.to_nat (hi - lo)).

(** ** Weekday arithmetic (lines 69-72) *)

Definition days_of_week : list string :=
  ["Sunday"; "Monday"; "Tuesday"; "Wednesday"; "Thursday"; "Friday"; "Saturday"].

Definition get_next_days (day_name : string) (days_ahead : Z) : outcome (list string) :=
  Pure.bind (list_index day_name days_of_week) (λ start_index,
    Pure.comprehension
      (λ i, getitem days_of_week ((start_index + i) `mod` 7))
      (range 1 (days_ahead + 1))).

(** ** [os.path] (POSIX flavour) *)

Definition sep : ascii := "/"%char.
Definition extsep : ascii := "."%char.

(** [s.rfind(c)]: the highest index of [c], [-1] when absent. *)
Fixpoint rfind_from (c : ascii) (s : string) (i last : Z) : Z :=
  match s with
  | EmptyString => last
  | String a s' => rfind_from c s' (i + 1) (if decide (a = c) then i else last)
  end.

Definition rfind (c : ascii) (s : string) : Z := rfind_from c s 0 (-1).

(** The slices [s[:k]] and [s[k:]] for [0 <= k]. *)
Fixpoint str_take (k : nat) (s : string) : string :=
  match k, s with
  | S k', String a s' => String a (str_take k' s')
  | _, _ => EmptyString
  end.

Fixpoint str_drop (k : nat) (s : string) : string :=
  match k, s with
  | S k', String _ s' => str_drop k' s'
  | _, _ => s
  end.

Definition startswith (c : ascii) (s : string) : bool :=
  match s with
  | String a _ => bool_decide (a = c)
  | EmptyString => false
  end.

Fixpoint endswith (c : ascii) (s : string) : bool :=
  match s with
  | EmptyString => false
  | String a EmptyString => bool_decide (a = c)
  | String _ s' => endswith c s'
  end.

(** [os.path.join(a, b)]. *)
Definition os_path_join (a b : string) : string :=
  if startswith sep b then b
  else if bool_decide (a = "") || endswith sep a then a +:+ b
  else a +:+ String sep b.

(** [os.path.basename(p)]. *)
Definition os_path_basename (p : string) : string :=
  str_drop (Z.to_nat (rfind sep p + 1)) p.

(** [os.path.splitext(p)]: the extension starts at the last dot of the last
    path component, unless that component consists of leading dots only up
    to it. *)
Definition os_path_splitext (p : string) : string * string :=
  let sepIndex := rfind sep p in
  let dotIndex := rfind extsep p in
  if (sepIndex <? dotIndex)
     && existsb (λ a, negb (bool_decide (a = extsep)))
          (list_ascii_of_string
             (str_take (Z.to_nat (dotIndex - (sepIndex + 1)))
                (str_drop (Z.to_nat (sepIndex + 1)) p)))
  then (str_take (Z.to_nat dotIndex) p, str_drop (Z.to_nat dotIndex) p)
  else (p, "").

(** ** The world of one run *)

(** What a path holds: raw bytes, or a zip archive given by its members
    (archive name and stored contents). *)
#[warnings="-register-all"]
Inductive content : Type :=
| Data (bytes : string)
| Archive (members : list (string * content)).

Inductive level : Type := INFO | ERROR.

(** The observable trace: log records and notification attempts, oldest
    first.  [delivered] tells whether the SMTP exchange went through. *)
Inductive event : Type :=
| Log (lvl : level) (msg : string)
| Mail (subject body : string) (delivered : bool).

(** The part of [config.json] that the workflow reads.  [FILES_MAP] is a
    JSON object with string values; [dict.get] answers [None] for a missing
    key. *)
Record config : Type := Config {
  SOURCE_DIRECTORY : string;
  FILE_SERVER_DIRECTORY : string;
  FILES_MAP : gmap string string;
  DAYS_TO_DELETE : Z
}.

(** What the run cannot control: the weekday name printed by
    [strftime("%A")], which paths are directories, the text of
    [traceback.format_exc()] for a pending exception, and which operating
    system and SMTP calls fail ([io_error n] is the error raised by the
    [n]-th file-system call of the run, if any; likewise [smtp_error]). *)
Record environment : Type := Environment {
  day_of_week : string;
  isdir : string → bool;
  format_exc : string → string;
  io_error : nat → option string;
  smtp_error : nat → option string
}.

(** The mutable state.  [process_success] is the module-level name;
    [frames] holds, for every active function call (innermost first), the
    function-local binding of the same name, if it has been assigned. *)
Record state : Type := State {
  files : gmap string content;
  process_success : bool;
  frames : list (option bool);
  journal : list event;
  io_calls : nat;
  smtp_calls : nat
}.

Definition set_files (f : gmap string content → gmap string content) (s : state) : state :=
  State (f (files s)) (process_success s) (frames s) (journal s) (io_calls s) (smtp_calls s).
Definition set_process_success (b : bool) (s : state) : state :=
  State (files s) b (frames s) (journal s) (io_calls s) (smtp_calls s).
Definition set_frames (fr : list (option bool)) (s : state) : state :=
  State (files s) (process_success s) fr (journal s) (io_calls s) (smtp_calls s).
Definition record (e : event) (s : state) : state :=
  State (files s) (process_success s) (frames s) (journal s ++ [e])%list (io_calls s) (smtp_calls s).
Definition tick_io (s : state) : state :=
  State (files s) (process_success s) (frames s) (journal s) (S (io_calls s)) (smtp_calls s).
Definition tick_smtp (s : state) : state :=
  State (files s) (process_success s) (frames s) (journal s) (io_calls s) (S (smtp_calls s)).

(** The state in which the module-level code of line 95 starts. *)
Definition initial (fs : gmap string content) : state :=
  State fs true [] [] 0 0.

(** ** The monad of the script: state and exceptions *)

Definition M (A : Type) : Type := state → outcome A * state.

Definition ret {A} (a : A) : M A := λ s, (Normal a, s).

Definition bind {A B} (m : M A) (k : A → M B) : M B :=
  λ s, match m s with
       | (Normal a, s') => k a s'
       | (Raised e, s') => (Raised e, s')
       end.

Definition raise {A} (e : exn) : M A := λ s, (Raised e, s).

Definition lift {A} (o : outcome A) : M A := λ s, (o, s).

Declare Scope py_scope.
Delimit Scope py_scope with py.
Notation "x <- m ;; k" := (bind m (λ x, k))
  (at level 100, m at next level, right associativity) : py_scope.
Notation "m ;; k" := (bind m (λ _, k))
  (at level 100, right associativity) : py_scope.
Local Open Scope py_scope.

(** [try: body except Exception as e: handler(e)]; [SystemExit] passes. *)
Definition try_except {A} (body : M A) (handler : string → M A) : M A :=
  λ s, match body s with
       | (Raised (Exception _ msg), s') => handler msg s'
       | r => r
       end.

(** [try: body finally: fin].  The pending result of [body] is resumed
    after [fin] unless [fin] itself raises. *)
Definition try_finally {A} (body : M A) (fin : M unit) : M A :=
  λ s, let '(o, s') := body s in
       match fin s' with
       | (Normal _, s'') => (o, s'')
       | (Raised e, s'') => (Raised e, s'')
       end.

(** [for x in l: body(x)]. *)
Fixpoint for_each {A} (l : list A) (body : A → M unit) : M unit :=
  match l with
  | [] => ret tt
  | x :: l' => body x ;; for_each l' body
  end.

(** A function call: a fresh frame of locals, dropped on return and on
    unwinding alike. *)
Definition push_frame (s : state) : state := set_frames (None :: frames s) s.
Definition pop_frame (s : state) : state := set_frames (tail (frames s)) s.

Definition call {A} (body : M A) : M A :=
  λ s, let '(o, s') := body (push_frame s) in (o, pop_frame s').

(** The statement [process_success = b].  In a function body without a
    [global] declaration it binds a local name; at module level it binds
    the module's name. *)
Definition assign_process_success (b : bool) : M unit :=
  λ s, match frames s with
       | [] => (Normal tt, set_process_success b s)
       | _ :: outer => (Normal tt, set_frames (Some b :: outer) s)
       end.

(** Reading the name [process_success]. *)
Definition read_process_success : M bool :=
  λ s, match frames s with
       | [] => (Normal (process_success s), s)
       | Some b :: _ => (Normal b, s)
       | None :: _ =>
           (Raised (Exception "UnboundLocalError"
                      "cannot access local variable 'process_success'"), s)
       end.

Definition exit {A} (code : Z) : M A := raise (SystemExit code).

Definition logging_info (msg : string) : M unit := λ s, (Normal tt, record (Log INFO msg) s).
Definition logging_error (msg : string) : M unit := λ s, (Normal tt, record (Log ERROR msg) s).

Definition update (f : state → state) : M unit := λ s, (Normal tt, f s).

Definition nl : string := String (ascii_of_nat 10) EmptyString.

(** ** The script *)

Section Script.

Context (cfg : config) (env : environment).

(** *** Operating system and library calls *)

(** One call into the operating system: it is counted, and it raises
    [OSError] when the environment makes it fail. *)
Definition syscall : M unit :=
  λ s, match io_error env (io_calls s) with
       | Some msg => (Raised (Exception "OSError" msg), tick_io s)
       | None => (Normal tt, tick_io s)
       end.

(** [os.path.exists(p)] never raises. *)
Definition os_path_exists (p : string) : M bool :=
  λ s, (Normal (bool_decide (is_Some (files s !! p)) || isdir env p), s).

(** [os.remove(p)] refuses directories and missing files. *)
Definition os_remove (p : string) : M unit :=
  λ s, if isdir env p then (Raised (Exception "IsADirectoryError" p), s)
       else match files s !! p with
            | None => (Raised (Exception "FileNotFoundError" p), s)
            | Some _ => (syscall ;; update (set_files (delete p))) s
            end.

(** [zipfile.ZipFile(path, 'w', ZIP_DEFLATED)] creates or truncates
    [path]; the handle is the list of members written so far. *)
Definition ZipFile_open (path : string) : M (list (string * content)) :=
  λ s, if isdir env path then (Raised (Exception "IsADirectoryError" path), s)
       else (syscall ;; update (set_files (insert path (Data ""))) ;; ret []) s.

(** [zipf.write(filename, arcname=arcname)] reads [filename] as it is on
    disk at that moment.  A directory is stored as an empty entry whose
    name ends in a slash.  The member is recorded under the [arcname]
    that was passed. *)
Definition ZipFile_write (zipf : list (string * content)) (filename arcname : string)
  : M (list (string * content)) :=
  λ s, if isdir env filename
       then (syscall ;; ret (zipf ++ [(arcname +:+ "/", Data "")])%list) s
       else match files s !! filename with
            | None => (Raised (Exception "FileNotFoundError" filename), s)
            | Some c => (syscall ;; ret (zipf ++ [(arcname, c)])%list) s
            end.

(** [zipf.close()] writes the central directory: from then on [path]
    holds the archive. *)
Definition ZipFile_close (path : string) (zipf : list (string * content)) : M unit :=
  syscall ;; update (set_files (insert path (Archive zipf))).

(** [with zipfile.ZipFile(path, 'w', ZIP_DEFLATED) as zipf: body(zipf)].
    The archive is closed on every way out of the body; when the body
    raised, the members completed before are the ones it started with. *)
Definition with_ZipFile (path : string)
    (body : list (string * content) → M (list (string * content))) : M unit :=
  zipf <- ZipFile_open path ;;
  λ s, match body zipf s with
       | (Normal zipf', s') => ZipFile_close path zipf' s'
       | (Raised e, s') =>
           match ZipFile_close path zipf s' with
           | (Normal _, s'') => (Raised e, s'')
           | (Raised e', s'') => (Raised e', s'')
           end
       end.

(** The path that [shutil.copy(src, dst)] writes. *)
Definition copy_target (src dst : string) : string :=
  if isdir env dst then os_path_join dst (os_path_basename src) else dst.

(** [shutil.copy(src, dst)]. *)
Definition shutil_copy (src dst : string) : M unit :=
  let target := copy_target src dst in
  λ s, if bool_decide (src = target)
       then (Raised (Exception "SameFileError" src), s)
       else match files s !! src with
            | None => (Raised (Exception "FileNotFoundError" src), s)
            | Some c =>
                if isdir env target
                then (Raised (Exception "IsADirectoryError" target), s)
                else (syscall ;; update (set_files (insert target c))) s
            end.

(** The SMTP exchange of [send_email] (lines 49-59). *)
Definition smtp_sendmail (subject body : string) : M unit :=
  λ s, match smtp_error env (smtp_calls s) with
       | Some msg =>
           (Raised (Exception "SMTPException" msg),
            tick_smtp (record (Mail subject body false) s))
       | None => (Normal tt, tick_smtp (record (Mail subject body true) s))
       end.

(** *** Lines 47-63 *)

Definition send_email (subject body : string) : M unit :=
  call (try_except
          (smtp_sendmail subject body ;;
           logging_info "Notification email sent successfully.")
          (λ email_error,
             logging_error ("Failed to send notification email: " +:+ email_error) ;;
             assign_process_success false)).

(** *** Lines 74-92 *)

(** The body of the loop over [days_to_check]. *)
Definition delete_day (day : string) : M unit :=
  match FILES_MAP cfg !! day with
  | Some (String _ _ as next_file_name) =>
      let next_file_path := os_path_join (SOURCE_DIRECTORY cfg) next_file_name in
      found <- os_path_exists next_file_path ;;
      if found
      then try_except
             (os_remove next_file_path ;;
              logging_info ("Deleted backup file for " +:+ day +:+ ": " +:+ next_file_path))
             (λ delete_error,
                logging_error ("Failed to delete " +:+ next_file_path +:+ ": " +:+ delete_error) ;;
                assign_process_success false ;;
                send_email
                  ("Backup Deletion Failed for " +:+ day)
                  ("Failed to delete backup file " +:+ next_file_path
                     +:+ ". Error: " +:+ delete_error) ;;
                exit 1)
      else ret tt
  | _ => ret tt
  end.

Definition delete_next_backups (current_day : string) (days_to_delete : Z) : M unit :=
  call (days_to_check <- lift (get_next_days current_day days_to_delete) ;;
        for_each days_to_check delete_day).

(** *** Lines 95-173 *)

Definition zip_name (file_name : string) : string :=
  (os_path_splitext file_name).1 +:+ ".zip".

Definition source_path (name : string) : string :=
  os_path_join (SOURCE_DIRECTORY cfg) name.

(** Lines 118-127: compression and transfer. *)
Definition compress_and_transfer (file_name : string) : M unit :=
  let file_path := source_path file_name in
  let zip_file_name := zip_name file_name in
  let zip_file_path := source_path zip_file_name in
  logging_info ("Found file " +:+ file_name +:+ " for " +:+ day_of_week env
                  +:+ ". Starting compression.") ;;
  with_ZipFile zip_file_path (λ zipf, ZipFile_write zipf file_path file_name) ;;
  logging_info ("File " +:+ file_name +:+ " compressed successfully into "
                  +:+ zip_file_name +:+ ".") ;;
  shutil_copy zip_file_path (FILE_SERVER_DIRECTORY cfg) ;;
  logging_info ("File " +:+ zip_file_name +:+ " transferred to "
                  +:+ FILE_SERVER_DIRECTORY cfg +:+ ".").

(** Lines 116-139: the [try] suite. *)
Definition try_suite (file_name : string) : M unit :=
  found <- os_path_exists (source_path file_name) ;;
  if found
  then compress_and_transfer file_name ;;
       delete_next_backups (day_of_week env) (DAYS_TO_DELETE cfg)
  else let error_msg :=
         "File " +:+ file_name +:+ " not found for " +:+ day_of_week env
           +:+ " in " +:+ SOURCE_DIRECTORY cfg +:+ ". Process aborted." in
       logging_error error_msg ;;
       assign_process_success false ;;
       send_email ("Backup Process Failed for " +:+ day_of_week env) error_msg ;;
       exit 1.

(** Lines 141-150: the [except Exception as e] suite. *)
Definition except_suite (e : string) : M unit :=
  let error_msg := "An error occurred during the process: " +:+ e in
  logging_error error_msg ;;
  logging_error (format_exc env e) ;;
  assign_process_success false ;;
  send_email ("Backup Process Failed for " +:+ day_of_week env)
             (error_msg +:+ nl +:+ nl +:+ format_exc env e) ;;
  exit 1.

(** Lines 152-173: the [finally] suite. *)
Definition finally_suite (file_name : string) : M unit :=
  let zip_file_path := source_path (zip_name file_name) in
  found <- os_path_exists zip_file_path ;;
  (if found
   then try_except
          (os_remove zip_file_path ;;
           logging_info "Temporary zip file removed successfully.")
          (λ cleanup_error,
             let cleanup_msg := "Error during cleanup: " +:+ cleanup_error in
             logging_error cleanup_msg ;;
             assign_process_success false ;;
             send_email ("Backup Cleanup Error for " +:+ day_of_week env) cleanup_msg ;;
             exit 1)
   else ret tt) ;;
  ok <- read_process_success ;;
  if ok
  then send_email
         ("Backup Process Successful for " +:+ day_of_week env)
         ("The backup file '" +:+ file_name
            +:+ "' was successfully compressed, transferred, and old backups deleted.")
  else ret tt.

(** Lines 110-173. *)
Definition workflow (file_name : string) : M unit :=
  try_finally (try_except (try_suite file_name) except_suite)
              (finally_suite file_name).

(** Lines 95-173: the module-level code after the set-up. *)
Definition main : M unit :=
  logging_info ("Script started for " +:+ day_of_week env +:+ " backup process.") ;;
  match FILES_MAP cfg !! day_of_week env with
  | Some (String _ _ as file_name) => workflow file_name
  | _ =>
      logging_error ("No file configured for " +:+ day_of_week env
                       +:+ ". Check the config file.") ;;
      assign_process_success false ;;
      send_email
        ("Backup Process Failed for " +:+ day_of_week env)
        ("No file configured for " +:+ day_of_week env
           +:+ ". Please check the config file.") ;;
      exit 1
  end.

End Script.

(** The exit status of the interpreter: 0 when the module body completes,
    the argument of [sys.exit], 1 for an uncaught exception. *)
Definition exit_code {A} (o : outcome A) : Z :=
  match o with
  | Normal _ => 0
  | Raised (SystemExit code) => code
  | Raised (Exception _ _) => 1
  end.

(** One run of the script on a source tree. *)
Definition run (cfg : config) (env : environment) (fs : gmap string content)
  : outcome unit * state :=
  main cfg env (initial fs).

Definition notifications (s : state) : list (string * string) :=
  omap (λ e, match e with
             | Mail subject body _ => Some (subject, body)
             | Log _ _ => None
             end) (journal s).

(** ** Vocabulary of the statements *)

(** The state after the first log line of [main]. *)
Definition started (env : environment) (fs : gmap string content) : state :=
  record (Log INFO ("Script started for " +:+ day_of_week env +:+ " backup process."))
         (initial fs).

Definition contains (needle text : string) : Prop :=
  ∃ before after, text = before +:+ needle +:+ after.

(** [p] exists for [os.path.exists]. *)
Definition present (env : environment) (s : state) (p : string) : Prop :=
  is_Some (files s !! p) ∨ isdir env p = true.

(** The same environment with another behaviour of the SMTP server. *)
Definition with_smtp (env : environment) (smtp : nat → option string) : environment :=
  Environment (day_of_week env) (isdir env) (format_exc env) (io_error env) smtp.

(** What a piece of the script may do to the names in scope: the stack of
    frames keeps its depth and its outer frames, and a piece that runs
    inside a function leaves the module-level flag alone. *)
Definition same_scope (s s' : state) : Prop :=
  length (frames s') = length (frames s) ∧
  tail (frames s') = tail (frames s) ∧
  (frames s ≠ [] → process_success s' = process_success s).

(** Two states that differ at most in what depends on the SMTP server: the
    log and the delivery flags. *)
Definition smtp_blind (s1 s2 : state) : Prop :=
  files s1 = files s2 ∧ process_success s1 = process_success s2 ∧
  frames s1 = frames s2 ∧ io_calls s1 = io_calls s2 ∧
  notifications s1 = notifications s2.

Definition alike {A} (m1 m2 : M A) : Prop :=
  ∀ s1 s2, smtp_blind s1 s2 →
    (m1 s1).1 = (m2 s2).1 ∧ smtp_blind (m1 s1).2 (m2 s2).2.

(** The pieces of the script are unfolded by name in the proofs. *)
Global Arguments syscall : simpl never.
Global Arguments os_path_exists : simpl never.
Global Arguments os_remove : simpl never.
Global Arguments with_ZipFile : simpl never.
Global Arguments shutil_copy : simpl never.
Global Arguments smtp_sendmail : simpl never.
Global Arguments send_email : simpl never.
Global Arguments delete_day : simpl never.
Global Arguments delete_next_backups : simpl never.
Global Arguments compress_and_transfer : simpl never.
Global Arguments try_suite : simpl never.
Global Arguments except_suite : simpl never.
Global Arguments finally_suite : simpl never.
Global Arguments workflow : simpl never.
Global Arguments source_path : simpl never.
Global Arguments zip_name : simpl never.
Global Arguments copy_target : simpl never.

(** The notices of the script, as (subject, body). *)
Definition success_notice (env : environment) (file_name : string) : string * string :=
  ("Backup Process Successful for " +:+ day_of_week env,
   "The backup file '" +:+ file_name
     +:+ "' was successfully compressed, transferred, and old backups deleted.").

Definition cleanup_notice (env : environment) (cleanup_error : string) : string * string :=
  ("Backup Cleanup Error for " +:+ day_of_week env,
   "Error during cleanup: " +:+ cleanup_error).

Definition deletion_notice (day next_file_path delete_error : string) : string * string :=
  ("Backup Deletion Failed for " +:+ day,
   "Failed to delete backup file " +:+ next_file_path +:+ ". Error: " +:+ delete_error).

Definition processing_notice (env : environment) (e : string) : string * string :=
  ("Backup Process Failed for " +:+ day_of_week env,
   "An error occurred during the process: " +:+ e +:+ nl +:+ nl +:+ format_exc env e).

Definition missing_file_notice (cfg : config) (env : environment) (file_name : string)
  : string * string :=
  ("Backup Process Failed for " +:+ day_of_week env,
   "File " +:+ file_name +:+ " not found for " +:+ day_of_week env
     +:+ " in " +:+ SOURCE_DIRECTORY cfg +:+ ". Process aborted.").

(** Every weekday has a (non-empty) file name. *)
Definition covers_week (m : gmap string string) : Prop :=
  ∀ d, d ∈ days_of_week → ∃ n, m !! d = Some n ∧ n ≠ "".

(** The retention property in the words of the specification: with a
    window of 3 and a full mapping, after a successful run the files of the
    three window days that existed are gone and the files of all other
    weekdays are as they were. *)
Definition retention_as_stated (cfg : config) (env : environment)
    (fs : gmap string content) : Prop :=
  DAYS_TO_DELETE cfg = 3 → covers_week (FILES_MAP cfg) →
  ∀ s' window,
    run cfg env fs = (Normal tt, s') →
    get_next_days (day_of_week env) 3 = Normal window →
    (∀ d n, d ∈ window → FILES_MAP cfg !! d = Some n →
            is_Some (fs !! source_path cfg n) →
            files s' !! source_path cfg n = None) ∧
    (∀ d n, d ∈ days_of_week → d ∉ window → FILES_MAP cfg !! d = Some n →
            files s' !! source_path cfg n = fs !! source_path cfg n).

(** The fall-through reading of the specification: when compression or
    transfer raises and nothing fails afterwards, the deletion step still
    runs, so that the files of the window days are gone after the run, and
    no exit code other than 0 is forced. *)
Definition falls_through_as_stated (cfg : config) (env : environment)
    (fs : gmap string content) : Prop :=
  ∀ file_name cls e s0 o s' window,
    FILES_MAP cfg !! day_of_week env = Some file_name →
    compress_and_transfer cfg env file_name (started env fs)
      = (Raised (Exception cls e), s0) →
    (∀ n, (io_calls s0 ≤ n)%nat → io_error env n = None) →
    run cfg env fs = (o, s') →
    get_next_days (day_of_week env) (DAYS_TO_DELETE cfg) = Normal window →
    exit_code o = 0 ∧
    ∀ d n, d ∈ window → FILES_MAP cfg !! d = Some n →
           isdir env (source_path cfg n) = false →
           files s' !! source_path cfg n = None.

(** ** Sample worlds *)

Module Sample.

Definition week : gmap string string :=
  list_to_map
    [("Sunday", "sun.bak"); ("Monday", "mon.bak"); ("Tuesday", "tue.bak");
     ("Wednesday", "wed.bak"); ("Thursday", "thu.bak"); ("Friday", "fri.bak");
     ("Saturday", "sat.bak")].

Definition cfg : config := Config "/src" "/srv" week 3.

Definition dirs (p : string) : bool :=
  bool_decide (p = "/src") || bool_decide (p = "/srv").

Definition traceback (e : string) : string :=
  "Traceback (most recent call last): " +:+ e.

Definition never : nat → option string := λ _, None.

Definition at_call (n : nat) (msg : string) : nat → option string :=
  λ k, if decide (k = n) then Some msg else None.

(** A quiet Sunday. *)
Definition env : environment := Environment "Sunday" dirs traceback never never.

Definition fs : gmap string content :=
  list_to_map
    [("/src/sun.bak", Data "SUN"); ("/src/mon.bak", Data "MON");
     ("/src/tue.bak", Data "TUE"); ("/src/wed.bak", Data "WED");
     ("/src/thu.bak", Data "THU")].

(** The fourth file-system call, the copy to the file server, fails. *)
Definition env_transfer_fails : environment :=
  Environment "Sunday" dirs traceback (at_call 3 "No space left on device") never.

(** The sixth file-system call, the removal of Tuesday's file, fails. *)
Definition env_delete_fails : environment :=
  Environment "Sunday" dirs traceback (at_call 5 "Permission denied") never.

(** The removal of the temporary archive fails. *)
Definition env_cleanup_fails : environment :=
  Environment "Sunday" dirs traceback (at_call 7 "Permission denied") never.

(** The SMTP server refuses the first message. *)
Definition env_smtp_down : environment :=
  Environment "Sunday" dirs traceback never (at_call 0 "Connection refused").

(** Thursday shares Monday's file. *)
Definition cfg_shared : config :=
  Config "/src" "/srv" (<["Thursday" := "mon.bak"]> week) 3.

(** No entry for Sunday. *)
Definition cfg_no_sunday : config :=
  Config "/src" "/srv" (delete "Sunday" week) 3.

(** A Monday whose backup already carries the [.zip] extension. *)
Definition cfg_zip : config :=
  Config "/src" "/srv" {["Monday" := "Monday.zip"]} 3.

Definition env_monday : environment := Environment "Monday" dirs traceback never never.

Definition fs_zip : gmap string content := {["/src/Monday.zip" := Data "PAYLOAD"]}.

End Sample.

(** ** Further vocabulary *)

(** The notice sent when no file is configured for today. *)
Definition unmapped_notice (env : environment) : string * string :=
  ("Backup Process Failed for " +:+ day_of_week env,
   "No file configured for " +:+ day_of_week env +:+ ". Please check the config file.").

(** [c in s]. *)
Fixpoint str_contains (c : ascii) (s : string) : bool :=
  match s with
  | EmptyString => false
  | String a s' => bool_decide (a = c) || str_contains c s'
  end.

(** [len(s)] as a natural number. *)
Fixpoint str_length (s : string) : nat :=
  match s with
  | EmptyString => 0
  | String _ s' => S (str_length s')
  end.

(** ** Logger set-up (lines 31-45) *)

(** The calendar fields of [datetime.datetime.now()]. *)
Record date : Type := Date { year : Z; month : Z; day : Z }.

(** [str(n)] for an integer. *)
Definition str_int (n : Z) : string :=
  DecimalString.NilZero.string_of_int (Z.to_int n).

Definition digit (n : Z) : ascii := ascii_of_nat (48 + Z.to_nat n).

(** The zero-padded two-digit fields [%m] and [%d]. *)
Definition two_digits (n : Z) : string :=
  String (digit (n `div` 10)) (String (digit (n `mod` 10)) EmptyString).

(** [today.strftime('%Y-%m-%d')]; [%Y] is the plain decimal year, which has
    four digits from the year 1000 on. *)
Definition strftime_Ymd (today : date) : string :=
  str_int (year today) +:+ "-" +:+ two_digits (month today) +:+ "-" +:+ two_digits (day today).

(** The paths that [setup_logger] computes: the directory handed to
    [os.makedirs] and the file handed to [logging.basicConfig].
    [month_name] is [today.strftime("%B")], which depends on the locale.
    The two calls themselves are outside the embedding. *)
Definition setup_logger (LOG_DIRECTORY : string) (today : date) (month_name : string)
  : string * string :=
  let year_dir := os_path_join LOG_DIRECTORY (str_int (year today)) in
  let month_dir := os_path_join year_dir month_name in
  let log_file_name := strftime_Ymd today +:+ ".log" in
  let log_file_path := os_path_join month_dir log_file_name in
  (month_dir, log_file_path).

(** A date of the civil calendar from the year 1000 on. *)
Definition plausible (today : date) : Prop :=
  1000 ≤ year today ≤ 9999 ∧ 1 ≤ month today ≤ 12 ∧ 1 ≤ day today ≤ 31.

(** ** Further sample worlds *)

Module Edge.

(** A Friday: the mapped file [fri.bak] is not in [Sample.fs]. *)
Definition env_friday : environment :=
  Environment "Friday" Sample.dirs Sample.traceback Sample.never Sample.never.

(** Sunday is mapped to the empty name. *)
Definition cfg_empty_name : config :=
  Config "/src" "/srv" (<["Sunday" := ""]> Sample.week) 3.

(** A French locale: [strftime("%A")] answers [dimanche]. *)
Definition env_dimanche : environment :=
  Environment "dimanche" Sample.dirs Sample.traceback Sample.never Sample.never.

Definition cfg_dimanche : config :=
  Config "/src" "/srv" (<["dimanche" := "sun.bak"]> Sample.week) 3.

(** A retention window of a whole week. *)
Definition cfg_week : config := Config "/src" "/srv" Sample.week 7.

Definition third_of_november : date := Date 2026 11 3.

End Edge.

(** * Properties *)

(** ** Path functions at a few inputs *)

Example os_path_splitext_bak : os_path_splitext "sun.bak" = ("sun", ".bak").
Proof. reflexivity. Qed.

Example os_path_splitext_two_dots : os_path_splitext "db.tar.gz" = ("db.tar", ".gz").
Proof. reflexivity. Qed.

Example os_path_splitext_leading_dot : os_path_splitext ".profile" = (".profile", "").
Proof. reflexivity. Qed.

Example os_path_splitext_dot_in_directory : os_path_splitext "v1.2/dump" = ("v1.2/dump", "").
Proof. reflexivity. Qed.

Example zip_name_of_zip : zip_name "Monday.zip" = "Monday.zip".
Proof. reflexivity. Qed.

Example os_path_join_relative : os_path_join "/src" "sun.bak" = "/src/sun.bak".
Proof. reflexivity. Qed.

Example os_path_join_trailing_slash : os_path_join "/src/" "sun.bak" = "/src/sun.bak".
Proof. reflexivity. Qed.

Example os_path_join_absolute : os_path_join "/src" "/tmp/sun.bak" = "/tmp/sun.bak".
Proof. reflexivity. Qed.

Example os_path_basename_nested : os_path_basename "/src/old/sun.zip" = "sun.zip".
Proof. reflexivity. Qed.

(** ** Weekday arithmetic *)

Lemma comprehension_fmap {A B} (f : A → outcome B) (g : A → B) (l : list A) :
  (∀ x, x ∈ l → f x = Normal (g x)) →
  Pure.comprehension f l = Normal (g <$> l).
Proof.
  induction l as [|x l IH]; intros Hf; [done|].
  cbn. rewrite Hf by left. cbn. rewrite IH; [done|].
  intros y Hy. apply Hf. by right.
Qed.

Lemma elem_of_range (lo hi i : Z) : i ∈ range lo hi ↔ lo ≤ i < hi.
Proof.
  unfold range. rewrite list_elem_of_fmap. split.
  - intros (k & -> & Hk). apply elem_of_seq in Hk. lia.
  - intros Hi. exists (Z.to_nat (i - lo)). split; [lia|].
    apply elem_of_seq. lia.
Qed.

Lemma length_range (lo hi : Z) : length (range lo hi) = Z.to_nat (hi - lo).
Proof. unfold range. by rewrite length_fmap, length_seq. Qed.

Lemma lookup_range (lo hi : Z) (k : nat) :
  (k < Z.to_nat (hi - lo))%nat → range lo hi !! k = Some (lo + Z.of_nat k).
Proof.
  intros Hk. unfold range. rewrite list_lookup_fmap, lookup_seq_lt by done. done.
Qed.

Lemma getitem_days_of_week (i : Z) :
  0 ≤ i < 7 → ∃ d, days_of_week !! Z.to_nat i = Some d ∧ getitem days_of_week i = Normal d.
Proof.
  intros Hi.
  assert (i = 0 ∨ i = 1 ∨ i = 2 ∨ i = 3 ∨ i = 4 ∨ i = 5 ∨ i = 6) as Hcase by lia.
  destruct Hcase as [->|[->|[->|[->|[->|[->| ->]]]]]]; eexists; split; reflexivity.
Qed.

Lemma index_from_absent (x : string) (l : list string) (i : Z) :
  x ∉ l →
  index_from x l i = Raised (Exception "ValueError" ("'" +:+ x +:+ "' is not in list")).
Proof.
  revert i. induction l as [|y l IH]; intros i Hx; [done|].
  cbn. apply not_elem_of_cons in Hx as [Hne Hx].
  destruct (decide (y = x)); [congruence|]. by apply IH.
Qed.

Lemma list_index_days_of_week (W : string) :
  W ∈ days_of_week →
  ∃ start, list_index W days_of_week = Normal start ∧ 0 ≤ start < 7
           ∧ days_of_week !! Z.to_nat start = Some W.
Proof.
  unfold days_of_week. rewrite !elem_of_cons, elem_of_nil.
  intros [->|[->|[->|[->|[->|[->|[->|[]]]]]]]]; eexists; (split; [reflexivity|]); split; (lia || reflexivity).
Qed.

(** On a canonical weekday the function is total, for every count. *)
Lemma get_next_days_canonical (W : string) (D : Z) :
  W ∈ days_of_week →
  ∃ start l,
    list_index W days_of_week = Normal start ∧ 0 ≤ start < 7 ∧
    days_of_week !! Z.to_nat start = Some W ∧
    get_next_days W D = Normal l ∧
    length l = Z.to_nat D ∧
    ∀ k : nat, (k < Z.to_nat D)%nat →
      l !! k = days_of_week !! Z.to_nat ((start + 1 + Z.of_nat k) `mod` 7).
Proof.
  intros HW. destruct (list_index_days_of_week W HW) as (start & Hidx & Hstart & Hday).
  set (g := λ i : Z, default W (days_of_week !! Z.to_nat ((start + i) `mod` 7))).
  exists start, (g <$> range 1 (D + 1)). repeat split; try done; try lia.
  - unfold get_next_days. rewrite Hidx. cbn. apply comprehension_fmap.
    intros i _. destruct (getitem_days_of_week ((start + i) `mod` 7)) as (d & Hd & ->).
    { apply Z.mod_pos_bound. lia. }
    unfold g. by rewrite Hd.
  - rewrite length_fmap, length_range. lia.
  - intros k Hk. rewrite list_lookup_fmap, lookup_range by lia. cbn. unfold g.
    replace (start + (1 + Z.of_nat k)) with (start + 1 + Z.of_nat k) by lia.
    destruct (getitem_days_of_week ((start + 1 + Z.of_nat k) `mod` 7)) as (d & Hd & _).
    { apply Z.mod_pos_bound. lia. }
    by rewrite Hd.
Qed.

(** C1. For a canonical weekday [W] and a count [1 <= D <= 7],
    [get_next_days W D] returns exactly [D] names; the [k]-th of them is the
    canonical name [k + 1] places after [W], wrapping around modulo 7; [W]
    itself is among them only when [D = 7]; and
    [get_next_days "Saturday" 2 = ["Sunday"; "Monday"]]. *)
Theorem get_next_days_spec :
  get_next_days "Saturday" 2 = Normal ["Sunday"; "Monday"] ∧
  ∀ (W : string) (D : Z),
    W ∈ days_of_week → 1 ≤ D ≤ 7 →
    ∃ start l,
      list_index W days_of_week = Normal start ∧
      get_next_days W D = Normal l ∧
      length l = Z.to_nat D ∧
      (∀ k : nat, (k < Z.to_nat D)%nat →
         l !! k = days_of_week !! Z.to_nat ((start + 1 + Z.of_nat k) `mod` 7)) ∧
      (W ∈ l → D = 7).
Proof.
  split; [reflexivity|]. intros W D HW HD.
  destruct (get_next_days_canonical W D HW) as (start & l & Hidx & Hstart & Hday & Hl & Hlen & Hnth).
  exists start, l. repeat split; try done.
  intros Hin. apply list_elem_of_lookup in Hin as [k Hk].
  assert (k < Z.to_nat D)%nat as Hlt by (rewrite <- Hlen; by eapply lookup_lt_Some).
  rewrite Hnth in Hk by done.
  assert (NoDup days_of_week) as Hnd by (apply (bool_decide_unpack (NoDup days_of_week)); vm_compute; exact I).
  pose proof (NoDup_lookup _ _ _ _ Hnd Hk Hday) as Heq.
  apply Z2Nat.inj in Heq; [|apply Z.mod_pos_bound; lia|lia].
  destruct (decide (D = 7)) as [|Hne]; [done|exfalso].
  assert ((start + 1 + Z.of_nat k) `mod` 7 = (start + (1 + Z.of_nat k)) `mod` 7) as E by (f_equal; lia).
  rewrite E in Heq.
  assert (1 ≤ 1 + Z.of_nat k ≤ 6) as Hr by lia.
  destruct (Z_lt_dec (start + (1 + Z.of_nat k)) 7).
  - rewrite Z.mod_small in Heq by lia. lia.
  - assert ((start + (1 + Z.of_nat k)) `mod` 7 = start + (1 + Z.of_nat k) - 7) as E2.
    { symmetry. apply (Z.mod_unique _ _ 1); lia. }
    lia.
Qed.

Lemma get_next_days_spec_witness :
  ("Friday" ∈ days_of_week ∧ 1 ≤ 3 ≤ 7) ∧
  ∃ start l,
    list_index "Friday" days_of_week = Normal start ∧
    get_next_days "Friday" 3 = Normal l ∧
    length l = Z.to_nat 3 ∧
    (∀ k : nat, (k < Z.to_nat 3)%nat →
       l !! k = days_of_week !! Z.to_nat ((start + 1 + Z.of_nat k) `mod` 7)) ∧
    ("Friday" ∈ l → 3 = 7).
Proof.
  assert ("Friday" ∈ days_of_week) as Hin.
  { unfold days_of_week. rewrite !elem_of_cons. tauto. }
  assert (1 ≤ 3 ≤ 7) as Hrange by lia.
  split; [split; assumption|].
  exact (proj2 get_next_days_spec "Friday" 3 Hin Hrange).
Defined.

(** Off the canonical names the index lookup raises. *)
Lemma get_next_days_outside (day_name : string) (days_ahead : Z) :
  day_name ∉ days_of_week →
  ∃ msg, list_index day_name days_of_week = Raised (Exception "ValueError" msg) ∧
         get_next_days day_name days_ahead = Raised (Exception "ValueError" msg).
Proof.
  intros Hout. eexists. unfold get_next_days, list_index.
  rewrite (index_from_absent _ _ 0 Hout). split; reflexivity.
Qed.

(** C9. The function is defined exactly on the canonical weekday names: for
    any other [day_name], whatever [days_ahead], the index lookup raises
    [ValueError] and no list is returned; on a canonical name a list is
    returned. *)
Theorem get_next_days_domain (day_name : string) (days_ahead : Z) :
  (day_name ∉ days_of_week →
     ∃ msg, list_index day_name days_of_week = Raised (Exception "ValueError" msg) ∧
            get_next_days day_name days_ahead = Raised (Exception "ValueError" msg)) ∧
  ((∃ l, get_next_days day_name days_ahead = Normal l) ↔ day_name ∈ days_of_week).
Proof.
  split; [apply get_next_days_outside|]. split.
  - intros [l Hl]. destruct (decide (day_name ∈ days_of_week)) as [|Hn]; [done|].
    destruct (get_next_days_outside day_name days_ahead Hn) as (msg & _ & Hr). congruence.
  - intros HW. destruct (get_next_days_canonical day_name days_ahead HW)
      as (start & l & _ & _ & _ & Hl & _). eauto.
Qed.

Lemma get_next_days_domain_witness :
  (("Funday" ∉ days_of_week) ∧ ("Sunday" ∈ days_of_week)) ∧
  (∃ msg, list_index "Funday" days_of_week = Raised (Exception "ValueError" msg) ∧
          get_next_days "Funday" 2 = Raised (Exception "ValueError" msg)) ∧
  ∃ l, get_next_days "Sunday" 2 = Normal l.
Proof.
  assert ("Funday" ∉ days_of_week) as Hout.
  { unfold days_of_week. rewrite !not_elem_of_cons. repeat split; try discriminate.
    apply not_elem_of_nil. }
  assert ("Sunday" ∈ days_of_week) as Hin.
  { unfold days_of_week. rewrite !elem_of_cons. tauto. }
  split; [split; assumption|]. split.
  - exact (proj1 (get_next_days_domain "Funday" 2) Hout).
  - exact (proj2 (proj2 (get_next_days_domain "Sunday" 2)) Hin).
Defined.

(** ** Elementary facts about the state *)

Lemma notifications_record_log (lvl : level) (msg : string) (s : state) :
  notifications (record (Log lvl msg) s) = notifications s.
Proof. unfold notifications. cbn. rewrite omap_app. cbn. by rewrite app_nil_r. Qed.

Lemma notifications_record_mail (subject body : string) (d : bool) (s : state) :
  notifications (record (Mail subject body d) s) = (notifications s ++ [(subject, body)])%list.
Proof. unfold notifications. cbn. by rewrite omap_app. Qed.

Lemma contains_middle (a b c : string) : contains b (a +:+ b +:+ c).
Proof. by exists a, c. Qed.

Lemma contains_end (a b : string) : contains b (a +:+ b).
Proof.
  exists a, "". f_equal. induction b as [|x b IH]; [done|].
  change (String x b = String x (b +:+ "")). by f_equal.
Qed.

(** ** Notification (lines 47-63) *)

(** [send_email] always returns normally; the two ways it can go. *)
Lemma send_email_eq (env : environment) (subject body : string) (s : state) :
  send_email env subject body s =
  (Normal tt,
   match smtp_error env (smtp_calls s) with
   | None =>
       record (Log INFO "Notification email sent successfully.")
         (tick_smtp (record (Mail subject body true) s))
   | Some msg =>
       record (Log ERROR ("Failed to send notification email: " +:+ msg))
         (tick_smtp (record (Mail subject body false) s))
   end).
Proof.
  destruct s as [fs ps fr j io sm].
  unfold send_email, call, try_except, bind, smtp_sendmail, push_frame, pop_frame. cbn.
  destruct (smtp_error env sm); reflexivity.
Qed.

Lemma send_email_effect (env : environment) (subject body : string) (s : state) :
  ∃ s', send_email env subject body s = (Normal tt, s') ∧
        files s' = files s ∧ process_success s' = process_success s ∧
        frames s' = frames s ∧ io_calls s' = io_calls s ∧
        smtp_calls s' = S (smtp_calls s) ∧
        notifications s' = (notifications s ++ [(subject, body)])%list ∧
        (∀ e, e ∈ journal s → e ∈ journal s').
Proof.
  rewrite send_email_eq. eexists. split; [reflexivity|].
  destruct (smtp_error env (smtp_calls s)); repeat split;
    try (unfold notifications; cbn; rewrite !omap_app; cbn; by rewrite app_nil_r).
  all: intros e He; cbn; rewrite !elem_of_app; auto.
Qed.

(** Runs the [send_email] call at the head of the goal and names what is
    known about the state it leaves. *)
Ltac step_send_email s' E :=
  match goal with
  | |- context [send_email ?env ?subject ?body ?s] =>
      let Hfs := fresh "Hfs" in
      let Hps := fresh "Hps" in
      let Hfr := fresh "Hfr" in
      let Hio := fresh "Hio" in
      let Hsm := fresh "Hsm" in
      let Hn := fresh "Hn" in
      let Hjr := fresh "Hjr" in
      destruct (send_email_effect env subject body s)
        as (s' & E & Hfs & Hps & Hfr & Hio & Hsm & Hn & Hjr);
      rewrite E
  end.

(** ** Missing mapping (lines 99-108) *)

(** C7. When the weekday mapping has no entry for today's weekday, the run
    exits with code 1 after exactly one notification, a failure notice whose
    subject and body both contain today's weekday name; no file is touched. *)
Theorem missing_mapping_is_fatal (cfg : config) (env : environment)
    (fs : gmap string content) :
  FILES_MAP cfg !! day_of_week env = None →
  ∃ s',
    run cfg env fs = (Raised (SystemExit 1), s') ∧
    exit_code (run cfg env fs).1 = 1 ∧
    notifications s' =
      [("Backup Process Failed for " +:+ day_of_week env,
        "No file configured for " +:+ day_of_week env +:+ ". Please check the config file.")] ∧
    Forall (λ m, contains (day_of_week env) m.1 ∧ contains (day_of_week env) m.2)
           (notifications s') ∧
    files s' = fs ∧ process_success s' = false.
Proof.
  intros Hmap. unfold run, main, bind. cbn. rewrite Hmap. cbn.
  step_send_email s' Hs'. cbn in *.
  exists s'. rewrite Hn, Hfs, Hps. repeat split; try done.
  constructor; [|constructor]. cbn. split; [apply contains_end|apply contains_middle].
Qed.

(** ** Retention deletion (lines 74-92) *)

Lemma present_exists (env : environment) (s : state) (p : string) :
  bool_decide (is_Some (files s !! p)) || isdir env p = true ↔ present env s p.
Proof.
  unfold present. rewrite orb_true_iff, bool_decide_eq_true. done.
Qed.

Lemma absent_exists (env : environment) (s : state) (p : string) :
  ¬ present env s p → bool_decide (is_Some (files s !! p)) || isdir env p = false.
Proof.
  intros Hp. destruct (_ || _) eqn:E; [|done]. by apply present_exists in E.
Qed.

(** C10. In the deletion loop a day without a mapped file name (no entry,
    or an empty name), or whose mapped file does not exist in the source
    directory, leaves the whole state as it was: nothing is raised, logged
    or notified and no flag changes; the loop goes on with the remaining
    days. *)
Theorem skipped_day_is_silent (cfg : config) (env : environment)
    (day : string) (rest : list string) (s : state) :
  (FILES_MAP cfg !! day = None ∨ FILES_MAP cfg !! day = Some "" ∨
   ∃ name, FILES_MAP cfg !! day = Some name ∧ ¬ present env s (source_path cfg name)) →
  delete_day cfg env day s = (Normal tt, s) ∧
  for_each (day :: rest) (delete_day cfg env) s = for_each rest (delete_day cfg env) s.
Proof.
  intros Hskip.
  assert (delete_day cfg env day s = (Normal tt, s)) as Hday.
  { unfold delete_day. destruct Hskip as [->|[->|(name & -> & Habs)]]; [done..|].
    destruct name as [|a name]; [done|].
    unfold bind, os_path_exists. fold (source_path cfg (String a name)).
    by rewrite (absent_exists _ _ _ Habs). }
  split; [done|]. cbn. unfold bind. by rewrite Hday.
Qed.

Lemma same_scope_refl (s : state) : same_scope s s.
Proof. by unfold same_scope. Qed.

Lemma same_scope_trans (s1 s2 s3 : state) :
  same_scope s1 s2 → same_scope s2 s3 → same_scope s1 s3.
Proof.
  unfold same_scope. intros (Hl1 & Ht1 & Hp1) (Hl2 & Ht2 & Hp2).
  repeat split; [congruence..|].
  intros Hne. rewrite Hp2, Hp1; [done..|].
  destruct (frames s1), (frames s2); done.
Qed.

Lemma same_scope_fields (s s' : state) :
  frames s' = frames s → process_success s' = process_success s → same_scope s s'.
Proof. unfold same_scope. intros -> ->. done. Qed.

Lemma app_nil_extra {A} (l : list A) : ∃ extra, l = (l ++ extra)%list.
Proof. exists []. by rewrite app_nil_r. Qed.

(** [os.remove]: either the file is gone, or an exception was raised and
    nothing but the call counter has changed. *)
Lemma os_remove_effect (env : environment) (p : string) (s : state)
    (o : outcome unit) (s1 : state) :
  os_remove env p s = (o, s1) →
  frames s1 = frames s ∧ process_success s1 = process_success s ∧
  journal s1 = journal s ∧ smtp_calls s1 = smtp_calls s ∧
  ((o = Normal tt ∧ files s1 = delete p (files s) ∧ isdir env p = false)
   ∨ (∃ cls err, o = Raised (Exception cls err) ∧ files s1 = files s)).
Proof.
  unfold os_remove, bind, syscall, update. intros H.
  repeat case_match; simplify_eq; cbn; repeat split; eauto 7.
Qed.

Lemma assign_process_success_effect (b : bool) (s : state) :
  ∃ s1, assign_process_success b s = (Normal tt, s1) ∧
        files s1 = files s ∧ journal s1 = journal s ∧
        io_calls s1 = io_calls s ∧ smtp_calls s1 = smtp_calls s ∧
        same_scope s s1 ∧
        (frames s = [] → frames s1 = [] ∧ process_success s1 = b).
Proof.
  unfold assign_process_success, same_scope.
  destruct (frames s) eqn:E; eexists; (split; [reflexivity|]); cbn; rewrite ?E; done.
Qed.

Ltac step_assign s' E :=
  match goal with
  | H : context [assign_process_success ?b ?s] |- _ =>
      let Hfs := fresh "Hfs" in
      let Hj := fresh "Hj" in
      let Hio := fresh "Hio" in
      let Hsm := fresh "Hsm" in
      let Hsc := fresh "Hsc" in
      let Htop := fresh "Htop" in
      destruct (assign_process_success_effect b s)
        as (s' & E & Hfs & Hj & Hio & Hsm & Hsc & Htop);
      rewrite E in H
  | |- context [assign_process_success ?b ?s] =>
      let Hfs := fresh "Hfs" in
      let Hj := fresh "Hj" in
      let Hio := fresh "Hio" in
      let Hsm := fresh "Hsm" in
      let Hsc := fresh "Hsc" in
      let Htop := fresh "Htop" in
      destruct (assign_process_success_effect b s)
        as (s' & E & Hfs & Hj & Hio & Hsm & Hsc & Htop);
      rewrite E
  end.

Ltac step_send_email_in s' E :=
  match goal with
  | H : context [send_email ?env ?subject ?body ?s] |- _ =>
      let Hfs := fresh "Hfs" in
      let Hps := fresh "Hps" in
      let Hfr := fresh "Hfr" in
      let Hio := fresh "Hio" in
      let Hsm := fresh "Hsm" in
      let Hn := fresh "Hn" in
      let Hjr := fresh "Hjr" in
      destruct (send_email_effect env subject body s)
        as (s' & E & Hfs & Hps & Hfr & Hio & Hsm & Hn & Hjr);
      rewrite E in H
  end.

(** One day of the deletion loop: it either completes, having removed at
    most the day's mapped file, or it exits with code 1 after the removal
    raised, with the failure notice sent and no file changed. *)
Lemma delete_day_effect (cfg : config) (env : environment) (day : string)
    (s : state) (o : outcome unit) (s' : state) :
  delete_day cfg env day s = (o, s') →
  same_scope s s' ∧
  ((o = Normal tt ∧ notifications s' = notifications s ∧
    (∀ p, files s' !! p = files s !! p ∨
          files s' !! p = None ∧
          ∃ name, FILES_MAP cfg !! day = Some name ∧ p = source_path cfg name) ∧
    (∀ name, FILES_MAP cfg !! day = Some name → name ≠ "" →
             ¬ present env s' (source_path cfg name) ∧
             (present env s (source_path cfg name) →
              ∃ s1, os_remove env (source_path cfg name) s = (Normal tt, s1))))
   ∨ (o = Raised (SystemExit 1) ∧ files s' = files s ∧
      ∃ name cls err s1,
        FILES_MAP cfg !! day = Some name ∧
        os_remove env (source_path cfg name) s = (Raised (Exception cls err), s1) ∧
        notifications s' =
          (notifications s ++
           [("Backup Deletion Failed for " +:+ day,
             "Failed to delete backup file " +:+ source_path cfg name
               +:+ ". Error: " +:+ err)])%list)).
Proof.
  unfold delete_day. intros H.
  destruct (FILES_MAP cfg !! day) as [[|a name]|] eqn:Hmap.
  - inversion H; subst. split; [apply same_scope_refl|].
    left. naive_solver.
  - fold (source_path cfg (String a name)) in H.
    set (p := source_path cfg (String a name)) in *.
    unfold bind, os_path_exists, try_except in H.
    destruct (bool_decide (is_Some (files s !! p)) || isdir env p) eqn:Hex.
    + destruct (os_remove env p s) as [o1 s1] eqn:Hrm.
      pose proof Hrm as Hrm'.
      apply os_remove_effect in Hrm' as (Hfr & Hps & Hj & Hsm & Hcase).
      destruct Hcase as [(-> & Hfs & Hd)|(cls & err & -> & Hfs)].
      * cbn in H. simplify_eq. split; [by apply same_scope_fields|].
        left. repeat split; [|..].
        -- rewrite notifications_record_log. unfold notifications. by rewrite Hj.
        -- intros q. cbn. rewrite Hfs. destruct (decide (p = q)) as [<-|Hne].
           ++ right. rewrite lookup_delete_eq. eauto.
           ++ left. by rewrite lookup_delete_ne.
        -- intros [Hpr|Hpr]; simplify_eq.
           ++ cbn in Hpr. rewrite Hfs, lookup_delete_eq in Hpr. by destruct Hpr.
           ++ fold p in Hpr. congruence.
        -- simplify_eq. eauto.
      * cbn in H. unfold logging_error, bind in H.
        step_assign s2 E2. step_send_email_in s3 E3. unfold exit, raise in H.
        simplify_eq. split.
        -- eapply same_scope_trans; [|apply same_scope_fields; eassumption].
           eapply same_scope_trans; [|eassumption]. by apply same_scope_fields.
        -- cbn in Hfs0, Hj0. right. split; [done|]. split; [congruence|].
           exists (String a name), cls, err, s1. split; [done|]. split; [done|].
           rewrite Hn. f_equal. unfold notifications. rewrite Hj0, Hj.
           rewrite omap_app. cbn. by rewrite app_nil_r.
    + apply orb_false_iff in Hex as [Hf%bool_decide_eq_false Hd].
      unfold ret in H. simplify_eq.
      split; [apply same_scope_refl|].
      assert (¬ present env s' p) as Habs by (intros [?|?]; [done|congruence]).
      left. repeat split; auto; simplify_eq; by fold p.
  - inversion H; subst. split; [apply same_scope_refl|].
    left. naive_solver.
Qed.

Lemma for_each_app {A} (l1 l2 : list A) (body : A → M unit) (s : state) :
  for_each (l1 ++ l2) body s =
  match for_each l1 body s with
  | (Normal _, s1) => for_each l2 body s1
  | r => r
  end.
Proof.
  revert s. induction l1 as [|x l1 IH]; intros s; [done|].
  cbn. unfold bind. destruct (body x s) as [[[]|e] s1]; [apply IH|done].
Qed.

Lemma absent_stays (env : environment) (s s' : state) (p : string) :
  files s' !! p = files s !! p ∨ files s' !! p = None →
  ¬ present env s p → ¬ present env s' p.
Proof.
  unfold present. intros [Hf|Hf] Hn [Hp|Hp]; try tauto; rewrite Hf in Hp.
  - tauto.
  - by destruct Hp.
Qed.

(** The deletion loop. *)
Lemma delete_loop_effect (cfg : config) (env : environment) (days : list string)
    (s : state) (o : outcome unit) (s' : state) :
  for_each days (delete_day cfg env) s = (o, s') →
  same_scope s s' ∧
  (∀ p, files s' !! p = files s !! p ∨
        files s' !! p = None ∧
        ∃ d name, d ∈ days ∧ FILES_MAP cfg !! d = Some name ∧ p = source_path cfg name) ∧
  (∃ extra, notifications s' = (notifications s ++ extra)%list) ∧
  ((o = Normal tt ∧ notifications s' = notifications s ∧
    ∀ d name, d ∈ days → FILES_MAP cfg !! d = Some name → name ≠ "" →
              ¬ present env s' (source_path cfg name))
   ∨ o = Raised (SystemExit 1)).
Proof.
  revert s. induction days as [|d days IH]; intros s H.
  - cbn in H. unfold ret in H. simplify_eq. split; [apply same_scope_refl|].
    split; [by left|]. split; [apply app_nil_extra|]. left.
    repeat split. intros ? ? Hin. by apply elem_of_nil in Hin.
  - cbn in H. unfold bind in H.
    destruct (delete_day cfg env d s) as [o1 s1] eqn:Hd.
    apply delete_day_effect in Hd as (Hsc1 & Hcase).
    destruct Hcase as [(-> & Hn1 & Hfs1 & Habs1)|(-> & Hfs1 & name & cls & err & s0 & Hm & Hrm & Hn1)].
    + apply IH in H as (Hsc2 & Hfs2 & [extra Hex] & Hcase2).
      split; [by eapply same_scope_trans|]. split; [|split].
      * intros p. destruct (Hfs2 p) as [E2|(E2 & d' & name & Hin & Hm & ->)].
        -- rewrite E2. destruct (Hfs1 p) as [E1|(E1 & name & Hm & ->)]; [by left|].
           right. split; [done|]. exists d, name. split; [left|done].
        -- right. split; [done|]. exists d', name. split; [by right|done].
      * exists extra. by rewrite Hex, Hn1.
      * destruct Hcase2 as [(-> & Hn2 & Habs2)| ->]; [left|by right].
        split; [done|]. split; [congruence|].
        intros d' name [->|Hin]%elem_of_cons Hm Hne; [|by eapply Habs2].
        eapply absent_stays; [|by apply Habs1].
        destruct (Hfs2 (source_path cfg name)) as [?|[? _]]; eauto.
    + simplify_eq. split; [done|]. split; [intros p; left; by rewrite Hfs1|].
      split; [eauto|by right].
Qed.

(** [delete_next_backups] is a function call: it leaves the frames and the
    module-level flag as they were, whatever it assigns inside. *)
Lemma delete_next_backups_effect (cfg : config) (env : environment)
    (current_day : string) (days_to_delete : Z)
    (s : state) (o : outcome unit) (s' : state) :
  delete_next_backups cfg env current_day days_to_delete s = (o, s') →
  frames s' = frames s ∧ process_success s' = process_success s ∧
  (∃ extra, notifications s' = (notifications s ++ extra)%list) ∧
  ((∃ days, get_next_days current_day days_to_delete = Normal days ∧
      (∀ p, files s' !! p = files s !! p ∨
            files s' !! p = None ∧
            ∃ d name, d ∈ days ∧ FILES_MAP cfg !! d = Some name ∧ p = source_path cfg name) ∧
      ((o = Normal tt ∧ notifications s' = notifications s ∧
        ∀ d name, d ∈ days → FILES_MAP cfg !! d = Some name → name ≠ "" →
                  ¬ present env s' (source_path cfg name))
       ∨ o = Raised (SystemExit 1)))
   ∨ (∃ msg, get_next_days current_day days_to_delete = Raised (Exception "ValueError" msg) ∧
             o = Raised (Exception "ValueError" msg) ∧ files s' = files s ∧
             notifications s' = notifications s)).
Proof.
  unfold delete_next_backups, call, bind, lift. intros H.
  destruct (get_next_days current_day days_to_delete) as [days|e] eqn:Hdays.
  - destruct (for_each days (delete_day cfg env) (push_frame s)) as [o1 s1] eqn:Hloop.
    apply delete_loop_effect in Hloop as ((Hlen & Htl & Hps) & Hfs & Hex & Hcase).
    simplify_eq. cbn in *. repeat split; [done|by apply Hps|done|].
    left. exists days. split; [done|]. split; [done|].
    destruct Hcase as [(-> & Hn & Habs)| ->]; [left|by right]. done.
  - simplify_eq. cbn. destruct s; cbn. repeat split; [apply app_nil_extra|].
    right. destruct (decide (current_day ∈ days_of_week)) as [Hin|Hout].
    + destruct (get_next_days_canonical current_day days_to_delete Hin)
        as (? & ? & _ & _ & _ & Hl & _). congruence.
    + destruct (get_next_days_outside current_day days_to_delete Hout)
        as (msg & _ & Hr). exists msg. rewrite Hr in Hdays. by simplify_eq.
Qed.

(** ** Compression and transfer (lines 118-127) *)

Lemma compress_and_transfer_effect (cfg : config) (env : environment)
    (file_name : string) (s : state) (o : outcome unit) (s1 : state) :
  let file_path := source_path cfg file_name in
  let zip_file_path := source_path cfg (zip_name file_name) in
  let target := copy_target env zip_file_path (FILE_SERVER_DIRECTORY cfg) in
  compress_and_transfer cfg env file_name s = (o, s1) →
  frames s1 = frames s ∧ process_success s1 = process_success s ∧
  notifications s1 = notifications s ∧ smtp_calls s1 = smtp_calls s ∧
  (∀ p, p ≠ zip_file_path → p ≠ target → files s1 !! p = files s !! p) ∧
  ((o = Normal tt ∧ zip_file_path ≠ target ∧
    isdir env zip_file_path = false ∧ isdir env target = false ∧
    ∃ member,
      files s1 !! zip_file_path = Some (Archive [member]) ∧
      files s1 !! target = Some (Archive [member]) ∧
      (isdir env file_path = false → file_path ≠ zip_file_path →
       ∃ c, files s !! file_path = Some c ∧ member = (file_name, c)))
   ∨ ∃ cls e, o = Raised (Exception cls e)).
Proof.
  intros file_path zip_file_path target.
  unfold compress_and_transfer, with_ZipFile, ZipFile_open, ZipFile_write, ZipFile_close,
    shutil_copy, bind, syscall, update, logging_info, ret.
  fold file_path zip_file_path target.
  intros H.
  repeat (case_match; simplify_eq; cbn in * ).
  all: repeat apply conj; try done.
  all: try (rewrite ?omap_app; cbn; by rewrite ?app_nil_r).
  all: try (intros p Hp1 Hp2; by rewrite ?lookup_insert_ne by done).
  all: try (right; by eauto).
  all: left.
  all: repeat match goal with
         | H : bool_decide _ = false |- _ => apply bool_decide_eq_false in H
         | H : <[?k:=_]> _ !! ?k = Some _ |- _ => rewrite lookup_insert_eq in H; simplify_eq
         end.
  all: repeat apply conj; try done.
  all: eexists; rewrite lookup_insert_ne, !lookup_insert_eq by done.
  all: repeat apply conj; try done.
  intros _ Hne. rewrite lookup_insert_ne in * by done. eauto.
Qed.

(** ** Cleanup and final notification (lines 152-173) *)

Lemma read_process_success_module (s : state) :
  frames s = [] → read_process_success s = (Normal (process_success s), s).
Proof. unfold read_process_success. by intros ->. Qed.

Lemma journal_record (e : event) (s : state) : journal (record e s) = (journal s ++ [e])%list.
Proof. done. Qed.

(** The [finally] suite at module level: what it does depends on whether
    the temporary archive is there and whether its removal succeeds. *)
Lemma finally_suite_effect (cfg : config) (env : environment) (file_name : string)
    (s : state) (o : outcome unit) (s' : state) :
  let zip_file_path := source_path cfg (zip_name file_name) in
  frames s = [] →
  finally_suite cfg env file_name s = (o, s') →
  frames s' = [] ∧
  (∀ p, p ≠ zip_file_path → files s' !! p = files s !! p) ∧
  ((¬ present env s zip_file_path ∧ o = Normal tt ∧ files s' = files s ∧
    process_success s' = process_success s ∧
    notifications s' =
      (notifications s ++
       if process_success s then [success_notice env file_name] else [])%list)
   ∨ (present env s zip_file_path ∧
      (∃ s1, os_remove env zip_file_path s = (Normal tt, s1)) ∧
      o = Normal tt ∧ files s' = delete zip_file_path (files s) ∧
      isdir env zip_file_path = false ∧
      Log INFO "Temporary zip file removed successfully." ∈ journal s' ∧
      process_success s' = process_success s ∧
      notifications s' =
        (notifications s ++
         if process_success s then [success_notice env file_name] else [])%list)
   ∨ (present env s zip_file_path ∧
      ∃ cls err s1,
        os_remove env zip_file_path s = (Raised (Exception cls err), s1) ∧
        o = Raised (SystemExit 1) ∧ files s' = files s ∧
        process_success s' = false ∧
        Log ERROR ("Error during cleanup: " +:+ err) ∈ journal s' ∧
        notifications s' = (notifications s ++ [cleanup_notice env err])%list)).
Proof.
  intros zip_file_path Hfr. unfold finally_suite. fold zip_file_path.
  unfold bind, os_path_exists, try_except. intros H.
  destruct (bool_decide (is_Some (files s !! zip_file_path)) || isdir env zip_file_path) eqn:Hex.
  - apply present_exists in Hex.
    destruct (os_remove env zip_file_path s) as [o1 s1] eqn:Hrm.
    pose proof Hrm as Hrm'.
    apply os_remove_effect in Hrm' as (Hfr1 & Hps1 & Hj1 & Hsm1 & Hcase).
    destruct Hcase as [(-> & Hfs1 & Hd)|(cls & err & -> & Hfs1)].
    + cbn in H. rewrite read_process_success_module in H by (cbn; congruence).
      cbn in H. rewrite Hps1 in H.
      set (s2 := record (Log INFO "Temporary zip file removed successfully.") s1) in *.
      assert (notifications s2 = notifications s) as Hn2.
      { unfold s2. rewrite notifications_record_log. unfold notifications. by rewrite Hj1. }
      assert (Log INFO "Temporary zip file removed successfully." ∈ journal s2) as Hlog.
      { unfold s2. rewrite journal_record. apply elem_of_app. right. by left. }
      assert (files s2 = delete zip_file_path (files s)) as Hfs2 by done.
      assert (frames s2 = [] ∧ process_success s2 = process_success s) as [Hfr2 Hps2].
      { unfold s2. cbn. split; congruence. }
      clearbody s2.
      assert (∀ s3, files s3 = files s2 →
                    ∀ p, p ≠ zip_file_path → files s3 !! p = files s !! p) as Hframe.
      { intros s3 -> p Hp. rewrite Hfs2. by rewrite lookup_delete_ne. }
      destruct (process_success s) eqn:Hps.
      * step_send_email_in s3 E3. simplify_eq.
        split; [congruence|]. split; [by apply Hframe|].
        right; left. split; [done|]. split; [eauto|].
        repeat split; [congruence|done|by apply Hjr|congruence|by rewrite Hn, Hn2].
      * unfold ret in H. simplify_eq.
        split; [done|]. split; [by apply Hframe|].
        right; left. split; [done|]. split; [eauto|].
        repeat split; [done|done|done|done|]. by rewrite app_nil_r.
    + cbn in H. unfold logging_error, bind in H.
      set (s2 := record (Log ERROR ("Error during cleanup: " +:+ err)) s1) in *.
      assert (notifications s2 = notifications s) as Hn2.
      { unfold s2. rewrite notifications_record_log. unfold notifications. by rewrite Hj1. }
      assert (Log ERROR ("Error during cleanup: " +:+ err) ∈ journal s2) as Hlog.
      { unfold s2. rewrite journal_record. apply elem_of_app. right. by left. }
      assert (files s2 = files s) as Hfs2 by done.
      assert (frames s2 = []) as Hfr2 by (unfold s2; cbn; congruence).
      clearbody s2.
      step_assign s3 E3. step_send_email_in s4 E4. unfold exit, raise in H.
      simplify_eq. destruct (Htop Hfr2) as [Hfr3 Hps3].
      split; [congruence|]. split; [intros; congruence|].
      right; right. split; [done|]. exists cls, err, s1.
      repeat split; [congruence|congruence|..].
      * apply Hjr. by rewrite Hj.
      * rewrite Hn. unfold notifications at 1. rewrite Hj. fold (notifications s2).
        by rewrite Hn2.
  - assert (¬ present env s zip_file_path) as Habs.
    { intros Hp%present_exists. congruence. }
    cbn in H. rewrite read_process_success_module in H by done. cbn in H.
    destruct (process_success s) eqn:Hps.
    + step_send_email_in s2 E2. simplify_eq.
      split; [congruence|]. split; [intros; congruence|].
      left. repeat split; [done|done|congruence|by rewrite Hn].
    + unfold ret in H. simplify_eq.
      split; [done|]. split; [done|].
      left. repeat split; [done|done|]. by rewrite app_nil_r.
Qed.

(** ** The guarded block (lines 115-150) *)

Lemma except_suite_effect (env : environment) (e : string) (s : state) :
  frames s = [] →
  ∃ s', except_suite env e s = (Raised (SystemExit 1), s') ∧
        frames s' = [] ∧ files s' = files s ∧ process_success s' = false ∧
        io_calls s' = io_calls s ∧
        notifications s' = (notifications s ++ [processing_notice env e])%list.
Proof.
  intros Hfr. unfold except_suite, bind, logging_error. cbn.
  set (s1 := record _ (record _ s)).
  assert (frames s1 = [] ∧ files s1 = files s ∧ io_calls s1 = io_calls s
          ∧ notifications s1 = notifications s) as (Hfr1 & Hfs1 & Hio1 & Hn1).
  { unfold s1. by rewrite !notifications_record_log. }
  clearbody s1. step_assign s2 E2. step_send_email s3 E3.
  destruct (Htop Hfr1) as [Hfr2 Hps2].
  eexists. split; [reflexivity|].
  repeat split; [congruence..|].
  rewrite Hn. unfold notifications at 1. rewrite Hj. fold (notifications s1).
  by rewrite Hn1.
Qed.

(** The five ways through the [try] and [except] suites. *)
Lemma guarded_cases (cfg : config) (env : environment) (file_name : string)
    (s : state) (o1 : outcome unit) (s1 : state) :
  frames s = [] →
  try_except (try_suite cfg env file_name) (except_suite env) s = (o1, s1) →
  frames s1 = [] ∧
  ((¬ present env s (source_path cfg file_name) ∧
    o1 = Raised (SystemExit 1) ∧ files s1 = files s ∧ process_success s1 = false ∧
    notifications s1 = (notifications s ++ [missing_file_notice cfg env file_name])%list)
   ∨ (present env s (source_path cfg file_name) ∧
      ∃ cls e s0,
        compress_and_transfer cfg env file_name s = (Raised (Exception cls e), s0) ∧
        o1 = Raised (SystemExit 1) ∧ files s1 = files s0 ∧ process_success s1 = false ∧
        notifications s1 = (notifications s ++ [processing_notice env e])%list)
   ∨ (present env s (source_path cfg file_name) ∧
      ∃ s0 msg,
        compress_and_transfer cfg env file_name s = (Normal tt, s0) ∧
        get_next_days (day_of_week env) (DAYS_TO_DELETE cfg)
          = Raised (Exception "ValueError" msg) ∧
        o1 = Raised (SystemExit 1) ∧ files s1 = files s0 ∧ process_success s1 = false ∧
        notifications s1 = (notifications s ++ [processing_notice env msg])%list)
   ∨ (present env s (source_path cfg file_name) ∧
      ∃ s0 o2,
        compress_and_transfer cfg env file_name s = (Normal tt, s0) ∧
        delete_next_backups cfg env (day_of_week env) (DAYS_TO_DELETE cfg) s0 = (o2, s1) ∧
        (o2 = Normal tt ∨ o2 = Raised (SystemExit 1)) ∧
        o1 = o2 ∧ process_success s1 = process_success s)).
Proof.
  intros Hfr. unfold try_except, try_suite, bind, os_path_exists. intros H.
  destruct (bool_decide (is_Some (files s !! source_path cfg file_name))
            || isdir env (source_path cfg file_name)) eqn:Hex.
  - apply present_exists in Hex.
    destruct (compress_and_transfer cfg env file_name s) as [o s0] eqn:Hct.
    pose proof Hct as Hct'.
    apply compress_and_transfer_effect in Hct' as (Hfr0 & Hps0 & Hn0 & Hsm0 & _ & Hcase).
    destruct Hcase as [(-> & _)|(cls & e & ->)].
    + destruct (delete_next_backups cfg env (day_of_week env) (DAYS_TO_DELETE cfg) s0)
        as [o2 s2] eqn:Hdel.
      pose proof Hdel as Hdel'.
      apply delete_next_backups_effect in Hdel' as (Hfr2 & Hps2 & _ & Hcase).
      destruct Hcase as [(days & Hdays & _ & [(-> & _)| ->])|(msg & Hdays & -> & Hfs2 & Hn2)].
      * simplify_eq. split; [congruence|]. do 3 right. split; [done|].
        exists s0, (Normal tt). repeat split; eauto; congruence.
      * simplify_eq. split; [congruence|]. do 3 right. split; [done|].
        exists s0, (Raised (SystemExit 1)). repeat split; eauto; congruence.
      * destruct (except_suite_effect env msg s2) as (s3 & E3 & Hfr3 & Hfs3 & Hps3 & _ & Hn3);
          [congruence|].
        rewrite E3 in H. simplify_eq. split; [done|]. do 2 right. left. split; [done|].
        exists s0, msg. repeat split; try done; congruence.
    + destruct (except_suite_effect env e s0) as (s3 & E3 & Hfr3 & Hfs3 & Hps3 & _ & Hn3);
        [congruence|].
      rewrite E3 in H. simplify_eq. split; [done|]. right. left. split; [done|].
      exists cls, e, s0. repeat split; try done; congruence.
  - assert (¬ present env s (source_path cfg file_name)) as Habs.
    { intros Hp%present_exists. congruence. }
    unfold logging_error in H. cbn in H.
    set (s0 := record _ s) in H.
    assert (frames s0 = [] ∧ files s0 = files s ∧ notifications s0 = notifications s)
      as (Hfr0 & Hfs0 & Hn0).
    { unfold s0. by rewrite notifications_record_log. }
    clearbody s0. step_assign s2 E2. step_send_email_in s3 E3.
    destruct (Htop Hfr0) as [Hfr2 Hps2]. unfold exit, raise in H. simplify_eq.
    split; [congruence|]. left. repeat split; [done|congruence|congruence|].
    rewrite Hn. unfold notifications at 1. rewrite Hj. fold (notifications s0).
    by rewrite Hn0.
Qed.

(** ** The whole run *)

Lemma run_workflow (cfg : config) (env : environment) (fs : gmap string content)
    (file_name : string) :
  FILES_MAP cfg !! day_of_week env = Some file_name → file_name ≠ "" →
  run cfg env fs = workflow cfg env file_name (started env fs).
Proof.
  intros Hmap Hne. unfold run, main, bind, logging_info. cbn. rewrite Hmap.
  by destruct file_name.
Qed.

Lemma started_fields (env : environment) (fs : gmap string content) :
  frames (started env fs) = [] ∧ files (started env fs) = fs ∧
  process_success (started env fs) = true ∧ notifications (started env fs) = [].
Proof. done. Qed.

(** The workflow is the guarded block followed by the [finally] suite,
    which resumes the pending outcome unless it exits itself. *)
Lemma workflow_split (cfg : config) (env : environment) (file_name : string)
    (s : state) (o : outcome unit) (s' : state) :
  workflow cfg env file_name s = (o, s') →
  ∃ o1 s1 o2,
    try_except (try_suite cfg env file_name) (except_suite env) s = (o1, s1) ∧
    finally_suite cfg env file_name s1 = (o2, s') ∧
    (o2 = Normal tt ∧ o = o1 ∨ (∃ e, o2 = Raised e) ∧ o = o2).
Proof.
  unfold workflow, try_finally. intros H.
  destruct (try_except _ _ s) as [o1 s1].
  destruct (finally_suite cfg env file_name s1) as [[[]|e] s2] eqn:Hfin; simplify_eq.
  - exists o, s1, (Normal tt). eauto.
  - exists o1, s1, (Raised e). eauto 6.
Qed.

(** C8. Whenever a file is mapped for today, so that the workflow is
    entered, control reaches the cleanup whatever the outcome [o1] of the
    compression, transfer and deletion steps.  There, if the temporary
    archive exists its removal is attempted: when the removal succeeds the
    archive is gone and the pending outcome is resumed; when it raises, the
    error is logged, a cleanup notice is the last notification sent and the
    process exits with code 1.  If the archive does not exist there is
    nothing to remove. *)
Theorem cleanup_on_every_path (cfg : config) (env : environment)
    (fs : gmap string content) (file_name : string) :
  FILES_MAP cfg !! day_of_week env = Some file_name → file_name ≠ "" →
  let zip_file_path := source_path cfg (zip_name file_name) in
  ∃ o1 s1 o s',
    try_except (try_suite cfg env file_name) (except_suite env) (started env fs) = (o1, s1) ∧
    run cfg env fs = (o, s') ∧
    ((¬ present env s1 zip_file_path ∧ o = o1 ∧ ¬ present env s' zip_file_path)
     ∨ (present env s1 zip_file_path ∧
        (∃ s2, os_remove env zip_file_path s1 = (Normal tt, s2)) ∧
        o = o1 ∧ ¬ present env s' zip_file_path ∧
        Log INFO "Temporary zip file removed successfully." ∈ journal s')
     ∨ (present env s1 zip_file_path ∧
        ∃ cls err s2,
          os_remove env zip_file_path s1 = (Raised (Exception cls err), s2) ∧
          o = Raised (SystemExit 1) ∧ exit_code o = 1 ∧
          Log ERROR ("Error during cleanup: " +:+ err) ∈ journal s' ∧
          last (notifications s') = Some (cleanup_notice env err))).
Proof.
  intros Hmap Hne zip_file_path. rewrite (run_workflow _ _ _ _ Hmap Hne).
  destruct (workflow cfg env file_name (started env fs)) as [o s'] eqn:Hw.
  apply workflow_split in Hw as (o1 & s1 & o2 & Hg & Hfin & Ho).
  exists o1, s1, o, s'. split; [done|]. split; [done|].
  pose proof Hg as Hg'. apply guarded_cases in Hg' as [Hfr1 _]; [|done].
  apply finally_suite_effect in Hfin as (_ & _ & Hcase); [|done].
  fold zip_file_path in Hcase.
  destruct Hcase as [(Habs & -> & Hfs & _)|[(Hpr & Hrm & -> & Hfs & Hd & Hlog & _)
                                           |(Hpr & cls & err & s2 & Hrm & -> & _ & _ & Hlog & Hn)]].
  - left. destruct Ho as [[_ ->]|[[e [=]] _]]. repeat split; [done|].
    unfold present in *. by rewrite Hfs.
  - right; left. destruct Ho as [[_ ->]|[[e [=]] _]]. repeat split; [done..| |done].
    unfold present. rewrite Hfs, lookup_delete_eq, Hd. by intros [[? [=]]|[=]].
  - right; right. destruct Ho as [[[=] _]|[_ ->]]. split; [done|].
    exists cls, err, s2. repeat split; [done..|]. rewrite Hn. apply last_snoc.
Qed.

(** C5. When the removal of the mapped file of a window day raises, after
    the days before it were processed without failure, the run exits with
    code 1 and a deletion notice naming the day, the path and the error has
    been sent; the days after the failing one are not processed: from the
    failure on, no path other than the temporary archive's changes. *)
Theorem deletion_failure_is_fatal (cfg : config) (env : environment)
    (fs : gmap string content) (file_name : string) (s0 : state)
    (before : list string) (day : string) (after : list string)
    (name cls err : string) (s2 s3 : state) :
  FILES_MAP cfg !! day_of_week env = Some file_name → file_name ≠ "" →
  present env (started env fs) (source_path cfg file_name) →
  compress_and_transfer cfg env file_name (started env fs) = (Normal tt, s0) →
  get_next_days (day_of_week env) (DAYS_TO_DELETE cfg) = Normal (before ++ day :: after)%list →
  for_each before (delete_day cfg env) (push_frame s0) = (Normal tt, s2) →
  FILES_MAP cfg !! day = Some name → name ≠ "" →
  present env s2 (source_path cfg name) →
  os_remove env (source_path cfg name) s2 = (Raised (Exception cls err), s3) →
  ∃ s',
    run cfg env fs = (Raised (SystemExit 1), s') ∧
    exit_code (run cfg env fs).1 = 1 ∧
    deletion_notice day (source_path cfg name) err ∈ notifications s' ∧
    (∀ p, p ≠ source_path cfg (zip_name file_name) → files s' !! p = files s2 !! p).
Proof.
  intros Hmap Hne Hsrc Hct Hdays Hbefore Hday Hname Hpr Hrm.
  rewrite (run_workflow _ _ _ _ Hmap Hne).
  (* the deletion step exits *)
  assert (∃ s1, delete_next_backups cfg env (day_of_week env) (DAYS_TO_DELETE cfg) s0
                = (Raised (SystemExit 1), s1) ∧ files s1 = files s2 ∧
                deletion_notice day (source_path cfg name) err ∈ notifications s1)
    as (s1 & Hdel & Hfs1 & Hn1).
  { unfold delete_next_backups, call, bind, lift. rewrite Hdays, for_each_app, Hbefore.
    cbn. unfold bind.
    destruct (delete_day cfg env day s2) as [od sd] eqn:Hd.
    apply delete_day_effect in Hd as (_ & Hcase).
    destruct Hcase as [(-> & _ & _ & Hok)|(-> & Hfs & name' & cls' & err' & s3' & Hm' & Hrm' & Hn)].
    - destruct (Hok name Hday Hname) as [_ Hok']. destruct (Hok' Hpr) as [? Hrm']. congruence.
    - eexists. split; [reflexivity|].
      assert (name' = name) as -> by congruence.
      rewrite Hrm in Hrm'. injection Hrm' as <- <- <-. split; [done|].
      unfold notifications at 1. cbn. fold (notifications sd). rewrite Hn.
      apply elem_of_app. right. by left. }
  destruct (workflow cfg env file_name (started env fs)) as [o s'] eqn:Hw.
  apply workflow_split in Hw as (o1 & sg & o2 & Hg & Hfin & Ho).
  pose proof Hg as Hg'. apply guarded_cases in Hg' as [Hfrg Hcase]; [|done].
  assert (o1 = Raised (SystemExit 1) ∧ sg = s1) as [-> ->].
  { destruct Hcase as [(Habs & _)|[(_ & ? & ? & ? & Hct' & _)|[(_ & ? & ? & _ & Hd' & _)
                       |(_ & s0' & o2' & Hct' & Hdel' & _ & -> & _)]]];
      [done|congruence|congruence|]. split; congruence. }
  apply finally_suite_effect in Hfin as (_ & Hframe & Hfcase); [|done].
  assert (o = Raised (SystemExit 1)) as ->.
  { destruct Hfcase as [(_ & -> & _)|[(_ & _ & -> & _)|(_ & ? & ? & ? & _ & -> & _)]];
      destruct Ho as [[Ho2 ->]|[[e He] ->]]; try done. }
  exists s'. repeat split; [|intros p Hp; by rewrite Hframe, Hfs1].
  destruct Hfcase as [(_ & _ & _ & _ & ->)|[(_ & _ & _ & _ & _ & _ & _ & ->)
                     |(_ & ? & ? & ? & _ & _ & _ & _ & _ & ->)]];
    apply elem_of_app; by left.
Qed.

(** C2, as the code has it. When compression or transfer raises, control
    passes to the [except] suite: the failure notice with the error and the
    traceback is sent, the retention deletion is not run (from the failure
    on, no path other than the temporary archive's changes), the cleanup
    still runs (the archive is gone afterwards, or a cleanup notice
    follows), the flag is cleared so that no success notice is sent, and
    the process exits with code 1. *)
Theorem failed_processing_skips_deletion (cfg : config) (env : environment)
    (fs : gmap string content) (file_name cls e : string) (s0 : state) :
  FILES_MAP cfg !! day_of_week env = Some file_name → file_name ≠ "" →
  present env (started env fs) (source_path cfg file_name) →
  compress_and_transfer cfg env file_name (started env fs)
    = (Raised (Exception cls e), s0) →
  let zip_file_path := source_path cfg (zip_name file_name) in
  ∃ s',
    run cfg env fs = (Raised (SystemExit 1), s') ∧
    exit_code (run cfg env fs).1 = 1 ∧
    process_success s' = false ∧
    (∀ p, p ≠ zip_file_path → files s' !! p = files s0 !! p) ∧
    ((¬ present env s' zip_file_path ∧ notifications s' = [processing_notice env e])
     ∨ ∃ err, notifications s' = [processing_notice env e; cleanup_notice env err]).
Proof.
  intros Hmap Hne Hsrc Hct zip_file_path.
  rewrite (run_workflow _ _ _ _ Hmap Hne).
  destruct (workflow cfg env file_name (started env fs)) as [o s'] eqn:Hw.
  apply workflow_split in Hw as (o1 & s1 & o2 & Hg & Hfin & Ho).
  pose proof Hg as Hg'. apply guarded_cases in Hg' as [Hfr1 Hcase]; [|done].
  assert (o1 = Raised (SystemExit 1) ∧ files s1 = files s0 ∧ process_success s1 = false ∧
          notifications s1 = [processing_notice env e]) as (-> & Hfs1 & Hps1 & Hn1).
  { destruct Hcase as [(Habs & _)|[(_ & cls' & e' & s0' & Hct' & -> & Hfs & Hps & Hn)
                       |[(_ & ? & ? & Hct' & _)|(_ & ? & ? & Hct' & _)]]];
      [done| |congruence|congruence].
    rewrite Hct in Hct'. by simplify_eq. }
  apply finally_suite_effect in Hfin as (_ & Hframe & Hfcase); [|done].
  fold zip_file_path in Hframe, Hfcase. rewrite Hps1, Hn1 in Hfcase.
  assert (o = Raised (SystemExit 1)) as ->.
  { destruct Hfcase as [(_ & -> & _)|[(_ & _ & -> & _)|(_ & ? & ? & ? & _ & -> & _)]];
      destruct Ho as [[Ho2 ->]|[[e' He] ->]]; try done. }
  exists s'. repeat split; [|intros p Hp; by rewrite Hframe, Hfs1|].
  - destruct Hfcase as [(_ & _ & _ & -> & _)|[(_ & _ & _ & _ & _ & _ & -> & _)
                       |(_ & ? & ? & ? & _ & _ & _ & -> & _)]]; done.
  - destruct Hfcase as [(Habs & _ & Hfs & _ & ->)|[(_ & _ & _ & Hfs & Hd & _ & _ & ->)
                       |(_ & ? & err & ? & _ & _ & _ & _ & _ & ->)]].
    + left. split; [|done]. unfold present in *. by rewrite Hfs.
    + left. split; [|done]. unfold present.
      rewrite Hfs, lookup_delete_eq, Hd. by intros [[? [=]]|[=]].
    + right. by exists err.
Qed.

Lemma run_without_mapping (cfg : config) (env : environment) (fs : gmap string content) :
  FILES_MAP cfg !! day_of_week env = None ∨ FILES_MAP cfg !! day_of_week env = Some "" →
  (run cfg env fs).1 = Raised (SystemExit 1).
Proof.
  intros Hmap. unfold run, main, bind. cbn.
  destruct Hmap as [-> | ->]; cbn; by step_send_email s' Hs'.
Qed.

(** What a run that completes has gone through. *)
Lemma successful_run_steps (cfg : config) (env : environment)
    (fs : gmap string content) (s' : state) :
  run cfg env fs = (Normal tt, s') →
  ∃ file_name s0 s1 days,
    FILES_MAP cfg !! day_of_week env = Some file_name ∧ file_name ≠ "" ∧
    present env (started env fs) (source_path cfg file_name) ∧
    compress_and_transfer cfg env file_name (started env fs) = (Normal tt, s0) ∧
    get_next_days (day_of_week env) (DAYS_TO_DELETE cfg) = Normal days ∧
    delete_next_backups cfg env (day_of_week env) (DAYS_TO_DELETE cfg) s0 = (Normal tt, s1) ∧
    (∀ p, files s1 !! p = files s0 !! p ∨
          files s1 !! p = None ∧
          ∃ d name, d ∈ days ∧ FILES_MAP cfg !! d = Some name ∧ p = source_path cfg name) ∧
    (∀ d name, d ∈ days → FILES_MAP cfg !! d = Some name → name ≠ "" →
               ¬ present env s1 (source_path cfg name)) ∧
    finally_suite cfg env file_name s1 = (Normal tt, s') ∧
    frames s1 = [] ∧ process_success s1 = true ∧ notifications s1 = [].
Proof.
  intros Hrun.
  destruct (FILES_MAP cfg !! day_of_week env) as [file_name|] eqn:Hmap.
  2:{ pose proof (run_without_mapping cfg env fs (or_introl Hmap)) as E.
      by rewrite Hrun in E. }
  destruct (decide (file_name = "")) as [->|Hne].
  { pose proof (run_without_mapping cfg env fs (or_intror Hmap)) as E.
    by rewrite Hrun in E. }
  rewrite (run_workflow _ _ _ _ Hmap Hne) in Hrun.
  apply workflow_split in Hrun as (o1 & s1 & o2 & Hg & Hfin & Ho).
  destruct Ho as [[-> <-]|[[e ->] [=]]].
  pose proof Hg as Hg'. apply guarded_cases in Hg' as [Hfr1 Hcase]; [|done].
  destruct Hcase as [(_ & [=] & _)|[(_ & ? & ? & ? & _ & [=] & _)|[(_ & ? & ? & _ & _ & [=] & _)
                    |(Hpr & s0 & o2 & Hct & Hdel & _ & <- & Hps)]]].
  pose proof Hdel as Hdel'.
  apply delete_next_backups_effect in Hdel' as (_ & _ & _ & Hcase).
  destruct Hcase as [(days & Hdays & Hfs & [(_ & Hn & Habs)|[=]])|(? & _ & [=] & _)].
  apply compress_and_transfer_effect in Hct as Hct'. destruct Hct' as (_ & _ & Hn0 & _).
  exists file_name, s0, s1, days. repeat split; try done. by rewrite Hn, Hn0.
Qed.

Lemma get_next_days_elements (day_name : string) (days_ahead : Z) (days : list string) :
  get_next_days day_name days_ahead = Normal days →
  day_name ∈ days_of_week ∧ length days = Z.to_nat days_ahead ∧
  ∀ d, d ∈ days → d ∈ days_of_week.
Proof.
  intros Hdays.
  destruct (decide (day_name ∈ days_of_week)) as [Hin|Hout].
  2:{ destruct (get_next_days_outside day_name days_ahead Hout) as (? & _ & ?). congruence. }
  destruct (get_next_days_canonical day_name days_ahead Hin)
    as (start & l & _ & _ & _ & Hl & Hlen & Hnth).
  assert (l = days) as -> by congruence. repeat split; [done..|].
  intros d [k Hk]%list_elem_of_lookup.
  assert (k < Z.to_nat days_ahead)%nat as Hlt by (rewrite <- Hlen; by eapply lookup_lt_Some).
  rewrite Hnth in Hk by done. by eapply list_elem_of_lookup_2.
Qed.

(** C4, as the code has it. With a window of 3 and a full mapping, after a
    successful run the files mapped to the three window days are absent
    from the source directory, and the file mapped to any other weekday
    holds what it held before, provided its path is not also the path of a
    window day's file, of the temporary archive or of the transferred
    copy. *)
Theorem retention_window_effect (cfg : config) (env : environment)
    (fs : gmap string content) (s' : state) :
  DAYS_TO_DELETE cfg = 3 → covers_week (FILES_MAP cfg) →
  run cfg env fs = (Normal tt, s') →
  ∃ file_name window,
    FILES_MAP cfg !! day_of_week env = Some file_name ∧
    get_next_days (day_of_week env) 3 = Normal window ∧ length window = 3%nat ∧
    let zip_file_path := source_path cfg (zip_name file_name) in
    (∀ d n, d ∈ window → FILES_MAP cfg !! d = Some n →
            files s' !! source_path cfg n = None) ∧
    (∀ d n, d ∈ days_of_week → d ∉ window → FILES_MAP cfg !! d = Some n →
            (∀ d' n', d' ∈ window → FILES_MAP cfg !! d' = Some n' →
                      source_path cfg n ≠ source_path cfg n') →
            source_path cfg n ≠ zip_file_path →
            source_path cfg n ≠ copy_target env zip_file_path (FILE_SERVER_DIRECTORY cfg) →
            files s' !! source_path cfg n = fs !! source_path cfg n).
Proof.
  intros HD Hcov Hrun.
  apply successful_run_steps in Hrun
    as (file_name & s0 & s1 & window & Hmap & Hne & Hpr & Hct & Hdays & Hdel & Hfs1 & Habs
        & Hfin & Hfr1 & Hps1 & Hn1).
  rewrite HD in Hdays.
  destruct (get_next_days_elements _ _ _ Hdays) as (Htoday & Hlen & Hsub).
  exists file_name, window. split; [done|]. split; [done|]. split; [done|].
  intros zip_file_path.
  apply compress_and_transfer_effect in Hct as (_ & _ & _ & _ & Hfs0 & _).
  apply finally_suite_effect in Hfin as (_ & Hframe & Hfcase); [|done].
  fold zip_file_path in Hfs0, Hframe, Hfcase. split.
  - intros d n Hd Hn.
    destruct (Hcov d (Hsub d Hd)) as (n' & Hn' & Hnn). assert (n' = n) as -> by congruence.
    assert (files s1 !! source_path cfg n = None) as Hnone.
    { destruct (files s1 !! source_path cfg n) eqn:E; [|done].
      destruct (Habs d n Hd Hn Hnn). left. rewrite E. eauto. }
    destruct (decide (source_path cfg n = zip_file_path)) as [Heq|Hneq];
      [|by rewrite Hframe].
    destruct Hfcase as [(_ & _ & -> & _)|[(_ & _ & _ & -> & _)|(_ & ? & ? & ? & _ & [=] & _)]];
      [done|]. rewrite Heq. apply lookup_delete_eq.
  - intros d n Hd Hout Hn Hwin Hzip Htarget.
    rewrite Hframe by done.
    destruct (Hfs1 (source_path cfg n)) as [->|(_ & d' & n' & Hd' & Hn' & Heq)].
    + by apply Hfs0.
    + by destruct (Hwin d' n' Hd' Hn').
Qed.

(** ** Independence of the SMTP server *)

Section Alike.

Context (cfg : config) (env : environment) (smtp' : nat → option string).

Let env' : environment := with_smtp env smtp'.

Lemma smtp_blind_refl (s : state) : smtp_blind s s.
Proof. by unfold smtp_blind. Qed.

Lemma alike_ret {A} (a : A) : alike (ret a) (ret a).
Proof. by intros s1 s2 H. Qed.

Lemma alike_raise {A} (e : exn) : alike (@raise A e) (raise e).
Proof. by intros s1 s2 H. Qed.

Lemma alike_lift {A} (o : outcome A) : alike (lift o) (lift o).
Proof. by intros s1 s2 H. Qed.

Lemma alike_bind {A B} (m1 m2 : M A) (k1 k2 : A → M B) :
  alike m1 m2 → (∀ a, alike (k1 a) (k2 a)) → alike (bind m1 k1) (bind m2 k2).
Proof.
  intros Hm Hk s1 s2 Hs. unfold bind.
  destruct (Hm s1 s2 Hs) as [Ho Hs'].
  destruct (m1 s1) as [[a1|e1] s1'], (m2 s2) as [[a2|e2] s2']; cbn in *; simplify_eq;
    [by apply Hk|done].
Qed.

Lemma alike_try_except {A} (m1 m2 : M A) (h1 h2 : string → M A) :
  alike m1 m2 → (∀ e, alike (h1 e) (h2 e)) → alike (try_except m1 h1) (try_except m2 h2).
Proof.
  intros Hm Hh s1 s2 Hs. unfold try_except.
  destruct (Hm s1 s2 Hs) as [Ho Hs'].
  destruct (m1 s1) as [[a1|[c1 e1|n1]] s1'], (m2 s2) as [[a2|[c2 e2|n2]] s2'];
    cbn in *; simplify_eq; try done. by apply Hh.
Qed.

Lemma alike_try_finally {A} (m1 m2 : M A) (f1 f2 : M unit) :
  alike m1 m2 → alike f1 f2 → alike (try_finally m1 f1) (try_finally m2 f2).
Proof.
  intros Hm Hf s1 s2 Hs. unfold try_finally.
  destruct (Hm s1 s2 Hs) as [Ho Hs'].
  destruct (m1 s1) as [o1 s1'], (m2 s2) as [o2 s2']; cbn in *; subst.
  destruct (Hf s1' s2' Hs') as [Ho' Hs''].
  destruct (f1 s1') as [[[]|e1] s1''], (f2 s2') as [[[]|e2] s2'']; cbn in *; simplify_eq; done.
Qed.

Lemma alike_for_each {A} (l : list A) (b1 b2 : A → M unit) :
  (∀ x, alike (b1 x) (b2 x)) → alike (for_each l b1) (for_each l b2).
Proof.
  intros Hb. induction l as [|x l IH]; cbn; [apply alike_ret|].
  apply alike_bind; [apply Hb|done].
Qed.

Lemma alike_call {A} (m1 m2 : M A) : alike m1 m2 → alike (call m1) (call m2).
Proof.
  intros Hm s1 s2 (Hf & Hp & Hfr & Hio & Hn). unfold call.
  destruct (Hm (push_frame s1) (push_frame s2)) as [Ho (Hf' & Hp' & Hfr' & Hio' & Hn')].
  { unfold smtp_blind, notifications in *. cbn. repeat split; congruence. }
  destruct (m1 (push_frame s1)) as [o1 s1'], (m2 (push_frame s2)) as [o2 s2'].
  unfold smtp_blind, notifications in *. cbn in *.
  split; [done|]. repeat split; congruence.
Qed.

(** A primitive that reads the environment only through what [env] and
    [env'] share behaves alike in both. *)
Ltac alike_primitive :=
  intros [fs1 ps1 fr1 j1 io1 sm1] [fs2 ps2 fr2 j2 io2 sm2] (Hf & Hp & Hfr & Hio & Hn);
  cbn in Hf, Hp, Hfr, Hio; subst; unfold notifications in Hn; cbn in Hn;
  unfold set_files, tick_io, record; cbn;
  repeat (case_match; simplify_eq; cbn in * );
  (split; [done|]); unfold smtp_blind, notifications; cbn;
  rewrite ?omap_app, ?Hn; done.

Lemma alike_logging_info (msg : string) : alike (logging_info msg) (logging_info msg).
Proof. unfold logging_info, record. alike_primitive. Qed.

Lemma alike_logging_error (msg : string) : alike (logging_error msg) (logging_error msg).
Proof. unfold logging_error, record. alike_primitive. Qed.

Lemma alike_assign (b : bool) : alike (assign_process_success b) (assign_process_success b).
Proof. unfold assign_process_success. alike_primitive. Qed.

Lemma alike_read : alike read_process_success read_process_success.
Proof. unfold read_process_success. alike_primitive. Qed.

Lemma alike_os_path_exists (p : string) :
  alike (os_path_exists env p) (os_path_exists env' p).
Proof. unfold os_path_exists. alike_primitive. Qed.

Lemma alike_os_remove (p : string) : alike (os_remove env p) (os_remove env' p).
Proof. unfold os_remove, bind, syscall, update. alike_primitive. Qed.

Lemma alike_shutil_copy (src dst : string) :
  alike (shutil_copy env src dst) (shutil_copy env' src dst).
Proof. unfold shutil_copy, copy_target, bind, syscall, update. alike_primitive. Qed.

Lemma alike_with_ZipFile (path filename arcname : string) :
  alike (with_ZipFile env path (λ zipf, ZipFile_write env zipf filename arcname))
        (with_ZipFile env' path (λ zipf, ZipFile_write env' zipf filename arcname)).
Proof.
  unfold with_ZipFile, ZipFile_open, ZipFile_write, ZipFile_close, bind, syscall, update, ret.
  alike_primitive.
Qed.

Lemma alike_send_email (subject body : string) :
  alike (send_email env subject body) (send_email env' subject body).
Proof.
  intros s1 s2 (Hf & Hp & Hfr & Hio & Hn).
  destruct (send_email_effect env subject body s1) as (s1' & -> & ? & ? & ? & ? & ? & ? & _).
  destruct (send_email_effect env' subject body s2) as (s2' & -> & ? & ? & ? & ? & ? & ? & _).
  split; [done|]. repeat split; cbn; congruence.
Qed.

Create HintDb alike.

Hint Resolve alike_ret alike_raise alike_lift alike_logging_info alike_logging_error
  alike_assign alike_read alike_os_path_exists alike_os_remove alike_shutil_copy
  alike_with_ZipFile alike_send_email : alike.

Ltac alike_structure :=
  repeat first
    [ solve [auto with alike]
    | apply alike_bind; [|intros ?]
    | apply alike_try_except; [|intros ?]
    | apply alike_try_finally
    | apply alike_for_each; intros ?
    | apply alike_call
    | match goal with
      | |- alike (if ?b then _ else _) _ => destruct b
      | |- alike (match ?x with _ => _ end) _ => destruct x
      end ].

Lemma alike_delete_day (day : string) : alike (delete_day cfg env day) (delete_day cfg env' day).
Proof. unfold delete_day, exit. alike_structure. Qed.

Lemma alike_delete_next_backups (day : string) (n : Z) :
  alike (delete_next_backups cfg env day n) (delete_next_backups cfg env' day n).
Proof.
  unfold delete_next_backups. alike_structure. apply alike_delete_day.
Qed.

Lemma alike_main : alike (main cfg env) (main cfg env').
Proof.
  unfold main, workflow, try_suite, except_suite, finally_suite, compress_and_transfer, exit.
  change (day_of_week env') with (day_of_week env).
  change (format_exc env') with (format_exc env).
  pose proof alike_delete_next_backups. alike_structure.
Qed.

End Alike.

(** C3. A failure inside [send_email] is logged and nothing more: the call
    returns normally, and the assignment in its handler binds a name local
    to the call, so the module-level flag and the frames of the caller are
    as before.  Consequently the exit code of a run, the notifications it
    issues (among them the final success notice), the module-level flag
    and the files do not depend on which SMTP exchanges fail. *)
Theorem smtp_failure_is_inert (cfg : config) (env : environment)
    (smtp' : nat → option string) (fs : gmap string content) :
  (exit_code (run cfg env fs).1 = exit_code (run cfg (with_smtp env smtp') fs).1 ∧
   notifications (run cfg env fs).2 = notifications (run cfg (with_smtp env smtp') fs).2 ∧
   process_success (run cfg env fs).2 = process_success (run cfg (with_smtp env smtp') fs).2 ∧
   files (run cfg env fs).2 = files (run cfg (with_smtp env smtp') fs).2) ∧
  ∀ subject body s,
    ∃ s', send_email env subject body s = (Normal tt, s') ∧
          process_success s' = process_success s ∧ frames s' = frames s ∧
          ∀ msg, smtp_error env (smtp_calls s) = Some msg →
                 journal s' =
                 (journal s ++
                  [Mail subject body false;
                   Log ERROR ("Failed to send notification email: " +:+ msg)])%list.
Proof.
  split.
  - destruct (alike_main cfg env smtp' (initial fs) (initial fs) (smtp_blind_refl _))
      as [Ho (Hf & Hp & _ & _ & Hn)].
    unfold run. rewrite Ho. done.
  - intros subject body s. rewrite send_email_eq. eexists. split; [reflexivity|].
    destruct (smtp_error env (smtp_calls s)) as [msg|]; repeat split; try done.
    intros ? [= <-]. cbn. by rewrite <- app_assoc.
Qed.

(** ** Archive, transfer and cleanup on a successful run *)


(** ** The specification's sentences at the sample worlds *)

(** A quiet Sunday run: exit code 0, the archive is on the file server, the
    three window files and the temporary archive are gone, Thursday's file
    is untouched. *)
Example quiet_sunday_run :
  let r := run Sample.cfg Sample.env Sample.fs in
  exit_code r.1 = 0 ∧
  map_to_list (files r.2) =
    [("/src/sun.bak", Data "SUN"); ("/src/thu.bak", Data "THU");
     ("/srv/sun.zip", Archive [("sun.bak", Data "SUN")])] ∧
  notifications r.2 = [success_notice Sample.env "sun.bak"].
Proof. vm_compute. repeat split; reflexivity. Qed.

(** A Sunday run in which Tuesday's file cannot be removed: the deletion
    notice is followed by the success notice, because the flag cleared at
    line 87 is local to [delete_next_backups]; the exit code is 1 and
    Wednesday's file is still there. *)
Example sunday_run_with_failed_deletion :
  let r := run Sample.cfg Sample.env_delete_fails Sample.fs in
  exit_code r.1 = 1 ∧
  process_success r.2 = true ∧
  notifications r.2 =
    [deletion_notice "Tuesday" "/src/tue.bak" "Permission denied";
     success_notice Sample.env_delete_fails "sun.bak"] ∧
  files r.2 !! "/src/mon.bak" = None ∧
  files r.2 !! "/src/wed.bak" = Some (Data "WED").
Proof. vm_compute. repeat split; reflexivity. Qed.

Lemma sample_shared_covers_week : covers_week (FILES_MAP Sample.cfg_shared).
Proof.
  intros d. unfold days_of_week. rewrite !elem_of_cons, elem_of_nil.
  intros [->|[->|[->|[->|[->|[->|[->|[]]]]]]]]; eexists; split; (reflexivity || discriminate).
Qed.

(** C4 fails as stated: when Thursday shares Monday's file, a successful
    Sunday run with a window of 3 removes that file, although Thursday is
    outside the window. *)
Lemma retention_as_stated_fails :
  ¬ retention_as_stated Sample.cfg_shared Sample.env Sample.fs.
Proof.
  intros H.
  destruct (run Sample.cfg_shared Sample.env Sample.fs) as [o s'] eqn:Erun.
  assert (o = Normal tt ∧ files s' !! "/src/mon.bak" = None) as [-> Hgone].
  { vm_compute in Erun. injection Erun as <- <-. split; reflexivity. }
  assert (get_next_days (day_of_week Sample.env) 3 = Normal ["Monday"; "Tuesday"; "Wednesday"])
    as Hwin by (vm_compute; reflexivity).
  assert (FILES_MAP Sample.cfg_shared !! "Thursday" = Some "mon.bak")
    as Hthu by (vm_compute; reflexivity).
  assert (Sample.fs !! "/src/mon.bak" = Some (Data "MON")) as Hwas by (vm_compute; reflexivity).
  destruct (H eq_refl sample_shared_covers_week s' _ Erun Hwin) as [_ Hout].
  specialize (Hout "Thursday" "mon.bak").
  change (source_path Sample.cfg_shared "mon.bak") with "/src/mon.bak" in Hout.
  rewrite Hgone, Hwas in Hout. enough (None = Some (Data "MON")) by discriminate.
  apply Hout; [| |done].
  - unfold days_of_week. rewrite !elem_of_cons. tauto.
  - rewrite !not_elem_of_cons. repeat split; try discriminate. apply not_elem_of_nil.
Qed.

(** C2 fails as stated: when only the copy to the file server fails, the
    run exits with code 1 and Monday's backup, the first of the window, is
    still there. *)
Lemma falls_through_as_stated_fails :
  ¬ falls_through_as_stated Sample.cfg Sample.env_transfer_fails Sample.fs.
Proof.
  intros H.
  destruct (compress_and_transfer Sample.cfg Sample.env_transfer_fails "sun.bak"
              (started Sample.env_transfer_fails Sample.fs)) as [oc s0] eqn:Ect.
  assert (oc = Raised (Exception "OSError" "No space left on device")
          ∧ io_calls s0 = 4%nat) as [-> Hio].
  { vm_compute in Ect. injection Ect as <- <-. split; reflexivity. }
  destruct (run Sample.cfg Sample.env_transfer_fails Sample.fs) as [o s'] eqn:Erun.
  assert (exit_code o = 1) as Hcode.
  { vm_compute in Erun. injection Erun as <- <-. reflexivity. }
  assert (FILES_MAP Sample.cfg !! day_of_week Sample.env_transfer_fails = Some "sun.bak")
    as Hmap by (vm_compute; reflexivity).
  assert (get_next_days (day_of_week Sample.env_transfer_fails) (DAYS_TO_DELETE Sample.cfg)
          = Normal ["Monday"; "Tuesday"; "Wednesday"]) as Hwin by (vm_compute; reflexivity).
  destruct (H "sun.bak" _ _ s0 o s' ["Monday"; "Tuesday"; "Wednesday"] Hmap Ect)
    as [Hzero _]; [|done|done|lia].
  intros n Hn. rewrite Hio in Hn. unfold Sample.env_transfer_fails, Sample.at_call. cbn.
  destruct (decide (n = 3%nat)); [lia|done].
Qed.

(** C6 at a source file that already carries the [.zip] extension: the
    archive path is the source path, so opening the archive truncates the
    source before it is read.  The run succeeds and reports success, the
    transferred archive holds an empty member, and the source file is gone
    from the source directory. *)
Theorem zip_named_source_is_lost :
  let r := run Sample.cfg_zip Sample.env_monday Sample.fs_zip in
  source_path Sample.cfg_zip (zip_name "Monday.zip") = source_path Sample.cfg_zip "Monday.zip" ∧
  r.1 = Normal tt ∧
  files r.2 !! "/srv/Monday.zip" = Some (Archive [("Monday.zip", Data "")]) ∧
  files r.2 !! "/src/Monday.zip" = None ∧
  notifications r.2 = [success_notice Sample.env_monday "Monday.zip"].
Proof. vm_compute. repeat split; reflexivity. Qed.

(** ** The theorems at the sample worlds *)

Lemma missing_mapping_is_fatal_witness :
  FILES_MAP Sample.cfg_no_sunday !! day_of_week Sample.env = None ∧
  ∃ s',
    run Sample.cfg_no_sunday Sample.env Sample.fs = (Raised (SystemExit 1), s') ∧
    exit_code (run Sample.cfg_no_sunday Sample.env Sample.fs).1 = 1 ∧
    notifications s' =
      [("Backup Process Failed for " +:+ day_of_week Sample.env,
        "No file configured for " +:+ day_of_week Sample.env
          +:+ ". Please check the config file.")] ∧
    Forall (λ m, contains (day_of_week Sample.env) m.1 ∧ contains (day_of_week Sample.env) m.2)
           (notifications s') ∧
    files s' = Sample.fs ∧ process_success s' = false.
Proof.
  assert (FILES_MAP Sample.cfg_no_sunday !! day_of_week Sample.env = None) as Hmap
    by (vm_compute; reflexivity).
  split; [exact Hmap|].
  exact (missing_mapping_is_fatal Sample.cfg_no_sunday Sample.env Sample.fs Hmap).
Defined.

Lemma skipped_day_is_silent_witness :
  (FILES_MAP Sample.cfg !! "Friday" = None ∨ FILES_MAP Sample.cfg !! "Friday" = Some "" ∨
   ∃ name, FILES_MAP Sample.cfg !! "Friday" = Some name ∧
           ¬ present Sample.env (initial Sample.fs) (source_path Sample.cfg name)) ∧
  delete_day Sample.cfg Sample.env "Friday" (initial Sample.fs)
    = (Normal tt, initial Sample.fs) ∧
  for_each ["Friday"; "Saturday"] (delete_day Sample.cfg Sample.env) (initial Sample.fs)
    = for_each ["Saturday"] (delete_day Sample.cfg Sample.env) (initial Sample.fs).
Proof.
  assert (FILES_MAP Sample.cfg !! "Friday" = None ∨ FILES_MAP Sample.cfg !! "Friday" = Some "" ∨
          ∃ name, FILES_MAP Sample.cfg !! "Friday" = Some name ∧
                  ¬ present Sample.env (initial Sample.fs) (source_path Sample.cfg name))
    as Hskip.
  { right. right. exists "fri.bak". split; [vm_compute; reflexivity|].
    intros [[c Hc]|Hd]; vm_compute in *; discriminate. }
  split; [exact Hskip|].
  exact (skipped_day_is_silent Sample.cfg Sample.env "Friday" ["Saturday"]
           (initial Sample.fs) Hskip).
Defined.

Lemma cleanup_on_every_path_witness :
  (FILES_MAP Sample.cfg !! day_of_week Sample.env_cleanup_fails = Some "sun.bak"
   ∧ "sun.bak" ≠ "") ∧
  let zip_file_path := source_path Sample.cfg (zip_name "sun.bak") in
  ∃ o1 s1 o s',
    try_except (try_suite Sample.cfg Sample.env_cleanup_fails "sun.bak")
               (except_suite Sample.env_cleanup_fails)
               (started Sample.env_cleanup_fails Sample.fs) = (o1, s1) ∧
    run Sample.cfg Sample.env_cleanup_fails Sample.fs = (o, s') ∧
    ((¬ present Sample.env_cleanup_fails s1 zip_file_path ∧ o = o1
      ∧ ¬ present Sample.env_cleanup_fails s' zip_file_path)
     ∨ (present Sample.env_cleanup_fails s1 zip_file_path ∧
        (∃ s2, os_remove Sample.env_cleanup_fails zip_file_path s1 = (Normal tt, s2)) ∧
        o = o1 ∧ ¬ present Sample.env_cleanup_fails s' zip_file_path ∧
        Log INFO "Temporary zip file removed successfully." ∈ journal s')
     ∨ (present Sample.env_cleanup_fails s1 zip_file_path ∧
        ∃ cls err s2,
          os_remove Sample.env_cleanup_fails zip_file_path s1
            = (Raised (Exception cls err), s2) ∧
          o = Raised (SystemExit 1) ∧ exit_code o = 1 ∧
          Log ERROR ("Error during cleanup: " +:+ err) ∈ journal s' ∧
          last (notifications s') = Some (cleanup_notice Sample.env_cleanup_fails err))).
Proof.
  assert (FILES_MAP Sample.cfg !! day_of_week Sample.env_cleanup_fails = Some "sun.bak")
    as Hmap by (vm_compute; reflexivity).
  assert ("sun.bak" ≠ "") as Hne by discriminate.
  split; [split; assumption|].
  exact (cleanup_on_every_path Sample.cfg Sample.env_cleanup_fails Sample.fs "sun.bak"
           Hmap Hne).
Defined.

Lemma smtp_failure_is_inert_witness :
  smtp_error Sample.env_smtp_down (smtp_calls (initial Sample.fs)) = Some "Connection refused" ∧
  exit_code (run Sample.cfg Sample.env_smtp_down Sample.fs).1
    = exit_code (run Sample.cfg (with_smtp Sample.env_smtp_down Sample.never) Sample.fs).1 ∧
  ∃ s', send_email Sample.env_smtp_down "subject" "body" (initial Sample.fs) = (Normal tt, s') ∧
        process_success s' = true ∧ frames s' = [] ∧
        journal s' =
          [Mail "subject" "body" false;
           Log ERROR "Failed to send notification email: Connection refused"].
Proof.
  assert (smtp_error Sample.env_smtp_down (smtp_calls (initial Sample.fs))
          = Some "Connection refused") as Hdown by (vm_compute; reflexivity).
  split; [exact Hdown|].
  destruct (smtp_failure_is_inert Sample.cfg Sample.env_smtp_down Sample.never Sample.fs)
    as [(Hcode & _) Hsend].
  split; [exact Hcode|].
  destruct (Hsend "subject" "body" (initial Sample.fs)) as (s' & Hs' & Hps & Hfr & Hj).
  exists s'. split; [exact Hs'|]. split; [exact Hps|]. split; [exact Hfr|].
  exact (Hj "Connection refused" Hdown).
Defined.

Lemma deletion_failure_is_fatal_witness :
  let cfg := Sample.cfg in
  let env := Sample.env_delete_fails in
  let s0 := (compress_and_transfer cfg env "sun.bak" (started env Sample.fs)).2 in
  let s2 := (for_each ["Monday"] (delete_day cfg env) (push_frame s0)).2 in
  let s3 := (os_remove env (source_path cfg "tue.bak") s2).2 in
  (FILES_MAP cfg !! day_of_week env = Some "sun.bak" ∧ "sun.bak" ≠ "" ∧
   present env (started env Sample.fs) (source_path cfg "sun.bak") ∧
   compress_and_transfer cfg env "sun.bak" (started env Sample.fs) = (Normal tt, s0) ∧
   get_next_days (day_of_week env) (DAYS_TO_DELETE cfg)
     = Normal (["Monday"] ++ "Tuesday" :: ["Wednesday"])%list ∧
   for_each ["Monday"] (delete_day cfg env) (push_frame s0) = (Normal tt, s2) ∧
   FILES_MAP cfg !! "Tuesday" = Some "tue.bak" ∧ "tue.bak" ≠ "" ∧
   present env s2 (source_path cfg "tue.bak") ∧
   os_remove env (source_path cfg "tue.bak") s2
     = (Raised (Exception "OSError" "Permission denied"), s3)) ∧
  ∃ s',
    run cfg env Sample.fs = (Raised (SystemExit 1), s') ∧
    exit_code (run cfg env Sample.fs).1 = 1 ∧
    deletion_notice "Tuesday" (source_path cfg "tue.bak") "Permission denied"
      ∈ notifications s' ∧
    (∀ p, p ≠ source_path cfg (zip_name "sun.bak") → files s' !! p = files s2 !! p).
Proof.
  intros cfg env s0 s2 s3.
  assert (FILES_MAP cfg !! day_of_week env = Some "sun.bak") as H1 by (vm_compute; reflexivity).
  assert ("sun.bak" ≠ "") as H2 by discriminate.
  assert (present env (started env Sample.fs) (source_path cfg "sun.bak")) as H3.
  { left. vm_compute. eexists. reflexivity. }
  assert (compress_and_transfer cfg env "sun.bak" (started env Sample.fs) = (Normal tt, s0))
    as H4 by (vm_compute; reflexivity).
  assert (get_next_days (day_of_week env) (DAYS_TO_DELETE cfg)
          = Normal (["Monday"] ++ "Tuesday" :: ["Wednesday"])%list)
    as H5 by (vm_compute; reflexivity).
  assert (for_each ["Monday"] (delete_day cfg env) (push_frame s0) = (Normal tt, s2))
    as H6 by (vm_compute; reflexivity).
  assert (FILES_MAP cfg !! "Tuesday" = Some "tue.bak") as H7 by (vm_compute; reflexivity).
  assert ("tue.bak" ≠ "") as H8 by discriminate.
  assert (present env s2 (source_path cfg "tue.bak")) as H9.
  { left. vm_compute. eexists. reflexivity. }
  assert (os_remove env (source_path cfg "tue.bak") s2
          = (Raised (Exception "OSError" "Permission denied"), s3))
    as H10 by (vm_compute; reflexivity).
  split; [exact (conj H1 (conj H2 (conj H3 (conj H4 (conj H5 (conj H6
                  (conj H7 (conj H8 (conj H9 H10)))))))))|].
  exact (deletion_failure_is_fatal cfg env Sample.fs "sun.bak" s0 ["Monday"] "Tuesday"
           ["Wednesday"] "tue.bak" "OSError" "Permission denied" s2 s3
           H1 H2 H3 H4 H5 H6 H7 H8 H9 H10).
Defined.

Lemma failed_processing_skips_deletion_witness :
  let cfg := Sample.cfg in
  let env := Sample.env_transfer_fails in
  let s0 := (compress_and_transfer cfg env "sun.bak" (started env Sample.fs)).2 in
  (FILES_MAP cfg !! day_of_week env = Some "sun.bak" ∧ "sun.bak" ≠ "" ∧
   present env (started env Sample.fs) (source_path cfg "sun.bak") ∧
   compress_and_transfer cfg env "sun.bak" (started env Sample.fs)
     = (Raised (Exception "OSError" "No space left on device"), s0)) ∧
  let zip_file_path := source_path cfg (zip_name "sun.bak") in
  ∃ s',
    run cfg env Sample.fs = (Raised (SystemExit 1), s') ∧
    exit_code (run cfg env Sample.fs).1 = 1 ∧
    process_success s' = false ∧
    (∀ p, p ≠ zip_file_path → files s' !! p = files s0 !! p) ∧
    ((¬ present env s' zip_file_path
      ∧ notifications s' = [processing_notice env "No space left on device"])
     ∨ ∃ err, notifications s' =
                [processing_notice env "No space left on device"; cleanup_notice env err]).
Proof.
  intros cfg env s0.
  assert (FILES_MAP cfg !! day_of_week env = Some "sun.bak") as H1 by (vm_compute; reflexivity).
  assert ("sun.bak" ≠ "") as H2 by discriminate.
  assert (present env (started env Sample.fs) (source_path cfg "sun.bak")) as H3.
  { left. vm_compute. eexists. reflexivity. }
  assert (compress_and_transfer cfg env "sun.bak" (started env Sample.fs)
          = (Raised (Exception "OSError" "No space left on device"), s0))
    as H4 by (vm_compute; reflexivity).
  split; [exact (conj H1 (conj H2 (conj H3 H4)))|].
  exact (failed_processing_skips_deletion cfg env Sample.fs "sun.bak" "OSError"
           "No space left on device" s0 H1 H2 H3 H4).
Defined.

Lemma retention_window_effect_witness :
  let s' := (run Sample.cfg Sample.env Sample.fs).2 in
  (DAYS_TO_DELETE Sample.cfg = 3 ∧ covers_week (FILES_MAP Sample.cfg) ∧
   run Sample.cfg Sample.env Sample.fs = (Normal tt, s')) ∧
  ∃ file_name window,
    FILES_MAP Sample.cfg !! day_of_week Sample.env = Some file_name ∧
    get_next_days (day_of_week Sample.env) 3 = Normal window ∧ length window = 3%nat ∧
    let zip_file_path := source_path Sample.cfg (zip_name file_name) in
    (∀ d n, d ∈ window → FILES_MAP Sample.cfg !! d = Some n →
            files s' !! source_path Sample.cfg n = None) ∧
    (∀ d n, d ∈ days_of_week → d ∉ window → FILES_MAP Sample.cfg !! d = Some n →
            (∀ d' n', d' ∈ window → FILES_MAP Sample.cfg !! d' = Some n' →
                      source_path Sample.cfg n ≠ source_path Sample.cfg n') →
            source_path Sample.cfg n ≠ zip_file_path →
            source_path Sample.cfg n
              ≠ copy_target Sample.env zip_file_path (FILE_SERVER_DIRECTORY Sample.cfg) →
            files s' !! source_path Sample.cfg n = Sample.fs !! source_path Sample.cfg n).
Proof.
  intros s'.
  assert (DAYS_TO_DELETE Sample.cfg = 3) as H1 by reflexivity.
  assert (covers_week (FILES_MAP Sample.cfg)) as H2.
  { intros d. unfold days_of_week. rewrite !elem_of_cons, elem_of_nil.
    intros [->|[->|[->|[->|[->|[->|[->|[]]]]]]]]; eexists; split;
      (reflexivity || discriminate). }
  assert (run Sample.cfg Sample.env Sample.fs = (Normal tt, s')) as H3
    by (vm_compute; reflexivity).
  split; [exact (conj H1 (conj H2 H3))|].
  exact (retention_window_effect Sample.cfg Sample.env Sample.fs s' H1 H2 H3).
Defined.

(** * Further properties *)

(** ** Strings *)

Lemma str_app_cons (a : ascii) (s t : string) : String a s +:+ t = String a (s +:+ t).
Proof. reflexivity. Qed.

Lemma str_app_nil_l (s : string) : "" +:+ s = s.
Proof. reflexivity. Qed.

Lemma str_app_nil_r (s : string) : s +:+ "" = s.
Proof. induction s as [|a s IH]; [done|]. by rewrite str_app_cons, IH. Qed.

Lemma str_app_assoc (a b c : string) : (a +:+ b) +:+ c = a +:+ b +:+ c.
Proof. induction a as [|x a IH]; [done|]. by rewrite !str_app_cons, IH. Qed.

(** ** Weekday arithmetic beyond one week (lines 69-72) *)

Lemma lookup_days_of_week_inj (i j : Z) (d : string) :
  0 ≤ i < 7 → 0 ≤ j < 7 →
  days_of_week !! Z.to_nat i = Some d → days_of_week !! Z.to_nat j = Some d → i = j.
Proof.
  intros Hi Hj Hdi Hdj.
  assert (NoDup days_of_week) as Hnd
    by (apply (bool_decide_unpack (NoDup days_of_week)); vm_compute; exact I).
  pose proof (NoDup_lookup _ _ _ _ Hnd Hdi Hdj). lia.
Qed.

(** X1. On a canonical weekday every count is accepted: the result has
    [max(D, 0)] names, all of them canonical; a count of zero or less gives
    the empty list. *)
Theorem get_next_days_any_count (W : string) (D : Z) :
  W ∈ days_of_week →
  ∃ l, get_next_days W D = Normal l ∧
       length l = Z.to_nat (Z.max D 0) ∧
       (D ≤ 0 → l = []) ∧
       ∀ d, d ∈ l → d ∈ days_of_week.
Proof.
  intros HW.
  destruct (get_next_days_canonical W D HW) as (start & l & _ & _ & _ & Hl & Hlen & _).
  exists l. split; [done|]. split; [lia|]. split.
  - intros HD. apply nil_length_inv. lia.
  - by apply (get_next_days_elements W D l).
Qed.

Lemma get_next_days_any_count_witness :
  "Monday" ∈ days_of_week ∧
  ∃ l, get_next_days "Monday" (-2) = Normal l ∧
       length l = Z.to_nat (Z.max (-2) 0) ∧
       (-2 ≤ 0 → l = []) ∧
       ∀ d, d ∈ l → d ∈ days_of_week.
Proof.
  assert ("Monday" ∈ days_of_week) as Hin.
  { unfold days_of_week. rewrite !elem_of_cons. tauto. }
  split; [exact Hin|]. exact (get_next_days_any_count "Monday" (-2) Hin).
Defined.

(** X2. Within one week the names returned are pairwise distinct, so the
    deletion loop visits no day twice; beyond a week the list repeats with
    period 7. *)
Theorem get_next_days_distinct_then_periodic (W : string) (D : Z) (l : list string) :
  get_next_days W D = Normal l →
  (D ≤ 7 → NoDup l) ∧
  ∀ k : nat, (k + 7 < length l)%nat → l !! (k + 7)%nat = l !! k.
Proof.
  intros Hl. destruct (get_next_days_elements W D l Hl) as (HW & Hlen & _).
  destruct (get_next_days_canonical W D HW) as (start & l' & _ & Hstart & _ & Hl' & _ & Hnth).
  assert (l' = l) as -> by congruence. split.
  - intros HD. apply NoDup_alt. intros i j d Hi Hj.
    assert (i < Z.to_nat D)%nat as Hi' by (rewrite <- Hlen; by eapply lookup_lt_Some).
    assert (j < Z.to_nat D)%nat as Hj' by (rewrite <- Hlen; by eapply lookup_lt_Some).
    rewrite Hnth in Hi, Hj by done.
    assert ((start + 1 + Z.of_nat i) `mod` 7 = (start + 1 + Z.of_nat j) `mod` 7) as E.
    { eapply lookup_days_of_week_inj; try eassumption; apply Z.mod_pos_bound; lia. }
    Z.div_mod_to_equations. lia.
  - intros k Hk. rewrite !Hnth by lia. do 2 f_equal. Z.div_mod_to_equations. lia.
Qed.

Lemma get_next_days_distinct_then_periodic_witness :
  (get_next_days "Friday" 3 = Normal ["Saturday"; "Sunday"; "Monday"] ∧ 3 ≤ 7 ∧
   get_next_days "Friday" 9 =
     Normal ["Saturday"; "Sunday"; "Monday"; "Tuesday"; "Wednesday"; "Thursday"; "Friday";
             "Saturday"; "Sunday"]) ∧
  NoDup ["Saturday"; "Sunday"; "Monday"] ∧
  ∀ k : nat, (k + 7 < 9)%nat →
    ["Saturday"; "Sunday"; "Monday"; "Tuesday"; "Wednesday"; "Thursday"; "Friday";
     "Saturday"; "Sunday"] !! (k + 7)%nat =
    ["Saturday"; "Sunday"; "Monday"; "Tuesday"; "Wednesday"; "Thursday"; "Friday";
     "Saturday"; "Sunday"] !! k.
Proof.
  assert (get_next_days "Friday" 3 = Normal ["Saturday"; "Sunday"; "Monday"])
    as Hl3 by reflexivity.
  assert (3 ≤ 7) as H37 by lia.
  assert (get_next_days "Friday" 9 =
          Normal ["Saturday"; "Sunday"; "Monday"; "Tuesday"; "Wednesday"; "Thursday";
                  "Friday"; "Saturday"; "Sunday"]) as Hl9 by reflexivity.
  split; [exact (conj Hl3 (conj H37 Hl9))|]. split.
  - exact (proj1 (get_next_days_distinct_then_periodic "Friday" 3 _ Hl3) H37).
  - exact (proj2 (get_next_days_distinct_then_periodic "Friday" 9 _ Hl9)).
Defined.

(** X3. A window of a week or more reaches every weekday, today
    included. *)
Theorem get_next_days_full_week (W : string) (D : Z) (l : list string) :
  get_next_days W D = Normal l → 7 ≤ D →
  W ∈ l ∧ ∀ d, d ∈ days_of_week → d ∈ l.
Proof.
  intros Hl HD. destruct (get_next_days_elements W D l Hl) as (HW & Hlen & _).
  destruct (get_next_days_canonical W D HW) as (start & l' & _ & Hstart & _ & Hl' & _ & Hnth).
  assert (l' = l) as -> by congruence.
  assert (∀ d, d ∈ days_of_week → d ∈ l) as Hall; [|by split; [apply Hall|]].
  intros d Hd. destruct (list_index_days_of_week d Hd) as (j & _ & Hj & Hdj).
  set (k := Z.to_nat ((j - start - 1) `mod` 7)).
  assert (0 ≤ (j - start - 1) `mod` 7 < 7) as Hk by (apply Z.mod_pos_bound; lia).
  apply list_elem_of_lookup. exists k. rewrite Hnth by lia. rewrite <- Hdj.
  do 2 f_equal. unfold k. Z.div_mod_to_equations. lia.
Qed.

Lemma get_next_days_full_week_witness :
  (get_next_days "Friday" 7 =
     Normal ["Saturday"; "Sunday"; "Monday"; "Tuesday"; "Wednesday"; "Thursday"; "Friday"]
   ∧ 7 ≤ 7) ∧
  "Friday" ∈ ["Saturday"; "Sunday"; "Monday"; "Tuesday"; "Wednesday"; "Thursday"; "Friday"] ∧
  ∀ d, d ∈ days_of_week →
       d ∈ ["Saturday"; "Sunday"; "Monday"; "Tuesday"; "Wednesday"; "Thursday"; "Friday"].
Proof.
  assert (get_next_days "Friday" 7 =
          Normal ["Saturday"; "Sunday"; "Monday"; "Tuesday"; "Wednesday"; "Thursday";
                  "Friday"]) as Hl by reflexivity.
  assert (7 ≤ 7) as HD by lia.
  split; [exact (conj Hl HD)|].
  exact (get_next_days_full_week "Friday" 7 _ Hl HD).
Defined.

(** X4. Looking ahead [a + b] days is looking ahead [a] days and then [b]
    more days from the last day reached. *)
Theorem get_next_days_add (W : string) (a b : Z) (l1 : list string) :
  0 ≤ a → 0 ≤ b →
  get_next_days W a = Normal l1 →
  ∃ l2, get_next_days (default W (last l1)) b = Normal l2 ∧
        get_next_days W (a + b) = Normal (l1 ++ l2)%list.
Proof.
  intros Ha Hb Hl1. destruct (get_next_days_elements W a l1 Hl1) as (HW & Hlen1 & Hsub).
  destruct (get_next_days_canonical W a HW) as (start & l & _ & Hstart & HdW & Hl & _ & Hnth1).
  assert (l = l1) as -> by congruence.
  set (W' := default W (last l1)).
  assert (days_of_week !! Z.to_nat ((start + a) `mod` 7) = Some W') as HdW'.
  { unfold W'. destruct (decide (a = 0)) as [->|Hne].
    - assert (l1 = []) as -> by (apply nil_length_inv; lia). cbn.
      rewrite Z.add_0_r, Z.mod_small by lia. done.
    - rewrite last_lookup, Hnth1 by lia.
      destruct (getitem_days_of_week ((start + a) `mod` 7)) as (d & Hd & _).
      { apply Z.mod_pos_bound. lia. }
      replace ((start + 1 + Z.of_nat (Nat.pred (length l1))) `mod` 7)
        with ((start + a) `mod` 7) by (f_equal; lia).
      by rewrite Hd. }
  assert (W' ∈ days_of_week) as HW' by (by eapply list_elem_of_lookup_2).
  destruct (get_next_days_canonical W' b HW')
    as (start' & l2 & _ & Hstart' & HdW'2 & Hl2 & Hlen2 & Hnth2).
  assert (start' = (start + a) `mod` 7) as Hs'.
  { eapply lookup_days_of_week_inj; try eassumption. apply Z.mod_pos_bound. lia. }
  destruct (get_next_days_canonical W (a + b) HW)
    as (start'' & l3 & _ & Hstart'' & HdW'' & Hl3 & Hlen3 & Hnth3).
  assert (start'' = start) as -> by (by eapply lookup_days_of_week_inj).
  exists l2. split; [done|]. rewrite Hl3. f_equal.
  apply list_eq. intros k.
  destruct (decide (k < Z.to_nat (a + b))%nat) as [Hk|Hk].
  2:{ rewrite !lookup_ge_None_2; [done|rewrite length_app|]; lia. }
  rewrite Hnth3 by done.
  destruct (decide (k < length l1)%nat) as [Hk1|Hk1].
  - rewrite lookup_app_l by done. rewrite Hnth1 by lia. done.
  - rewrite lookup_app_r by lia. rewrite Hnth2 by lia. do 2 f_equal.
    rewrite Hs'. rewrite Nat2Z.inj_sub by lia. Z.div_mod_to_equations. lia.
Qed.

Lemma get_next_days_add_witness :
  (0 ≤ 2 ∧ 0 ≤ 3 ∧ get_next_days "Friday" 2 = Normal ["Saturday"; "Sunday"]) ∧
  ∃ l2, get_next_days (default "Friday" (last ["Saturday"; "Sunday"])) 3 = Normal l2 ∧
        get_next_days "Friday" (2 + 3) = Normal (["Saturday"; "Sunday"] ++ l2)%list.
Proof.
  assert (0 ≤ 2) as Ha by lia. assert (0 ≤ 3) as Hb by lia.
  assert (get_next_days "Friday" 2 = Normal ["Saturday"; "Sunday"]) as Hl by reflexivity.
  split; [exact (conj Ha (conj Hb Hl))|].
  exact (get_next_days_add "Friday" 2 3 _ Ha Hb Hl).
Defined.

(** ** The deletion step as a whole (lines 74-92) *)

Lemma delete_day_skipped (cfg : config) (env : environment) (day : string) (s : state) :
  (∀ name, FILES_MAP cfg !! day = Some name → name ≠ "" →
           ¬ present env s (source_path cfg name)) →
  delete_day cfg env day s = (Normal tt, s).
Proof.
  intros Hskip. unfold delete_day.
  destruct (FILES_MAP cfg !! day) as [[|a name]|]; [done| |done].
  unfold bind, os_path_exists. fold (source_path cfg (String a name)).
  by rewrite (absent_exists _ _ _ (Hskip _ eq_refl ltac:(discriminate))).
Qed.

Lemma delete_loop_skipped (cfg : config) (env : environment) (days : list string)
    (s : state) :
  (∀ d name, d ∈ days → FILES_MAP cfg !! d = Some name → name ≠ "" →
             ¬ present env s (source_path cfg name)) →
  for_each days (delete_day cfg env) s = (Normal tt, s).
Proof.
  induction days as [|d days IH]; intros Hskip; [done|].
  cbn. unfold bind. rewrite delete_day_skipped.
  - apply IH. intros d' name Hd'. apply Hskip. by right.
  - intros name. apply Hskip. by left.
Qed.

Lemma delete_loop_notices (cfg : config) (env : environment) (days : list string)
    (s : state) (o : outcome unit) (s' : state) :
  for_each days (delete_day cfg env) s = (o, s') →
  (o = Normal tt ∧ notifications s' = notifications s)
  ∨ (o = Raised (SystemExit 1) ∧
     ∃ day name err,
       day ∈ days ∧ FILES_MAP cfg !! day = Some name ∧
       notifications s' =
         (notifications s ++ [deletion_notice day (source_path cfg name) err])%list).
Proof.
  revert s. induction days as [|d days IH]; intros s H.
  - cbn in H. unfold ret in H. simplify_eq. by left.
  - cbn in H. unfold bind in H.
    destruct (delete_day cfg env d s) as [o1 s1] eqn:Hd.
    apply delete_day_effect in Hd as (_ & Hcase).
    destruct Hcase as [(-> & Hn1 & _)|(-> & _ & name & cls & err & s0 & Hm & _ & Hn1)].
    + apply IH in H as [(-> & Hn)|(-> & day & name & err & Hin & Hm & Hn)].
      * left. split; [done|congruence].
      * right. split; [done|]. exists day, name, err.
        split; [by right|]. split; [done|]. by rewrite Hn, Hn1.
    + simplify_eq. right. split; [done|]. exists d, name, err.
      split; [by left|]. split; [done|]. done.
Qed.

Lemma pop_push_frame (s : state) : pop_frame (push_frame s) = s.
Proof. by destruct s. Qed.

Lemma delete_next_backups_notices (cfg : config) (env : environment)
    (current_day : string) (days_to_delete : Z)
    (s : state) (o : outcome unit) (s' : state) :
  delete_next_backups cfg env current_day days_to_delete s = (o, s') →
  (o = Normal tt ∧ notifications s' = notifications s)
  ∨ (o = Raised (SystemExit 1) ∧
     ∃ day name err,
       FILES_MAP cfg !! day = Some name ∧
       notifications s' =
         (notifications s ++ [deletion_notice day (source_path cfg name) err])%list)
  ∨ (∃ msg, o = Raised (Exception "ValueError" msg) ∧ notifications s' = notifications s).
Proof.
  intros H. pose proof H as H'.
  apply delete_next_backups_effect in H' as (_ & _ & _ & Hcase).
  destruct Hcase as [(days & Hdays & _ & _)|(msg & _ & -> & _ & Hn)]; [|right; right; eauto].
  unfold delete_next_backups, call, bind, lift in H. rewrite Hdays in H.
  destruct (for_each days (delete_day cfg env) (push_frame s)) as [o1 s1] eqn:Hloop.
  apply delete_loop_notices in Hloop. simplify_eq.
  destruct Hloop as [(-> & Hn)|(-> & day & name & err & _ & Hm & Hn)].
  - by left.
  - right; left. split; [done|]. by exists day, name, err.
Qed.

(** X5. The contract of [delete_next_backups]: it returns normally, exits
    with code 1, or (exactly when the weekday name is not canonical) raises
    [ValueError].  Whatever the outcome, the caller's frames and the
    module-level flag are as before, no file is created or modified, and a
    file that disappears is the mapped file of a window day.  A normal
    return sends no notification; an exit sends exactly one deletion
    notice. *)
Theorem delete_next_backups_contract (cfg : config) (env : environment)
    (current_day : string) (days_to_delete : Z)
    (s : state) (o : outcome unit) (s' : state) :
  delete_next_backups cfg env current_day days_to_delete s = (o, s') →
  frames s' = frames s ∧ process_success s' = process_success s ∧
  files s' ⊆ files s ∧
  (∀ p, is_Some (files s !! p) → files s' !! p = None →
        ∃ days d name,
          get_next_days current_day days_to_delete = Normal days ∧
          d ∈ days ∧ FILES_MAP cfg !! d = Some name ∧ p = source_path cfg name) ∧
  ((o = Normal tt ∧ current_day ∈ days_of_week ∧ notifications s' = notifications s)
   ∨ (o = Raised (SystemExit 1) ∧ current_day ∈ days_of_week ∧
      ∃ day name err,
        FILES_MAP cfg !! day = Some name ∧
        notifications s' =
          (notifications s ++ [deletion_notice day (source_path cfg name) err])%list)
   ∨ (∃ msg, o = Raised (Exception "ValueError" msg) ∧ (current_day ∉ days_of_week) ∧
             files s' = files s ∧ notifications s' = notifications s)).
Proof.
  intros H. pose proof H as H'. pose proof H as H''.
  apply delete_next_backups_effect in H'' as (Hfr & Hps & _ & Hcase).
  split; [done|]. split; [done|].
  destruct Hcase as [(days & Hdays & Hfs & Hout)|(msg & Hdays & -> & Hfs & Hn)].
  - destruct (get_next_days_elements _ _ _ Hdays) as (Hin & _ & _).
    split; [|split].
    + apply map_subseteq_spec. intros p c Hp.
      destruct (Hfs p) as [E|[E _]]; rewrite E in Hp; [done|discriminate].
    + intros p [c Hc] Hnone. destruct (Hfs p) as [E|(_ & d & name & Hd & Hm & ->)].
      * congruence.
      * by exists days, d, name.
    + apply delete_next_backups_notices in H
        as [(-> & Hn)|[(-> & day & name & err & Hm & Hn)|(msg & -> & _)]].
      * left. done.
      * right; left. split; [done|]. split; [done|]. by exists day, name, err.
      * destruct (get_next_days_outside current_day days_to_delete) as (? & _ & ?);
          [|congruence].
        intros Hin'. pose proof H' as Hbad. unfold delete_next_backups, call, bind, lift in Hbad.
        rewrite Hdays in Hbad.
        destruct (for_each days (delete_day cfg env) (push_frame s)) as [o1 s1] eqn:Hloop.
        apply delete_loop_notices in Hloop. simplify_eq.
        destruct Hloop as [[[=] _]|[[=] _]].
  - split; [by rewrite Hfs|].
    split; [intros p [c Hc] Hnone; rewrite Hfs, Hc in Hnone; discriminate|].
    right; right. exists msg. repeat split; try done.
    intros Hin. destruct (get_next_days_canonical current_day days_to_delete Hin)
      as (? & ? & _ & _ & _ & Hl & _). congruence.
Qed.

(** X6. The deletion step is idempotent: repeated right after a normal
    return it finds nothing left to remove and changes nothing. *)
Theorem delete_next_backups_idempotent (cfg : config) (env : environment)
    (current_day : string) (days_to_delete : Z) (s s1 : state) :
  delete_next_backups cfg env current_day days_to_delete s = (Normal tt, s1) →
  delete_next_backups cfg env current_day days_to_delete s1 = (Normal tt, s1).
Proof.
  intros H. apply delete_next_backups_effect in H as (_ & _ & _ & Hcase).
  destruct Hcase as [(days & Hdays & _ & [(_ & _ & Habs)|[=]])|(? & _ & [=] & _)].
  unfold delete_next_backups, call, bind, lift. rewrite Hdays.
  rewrite delete_loop_skipped; [by rewrite pop_push_frame|].
  intros d name Hd Hm Hne Hpr. by apply (Habs d name Hd Hm Hne).
Qed.

(** ** Outcomes of a run (lines 95-173) *)

Lemma run_unmapped (cfg : config) (env : environment) (fs : gmap string content) :
  FILES_MAP cfg !! day_of_week env = None ∨ FILES_MAP cfg !! day_of_week env = Some "" →
  ∃ s', run cfg env fs = (Raised (SystemExit 1), s') ∧
        notifications s' = [unmapped_notice env] ∧ files s' = fs ∧
        process_success s' = false.
Proof.
  intros Hmap. unfold run, main, bind. cbn.
  destruct Hmap as [-> | ->]; cbn; step_send_email s' Hs'; cbn in *;
    exists s'; rewrite Hn, Hfs, Hps; done.
Qed.

(** X7. Every run ends by completing (exit code 0) or by [sys.exit(1)]: no
    exception escapes the script.  It issues one or two notifications, in
    one of these patterns: the success notice alone, exactly when the run
    completes; the no-mapping notice; a missing-file or processing notice,
    possibly followed by a cleanup notice; a deletion notice followed by
    the success notice or by a cleanup notice; a cleanup notice alone. *)
Theorem run_outcomes (cfg : config) (env : environment) (fs : gmap string content) :
  ∃ o s',
    run cfg env fs = (o, s') ∧
    (o = Normal tt ∨ o = Raised (SystemExit 1)) ∧
    ((o = Raised (SystemExit 1) ∧ notifications s' = [unmapped_notice env] ∧
      (FILES_MAP cfg !! day_of_week env = None ∨ FILES_MAP cfg !! day_of_week env = Some ""))
     ∨ ∃ file_name,
         FILES_MAP cfg !! day_of_week env = Some file_name ∧ file_name ≠ "" ∧
         ((o = Normal tt ∧ process_success s' = true ∧
           notifications s' = [success_notice env file_name])
          ∨ (o = Raised (SystemExit 1) ∧ process_success s' = false ∧
             ∃ first,
               (first = missing_file_notice cfg env file_name
                ∨ ∃ e, first = processing_notice env e) ∧
               (notifications s' = [first]
                ∨ ∃ err, notifications s' = [first; cleanup_notice env err]))
          ∨ (o = Raised (SystemExit 1) ∧
             ∃ day name err,
               FILES_MAP cfg !! day = Some name ∧
               ((process_success s' = true ∧
                 notifications s' =
                   [deletion_notice day (source_path cfg name) err;
                    success_notice env file_name])
                ∨ ∃ err', process_success s' = false ∧
                          notifications s' =
                            [deletion_notice day (source_path cfg name) err;
                             cleanup_notice env err']))
          ∨ (o = Raised (SystemExit 1) ∧ process_success s' = false ∧
             ∃ err, notifications s' = [cleanup_notice env err]))).
Proof.
  destruct (FILES_MAP cfg !! day_of_week env) as [file_name|] eqn:Hmap.
  2:{ destruct (run_unmapped cfg env fs) as (s' & -> & Hn & _); [by left|].
      exists (Raised (SystemExit 1)), s'. split; [done|]. split; [by right|].
      left. split; [done|]. split; [done|]. by left. }
  destruct (decide (file_name = "")) as [->|Hne].
  { destruct (run_unmapped cfg env fs) as (s' & -> & Hn & _); [by right|].
    exists (Raised (SystemExit 1)), s'. split; [done|]. split; [by right|].
    left. split; [done|]. split; [done|]. by right. }
  rewrite (run_workflow _ _ _ _ Hmap Hne).
  destruct (workflow cfg env file_name (started env fs)) as [o s'] eqn:Hw.
  exists o, s'. split; [done|].
  apply workflow_split in Hw as (o1 & s1 & o2 & Hg & Hfin & Ho).
  pose proof Hg as Hg'. apply guarded_cases in Hg' as [Hfr1 Hcase]; [|done].
  apply finally_suite_effect in Hfin as (_ & _ & Hfcase); [|done].
  (* what the guarded block leaves *)
  assert ((o1 = Normal tt ∧ process_success s1 = true ∧ notifications s1 = [])
          ∨ (o1 = Raised (SystemExit 1) ∧ process_success s1 = false ∧
             ∃ first, (first = missing_file_notice cfg env file_name
                       ∨ ∃ e, first = processing_notice env e) ∧
                      notifications s1 = [first])
          ∨ (o1 = Raised (SystemExit 1) ∧ process_success s1 = true ∧
             ∃ day name err, FILES_MAP cfg !! day = Some name ∧
               notifications s1 = [deletion_notice day (source_path cfg name) err]))
    as Hguard.
  { destruct Hcase as [(_ & -> & _ & Hps & Hn)|[(_ & cls & e & s0 & _ & -> & _ & Hps & Hn)
                      |[(_ & s0 & msg & _ & _ & -> & _ & Hps & Hn)
                       |(_ & s0 & o2' & Hct & Hdel & Hoc & -> & Hps)]]].
    - right; left. split; [done|]. split; [done|]. eexists. split; [by left|exact Hn].
    - right; left. split; [done|]. split; [done|]. eexists. split; [right; eauto|exact Hn].
    - right; left. split; [done|]. split; [done|]. eexists. split; [right; eauto|exact Hn].
    - apply compress_and_transfer_effect in Hct as (_ & _ & Hn0 & _).
      apply delete_next_backups_notices in Hdel
        as [(-> & Hn)|[(-> & day & name & err & Hm & Hn)|(msg & -> & _)]].
      + left. split; [done|]. split; [done|]. by rewrite Hn, Hn0.
      + right; right. split; [done|]. split; [done|]. exists day, name, err.
        split; [done|]. rewrite Hn, Hn0. reflexivity.
      + destruct Hoc as [[=]|[=]]. }
  assert (o = Normal tt ∨ o = Raised (SystemExit 1)) as Hout.
  { destruct Hfcase as [(_ & -> & _)|[(_ & _ & -> & _)|(_ & ? & ? & ? & _ & -> & _)]];
      destruct Ho as [[_ ->]|[_ ->]]; try (by right);
      destruct Hguard as [(-> & _)|[(-> & _)|(-> & _)]]; auto. }
  split; [done|]. right. exists file_name. split; [done|]. split; [done|].
  destruct Hguard as [(-> & Hps1 & Hn1)|[(-> & Hps1 & first & Hfirst & Hn1)
                     |(-> & Hps1 & day & name & err & Hm & Hn1)]].
  - rewrite Hps1, Hn1 in Hfcase.
    destruct Hfcase as [(_ & -> & _ & Hps & Hn)|[(_ & _ & -> & _ & _ & _ & Hps & Hn)
                       |(_ & ? & err & ? & _ & -> & _ & Hps & _ & Hn)]].
    + destruct Ho as [[_ ->]|[[? [=]] _]]. left. split; [done|]. split; [congruence|done].
    + destruct Ho as [[_ ->]|[[? [=]] _]]. left. split; [done|]. split; [congruence|done].
    + destruct Ho as [[[=] _]|[_ ->]]. do 3 right. split; [done|]. split; [done|]. eauto.
  - rewrite Hps1, Hn1 in Hfcase. right; left.
    destruct Hfcase as [(_ & -> & _ & Hps & Hn)|[(_ & _ & -> & _ & _ & _ & Hps & Hn)
                       |(_ & ? & err & ? & _ & -> & _ & Hps & _ & Hn)]].
    + destruct Ho as [[_ ->]|[[? [=]] _]]. split; [done|]. split; [congruence|].
      exists first. split; [done|]. by left.
    + destruct Ho as [[_ ->]|[[? [=]] _]]. split; [done|]. split; [congruence|].
      exists first. split; [done|]. by left.
    + destruct Ho as [[[=] _]|[_ ->]]. split; [done|]. split; [done|].
      exists first. split; [done|]. right. by exists err.
  - rewrite Hps1, Hn1 in Hfcase. do 2 right. left.
    destruct Hfcase as [(_ & -> & _ & Hps & Hn)|[(_ & _ & -> & _ & _ & _ & Hps & Hn)
                       |(_ & ? & err' & ? & _ & -> & _ & Hps & _ & Hn)]].
    + destruct Ho as [[_ ->]|[[? [=]] _]]. split; [done|]. exists day, name, err.
      split; [done|]. left. split; [congruence|done].
    + destruct Ho as [[_ ->]|[[? [=]] _]]. split; [done|]. exists day, name, err.
      split; [done|]. left. split; [congruence|done].
    + destruct Ho as [[[=] _]|[_ ->]]. split; [done|]. exists day, name, err.
      split; [done|]. right. by exists err'.
Qed.

(** ** Failure paths of the workflow *)

(** X8. When the file mapped for today is not in the source directory, the
    run exits with code 1 with the flag cleared; the first notification is
    the missing-file notice, which names the file and the source directory;
    the only path that may change is the temporary archive's, where a stale
    archive is removed by the cleanup (or a cleanup notice follows). *)
Theorem missing_source_file_is_fatal (cfg : config) (env : environment)
    (fs : gmap string content) (file_name : string) :
  FILES_MAP cfg !! day_of_week env = Some file_name → file_name ≠ "" →
  ¬ present env (started env fs) (source_path cfg file_name) →
  let zip_file_path := source_path cfg (zip_name file_name) in
  ∃ s',
    run cfg env fs = (Raised (SystemExit 1), s') ∧
    process_success s' = false ∧
    contains file_name (missing_file_notice cfg env file_name).2 ∧
    contains (SOURCE_DIRECTORY cfg) (missing_file_notice cfg env file_name).2 ∧
    (∀ p, p ≠ zip_file_path → files s' !! p = fs !! p) ∧
    ((¬ present env s' zip_file_path ∧
      notifications s' = [missing_file_notice cfg env file_name])
     ∨ ∃ err, notifications s' =
                [missing_file_notice cfg env file_name; cleanup_notice env err]).
Proof.
  intros Hmap Hne Habs zip_file_path.
  rewrite (run_workflow _ _ _ _ Hmap Hne).
  destruct (workflow cfg env file_name (started env fs)) as [o s'] eqn:Hw.
  apply workflow_split in Hw as (o1 & s1 & o2 & Hg & Hfin & Ho).
  pose proof Hg as Hg'. apply guarded_cases in Hg' as [Hfr1 Hcase]; [|done].
  assert (o1 = Raised (SystemExit 1) ∧ files s1 = fs ∧ process_success s1 = false ∧
          notifications s1 = [missing_file_notice cfg env file_name])
    as (-> & Hfs1 & Hps1 & Hn1).
  { destruct Hcase as [(_ & -> & Hfs & Hps & Hn)|[(Hpr & _)|[(Hpr & _)|(Hpr & _)]]]; done. }
  apply finally_suite_effect in Hfin as (_ & Hframe & Hfcase); [|done].
  fold zip_file_path in Hframe, Hfcase. rewrite Hps1, Hn1 in Hfcase.
  assert (o = Raised (SystemExit 1)) as ->.
  { destruct Hfcase as [(_ & -> & _)|[(_ & _ & -> & _)|(_ & ? & ? & ? & _ & -> & _)]];
      destruct Ho as [[Ho2 ->]|[[e' He] ->]]; try done. }
  exists s'. split; [done|]. split; [|split; [|split; [|split]]].
  - destruct Hfcase as [(_ & _ & _ & -> & _)|[(_ & _ & _ & _ & _ & _ & -> & _)
                       |(_ & ? & ? & ? & _ & _ & _ & -> & _)]]; done.
  - unfold missing_file_notice. cbn. exists "File ". eexists. reflexivity.
  - unfold missing_file_notice. cbn.
    exists ("File " +:+ file_name +:+ " not found for " +:+ day_of_week env +:+ " in ").
    exists ". Process aborted.". by rewrite !str_app_assoc.
  - intros p Hp. by rewrite Hframe, Hfs1.
  - destruct Hfcase as [(Hno & _ & Hfs & _ & ->)|[(_ & _ & _ & Hfs & Hd & _ & _ & ->)
                       |(_ & ? & err & ? & _ & _ & _ & _ & _ & ->)]].
    + left. split; [|done]. unfold present in *. by rewrite Hfs.
    + left. split; [|done]. unfold present.
      rewrite Hfs, lookup_delete_eq, Hd. by intros [[? [=]]|[=]].
    + right. by exists err.
Qed.

(** X9. An empty file name in the mapping counts as no mapping: the run
    exits with code 1 after the single no-mapping notice, and no file is
    touched. *)
Theorem empty_file_name_is_unmapped (cfg : config) (env : environment)
    (fs : gmap string content) :
  FILES_MAP cfg !! day_of_week env = Some "" →
  ∃ s', run cfg env fs = (Raised (SystemExit 1), s') ∧
        notifications s' = [unmapped_notice env] ∧ files s' = fs ∧
        process_success s' = false.
Proof. intros Hmap. apply run_unmapped. by right. Qed.

(** X10. A weekday name outside the canonical seven (as a non-English
    locale gives) is only noticed by the deletion step: the file is
    archived and transferred first, then [get_next_days] raises
    [ValueError], which the [except] suite reports before exiting with code
    1.  The copy stays on the file server and nothing is deleted but the
    temporary archive. *)
Theorem unsupported_weekday_fails_after_transfer (cfg : config) (env : environment)
    (fs : gmap string content) (file_name : string) (s0 : state) :
  FILES_MAP cfg !! day_of_week env = Some file_name → file_name ≠ "" →
  present env (started env fs) (source_path cfg file_name) →
  compress_and_transfer cfg env file_name (started env fs) = (Normal tt, s0) →
  day_of_week env ∉ days_of_week →
  let zip_file_path := source_path cfg (zip_name file_name) in
  let target := copy_target env zip_file_path (FILE_SERVER_DIRECTORY cfg) in
  ∃ s' msg member,
    run cfg env fs = (Raised (SystemExit 1), s') ∧
    get_next_days (day_of_week env) (DAYS_TO_DELETE cfg)
      = Raised (Exception "ValueError" msg) ∧
    head (notifications s') = Some (processing_notice env msg) ∧
    files s' !! target = Some (Archive [member]) ∧
    (∀ p, p ≠ zip_file_path → files s' !! p = files s0 !! p).
Proof.
  intros Hmap Hne Hpr Hct Hday zip_file_path target.
  destruct (get_next_days_outside (day_of_week env) (DAYS_TO_DELETE cfg) Hday)
    as (msg & _ & Hraise).
  rewrite (run_workflow _ _ _ _ Hmap Hne).
  destruct (workflow cfg env file_name (started env fs)) as [o s'] eqn:Hw.
  apply workflow_split in Hw as (o1 & s1 & o2 & Hg & Hfin & Ho).
  pose proof Hg as Hg'. apply guarded_cases in Hg' as [Hfr1 Hcase]; [|done].
  assert (o1 = Raised (SystemExit 1) ∧ files s1 = files s0 ∧
          notifications s1 = [processing_notice env msg]) as (-> & Hfs1 & Hn1).
  { destruct Hcase as [(Habs & _)|[(_ & ? & ? & ? & Hct' & _)
                      |[(_ & s0' & msg' & Hct' & Hraise' & -> & Hfs & _ & Hn)
                       |(_ & s0' & o2' & Hct' & Hdel & Hoc & -> & _)]]];
      [done|congruence| |].
    - rewrite Hct in Hct'. rewrite Hraise in Hraise'. by simplify_eq.
    - rewrite Hct in Hct'. simplify_eq.
      apply delete_next_backups_effect in Hdel as (_ & _ & _ & Hdc).
      destruct Hdc as [(days & Hdays & _)|(? & _ & -> & _)]; [congruence|].
      by destruct Hoc. }
  pose proof Hct as Hct'.
  apply compress_and_transfer_effect in Hct' as (_ & _ & _ & _ & _ & Hcc).
  fold zip_file_path target in Hcc.
  destruct Hcc as [(_ & Hzt & _ & _ & member & _ & Htarget & _)|(? & ? & [=])].
  apply finally_suite_effect in Hfin as (_ & Hframe & Hfcase); [|done].
  fold zip_file_path in Hframe, Hfcase. rewrite Hn1 in Hfcase.
  assert (o = Raised (SystemExit 1)) as ->.
  { destruct Hfcase as [(_ & -> & _)|[(_ & _ & -> & _)|(_ & ? & ? & ? & _ & -> & _)]];
      destruct Ho as [[Ho2 ->]|[[e' He] ->]]; try done. }
  exists s', msg, member. split; [done|]. split; [done|]. split; [|split].
  - destruct Hfcase as [(_ & _ & _ & _ & ->)|[(_ & _ & _ & _ & _ & _ & _ & ->)
                       |(_ & ? & ? & ? & _ & _ & _ & _ & _ & ->)]]; done.
  - rewrite Hframe by done. by rewrite Hfs1.
  - intros p Hp. by rewrite Hframe, Hfs1.
Qed.

(** X11. After a failed deletion the module-level flag is still set,
    because line 87 binds a local name: if the cleanup succeeds, the
    deletion notice is followed by the success notice, in a run that exits
    with code 1; otherwise it is followed by the cleanup notice. *)
Theorem deletion_failure_still_reports_success (cfg : config) (env : environment)
    (fs : gmap string content) (file_name : string) (s0 : state)
    (before : list string) (day : string) (after : list string)
    (name cls err : string) (s2 s3 : state) :
  FILES_MAP cfg !! day_of_week env = Some file_name → file_name ≠ "" →
  present env (started env fs) (source_path cfg file_name) →
  compress_and_transfer cfg env file_name (started env fs) = (Normal tt, s0) →
  get_next_days (day_of_week env) (DAYS_TO_DELETE cfg) = Normal (before ++ day :: after)%list →
  for_each before (delete_day cfg env) (push_frame s0) = (Normal tt, s2) →
  FILES_MAP cfg !! day = Some name → name ≠ "" →
  present env s2 (source_path cfg name) →
  os_remove env (source_path cfg name) s2 = (Raised (Exception cls err), s3) →
  ∃ s',
    run cfg env fs = (Raised (SystemExit 1), s') ∧
    ((process_success s' = true ∧
      notifications s' =
        [deletion_notice day (source_path cfg name) err; success_notice env file_name])
     ∨ ∃ err', process_success s' = false ∧
               notifications s' =
                 [deletion_notice day (source_path cfg name) err; cleanup_notice env err']).
Proof.
  intros Hmap Hne Hsrc Hct Hdays Hbefore Hday Hname Hpr Hrm.
  rewrite (run_workflow _ _ _ _ Hmap Hne).
  assert (notifications s0 = []) as Hn0.
  { apply compress_and_transfer_effect in Hct as (_ & _ & Hn0 & _). by rewrite Hn0. }
  assert (notifications s2 = []) as Hn2.
  { apply delete_loop_notices in Hbefore as [(_ & Hn)|([=] & _)]. by rewrite Hn. }
  assert (∃ s1, delete_next_backups cfg env (day_of_week env) (DAYS_TO_DELETE cfg) s0
                = (Raised (SystemExit 1), s1) ∧
                notifications s1 = [deletion_notice day (source_path cfg name) err])
    as (s1 & Hdel & Hn1).
  { unfold delete_next_backups, call, bind, lift. rewrite Hdays, for_each_app, Hbefore.
    cbn. unfold bind.
    destruct (delete_day cfg env day s2) as [od sd] eqn:Hd.
    apply delete_day_effect in Hd as (_ & Hcase).
    destruct Hcase as [(-> & _ & _ & Hok)|(-> & Hfs & name' & cls' & err' & s3' & Hm' & Hrm' & Hn)].
    - destruct (Hok name Hday Hname) as [_ Hok']. destruct (Hok' Hpr) as [? Hrm']. congruence.
    - eexists. split; [reflexivity|].
      assert (name' = name) as -> by congruence.
      rewrite Hrm in Hrm'. injection Hrm' as <- <- <-.
      unfold notifications at 1. cbn. fold (notifications sd). by rewrite Hn, Hn2. }
  destruct (workflow cfg env file_name (started env fs)) as [o s'] eqn:Hw.
  apply workflow_split in Hw as (o1 & sg & o2 & Hg & Hfin & Ho).
  pose proof Hg as Hg'. apply guarded_cases in Hg' as [Hfrg Hcase]; [|done].
  assert (o1 = Raised (SystemExit 1) ∧ sg = s1 ∧ process_success s1 = true)
    as (-> & -> & Hps1).
  { destruct Hcase as [(Habs & _)|[(_ & ? & ? & ? & Hct' & _)|[(_ & ? & ? & _ & Hd' & _)
                       |(_ & s0' & o2' & Hct' & Hdel' & _ & -> & Hps)]]];
      [done|congruence|congruence|].
    rewrite Hct in Hct'. simplify_eq. rewrite Hdel in Hdel'. by simplify_eq. }
  apply finally_suite_effect in Hfin as (_ & _ & Hfcase); [|done].
  rewrite Hps1, Hn1 in Hfcase.
  assert (o = Raised (SystemExit 1)) as ->.
  { destruct Hfcase as [(_ & -> & _)|[(_ & _ & -> & _)|(_ & ? & ? & ? & _ & -> & _)]];
      destruct Ho as [[Ho2 ->]|[[e' He] ->]]; try done. }
  exists s'. split; [done|].
  destruct Hfcase as [(_ & _ & _ & Hps & Hn)|[(_ & _ & _ & _ & _ & _ & Hps & Hn)
                     |(_ & ? & err' & ? & _ & _ & _ & Hps & _ & Hn)]].
  - left. split; [congruence|done].
  - left. split; [congruence|done].
  - right. by exists err'.
Qed.

Lemma run_touches_only_its_files_aux (cfg : config) (env : environment)
    (fs : gmap string content) (file_name : string) (o : outcome unit) (s' : state) :
  FILES_MAP cfg !! day_of_week env = Some file_name →
  run cfg env fs = (o, s') →
  let zip_file_path := source_path cfg (zip_name file_name) in
  let target := copy_target env zip_file_path (FILE_SERVER_DIRECTORY cfg) in
  ∀ p, p ≠ zip_file_path → p ≠ target →
       files s' !! p = fs !! p
       ∨ (files s' !! p = None ∧
          ∃ days d name,
            get_next_days (day_of_week env) (DAYS_TO_DELETE cfg) = Normal days ∧
            d ∈ days ∧ FILES_MAP cfg !! d = Some name ∧ p = source_path cfg name).
Proof.
  intros Hmap Hrun zip_file_path target p Hzip Htarget.
  destruct (decide (file_name = "")) as [->|Hne].
  { destruct (run_unmapped cfg env fs (or_intror Hmap)) as (s1 & Hrun' & _ & Hfs & _).
    rewrite Hrun in Hrun'. injection Hrun' as -> ->. left. by rewrite Hfs. }
  rewrite (run_workflow _ _ _ _ Hmap Hne) in Hrun.
  apply workflow_split in Hrun as (o1 & s1 & o2 & Hg & Hfin & Ho).
  pose proof Hg as Hg'. apply guarded_cases in Hg' as [Hfr1 Hcase]; [|done].
  apply finally_suite_effect in Hfin as (_ & Hframe & _); [|done].
  rewrite Hframe by done.
  destruct Hcase as [(_ & _ & Hfs & _)|[(_ & ? & ? & s0 & Hct & _ & Hfs & _)
                    |[(_ & s0 & ? & Hct & _ & _ & Hfs & _)
                     |(_ & s0 & o2' & Hct & Hdel & _)]]].
  - left. by rewrite Hfs.
  - apply compress_and_transfer_effect in Hct as (_ & _ & _ & _ & Hfs0 & _).
    left. rewrite Hfs. by apply Hfs0.
  - apply compress_and_transfer_effect in Hct as (_ & _ & _ & _ & Hfs0 & _).
    left. rewrite Hfs. by apply Hfs0.
  - apply compress_and_transfer_effect in Hct as (_ & _ & _ & _ & Hfs0 & _).
    apply delete_next_backups_effect in Hdel as (_ & _ & _ & Hdc).
    destruct Hdc as [(days & Hdays & Hfs & _)|(? & _ & _ & Hfs & _)].
    + destruct (Hfs p) as [E|(E & d & name & Hd & Hm & ->)].
      * left. rewrite E. by apply Hfs0.
      * right. split; [done|]. by exists days, d, name.
    + left. rewrite Hfs. by apply Hfs0.
Qed.

(** X12. Whatever happens, a run writes at no path other than the
    temporary archive's and the copy's: every other path holds what it held
    before, or held the mapped file of a window day and is now empty. *)
Theorem run_touches_only_its_files (cfg : config) (env : environment)
    (fs : gmap string content) (file_name : string) (o : outcome unit) (s' : state) :
  FILES_MAP cfg !! day_of_week env = Some file_name →
  run cfg env fs = (o, s') →
  let zip_file_path := source_path cfg (zip_name file_name) in
  let target := copy_target env zip_file_path (FILE_SERVER_DIRECTORY cfg) in
  ∀ p, p ≠ zip_file_path → p ≠ target →
       files s' !! p = fs !! p
       ∨ (files s' !! p = None ∧
          ∃ days d name,
            get_next_days (day_of_week env) (DAYS_TO_DELETE cfg) = Normal days ∧
            d ∈ days ∧ FILES_MAP cfg !! d = Some name ∧ p = source_path cfg name).
Proof. apply run_touches_only_its_files_aux. Qed.

(** X13. With a retention window of a week or more the window comes round
    to today: after a successful run today's own source file is gone from
    the source directory. *)
Theorem week_long_window_removes_source (cfg : config) (env : environment)
    (fs : gmap string content) (file_name : string) (s' : state) :
  7 ≤ DAYS_TO_DELETE cfg →
  FILES_MAP cfg !! day_of_week env = Some file_name →
  run cfg env fs = (Normal tt, s') →
  ¬ present env s' (source_path cfg file_name).
Proof.
  intros HD Hmap Hrun.
  apply successful_run_steps in Hrun
    as (file_name' & s0 & s1 & days & Hmap' & Hne & Hpr & Hct & Hdays & Hdel & Hfs1 & Habs
        & Hfin & Hfr1 & Hps1 & Hn1).
  assert (file_name' = file_name) as -> by congruence.
  destruct (get_next_days_elements _ _ _ Hdays) as (Htoday & Hlen & _).
  destruct (get_next_days_canonical _ (DAYS_TO_DELETE cfg) Htoday)
    as (start & l & _ & Hstart & Hday & Hl & _ & Hnth).
  assert (l = days) as -> by congruence.
  assert (day_of_week env ∈ days) as Hin.
  { apply list_elem_of_lookup. exists 6%nat. rewrite Hnth by lia. rewrite <- Hday.
    do 2 f_equal. Z.div_mod_to_equations. lia. }
  pose proof (Habs _ _ Hin Hmap Hne) as Hgone.
  apply finally_suite_effect in Hfin as (_ & Hframe & Hfcase); [|done].
  eapply absent_stays; [|exact Hgone].
  destruct Hfcase as [(_ & _ & -> & _)|[(_ & _ & _ & -> & _)|(_ & ? & ? & ? & _ & [=] & _)]].
  - by left.
  - destruct (decide (source_path cfg file_name = source_path cfg (zip_name file_name)))
      as [->|Hneq]; [right; apply lookup_delete_eq|left; by apply lookup_delete_ne].
Qed.


(** X19. Compression and transfer either complete or raise an exception;
    they never exit the process and never send a notification or touch
    the flag.  No path other than the archive's and the copy's changes.
    On completion the two paths are distinct and hold the same archive of
    one member. *)
Theorem compress_and_transfer_contract (cfg : config) (env : environment)
    (file_name : string) (s : state) (o : outcome unit) (s1 : state) :
  compress_and_transfer cfg env file_name s = (o, s1) →
  let zip_file_path := source_path cfg (zip_name file_name) in
  let target := copy_target env zip_file_path (FILE_SERVER_DIRECTORY cfg) in
  (∀ code, o ≠ Raised (SystemExit code)) ∧
  process_success s1 = process_success s ∧ notifications s1 = notifications s ∧
  (∀ p, p ≠ zip_file_path → p ≠ target → files s1 !! p = files s !! p) ∧
  (o = Normal tt →
   zip_file_path ≠ target ∧
   ∃ member, files s1 !! zip_file_path = Some (Archive [member]) ∧
             files s1 !! target = Some (Archive [member])).
Proof.
  intros H zip_file_path target.
  apply compress_and_transfer_effect in H as (_ & Hps & Hn & _ & Hfs & Hcase).
  fold zip_file_path target in Hfs, Hcase.
  split; [|split; [done|split; [done|split; [done|]]]].
  - intros code ->. destruct Hcase as [([=] & _)|(? & ? & [=])].
  - intros ->. destruct Hcase as [(_ & Hne & _ & _ & member & Hz & Ht & _)|(? & ? & [=])].
    split; [done|]. by exists member.
Qed.

(** ** Names and paths (lines 110-113, 126) *)

Lemma str_take_drop (k : nat) (s : string) : str_take k s +:+ str_drop k s = s.
Proof.
  revert k. induction s as [|a s IH]; intros [|k]; cbn; try done.
  by rewrite str_app_cons, IH.
Qed.

Lemma os_path_splitext_join (p : string) :
  (os_path_splitext p).1 +:+ (os_path_splitext p).2 = p.
Proof.
  unfold os_path_splitext. case_match; cbn; [apply str_take_drop|apply str_app_nil_r].
Qed.

(** X15. [os.path.splitext] splits without loss (root and extension
    concatenate to the name), so the archive name [stem + ".zip"] is the
    file name itself exactly when the file's extension is already
    [".zip"]: that is the one case in which the workflow overwrites its
    source. *)
Theorem zip_name_collides_iff (file_name : string) :
  (os_path_splitext file_name).1 +:+ (os_path_splitext file_name).2 = file_name ∧
  (zip_name file_name = file_name ↔ (os_path_splitext file_name).2 = ".zip").
Proof.
  split; [apply os_path_splitext_join|].
  unfold zip_name. pose proof (os_path_splitext_join file_name) as Hj. split.
  - intros E. pose proof (eq_trans E (eq_sym Hj)) as E'.
    by apply (inj (String.app _)) in E'.
  - intros E. by rewrite <- E.
Qed.

Lemma rfind_from_absent (c : ascii) (z : string) (i last : Z) :
  str_contains c z = false → rfind_from c z i last = last.
Proof.
  revert i last. induction z as [|a z IH]; intros i last H; [done|].
  cbn in *. apply orb_false_iff in H as [Ha Hz]. apply bool_decide_eq_false in Ha.
  destruct (decide (a = c)); [done|]. by apply IH.
Qed.

Lemma rfind_from_app (c : ascii) (pre z : string) (i last : Z) :
  rfind_from c (pre +:+ z) i last =
  rfind_from c z (i + Z.of_nat (str_length pre)) (rfind_from c pre i last).
Proof.
  revert i last. induction pre as [|a pre IH]; intros i last.
  - cbn. by rewrite Z.add_0_r.
  - rewrite str_app_cons. cbn [rfind_from str_length]. rewrite IH. f_equal. lia.
Qed.

Lemma rfind_from_endswith (c : ascii) (pre : string) (i last : Z) :
  endswith c pre = true →
  rfind_from c pre i last = i + Z.of_nat (str_length pre) - 1.
Proof.
  revert i last. induction pre as [|a pre IH]; intros i last H; [done|].
  destruct pre as [|b pre].
  - cbn in *. apply bool_decide_eq_true in H. destruct (decide (a = c)); [lia|done].
  - change (endswith c (String a (String b pre))) with (endswith c (String b pre)) in H.
    change (rfind_from c (String a (String b pre)) i last)
      with (rfind_from c (String b pre) (i + 1) (if decide (a = c) then i else last)).
    rewrite IH by done. cbn [str_length]. lia.
Qed.

Lemma str_drop_app (pre z : string) : str_drop (str_length pre) (pre +:+ z) = z.
Proof. induction pre as [|a pre IH]; [by destruct z|]. by rewrite str_app_cons. Qed.

Lemma endswith_snoc (c : ascii) (a : string) : endswith c (a +:+ String c "") = true.
Proof.
  induction a as [|x a IH]; [cbn; by apply bool_decide_eq_true|].
  rewrite str_app_cons. destruct a as [|y a]; [cbn; by apply bool_decide_eq_true|].
  rewrite str_app_cons in *. exact IH.
Qed.

Lemma os_path_basename_prefixed (pre z : string) :
  pre = "" ∨ endswith sep pre = true → str_contains sep z = false →
  os_path_basename (pre +:+ z) = z.
Proof.
  intros Hpre Hz. unfold os_path_basename, rfind. rewrite rfind_from_app.
  rewrite rfind_from_absent by done. destruct Hpre as [->|Hend].
  - cbn. by destruct z.
  - rewrite rfind_from_endswith by done.
    replace (Z.to_nat (0 + Z.of_nat (str_length pre) - 1 + 1)) with (str_length pre) by lia.
    apply str_drop_app.
Qed.

Lemma os_path_basename_join (a z : string) :
  str_contains sep z = false → os_path_basename (os_path_join a z) = z.
Proof.
  intros Hz. unfold os_path_join.
  assert (startswith sep z = false) as ->.
  { destruct z as [|x z]; [done|]. cbn in *. by apply orb_false_iff in Hz as [-> _]. }
  destruct (bool_decide (a = "")) eqn:Ha; cbn.
  - apply os_path_basename_prefixed; [|done]. left. by apply bool_decide_eq_true in Ha.
  - destruct (endswith sep a) eqn:He.
    + apply os_path_basename_prefixed; auto.
    + change (String sep z) with (String sep "" +:+ z). rewrite <- str_app_assoc.
      apply os_path_basename_prefixed; [|done]. right. apply endswith_snoc.
Qed.

Lemma str_contains_app (c : ascii) (a b : string) :
  str_contains c (a +:+ b) = str_contains c a || str_contains c b.
Proof.
  induction a as [|x a IH]; [done|]. rewrite str_app_cons. cbn. rewrite IH.
  by rewrite orb_assoc.
Qed.

Lemma str_contains_take (c : ascii) (k : nat) (s : string) :
  str_contains c s = false → str_contains c (str_take k s) = false.
Proof.
  revert k. induction s as [|a s IH]; intros [|k] H; cbn in *; try done.
  apply orb_false_iff in H as [-> H]. cbn. by apply IH.
Qed.

Lemma zip_name_plain (file_name : string) :
  str_contains sep file_name = false → str_contains sep (zip_name file_name) = false.
Proof.
  intros H. unfold zip_name, os_path_splitext. rewrite str_contains_app.
  case_match; cbn; rewrite orb_false_r; [by apply str_contains_take|done].
Qed.

(** X16. Where the archive goes: when the file-server path is a directory
    and the mapped file name has no directory part, the copy is written to
    [<file server directory>/<stem>.zip], whatever the source directory. *)
Theorem transfer_target_path (cfg : config) (env : environment) (file_name : string) :
  isdir env (FILE_SERVER_DIRECTORY cfg) = true →
  str_contains sep file_name = false →
  copy_target env (source_path cfg (zip_name file_name)) (FILE_SERVER_DIRECTORY cfg)
  = os_path_join (FILE_SERVER_DIRECTORY cfg) (zip_name file_name).
Proof.
  intros Hdir Hplain. unfold copy_target, source_path. rewrite Hdir.
  f_equal. apply os_path_basename_join. by apply zip_name_plain.
Qed.

Lemma transfer_target_path_witness :
  (isdir Sample.env (FILE_SERVER_DIRECTORY Sample.cfg) = true ∧
   str_contains sep "sun.bak" = false) ∧
  copy_target Sample.env (source_path Sample.cfg (zip_name "sun.bak"))
    (FILE_SERVER_DIRECTORY Sample.cfg)
  = os_path_join (FILE_SERVER_DIRECTORY Sample.cfg) (zip_name "sun.bak").
Proof.
  assert (isdir Sample.env (FILE_SERVER_DIRECTORY Sample.cfg) = true) as H1
    by (vm_compute; reflexivity).
  assert (str_contains sep "sun.bak" = false) as H2 by (vm_compute; reflexivity).
  split; [exact (conj H1 H2)|].
  exact (transfer_target_path Sample.cfg Sample.env "sun.bak" H1 H2).
Defined.

(** ** Logger set-up (lines 31-45) *)

Example setup_logger_sample :
  setup_logger "/var/log/backup" (Date 2026 11 3) "November" =
  ("/var/log/backup/2026/November", "/var/log/backup/2026/November/2026-11-03.log").
Proof. reflexivity. Qed.

Lemma string_of_uint_no_slash (d : Decimal.uint) :
  str_contains sep (DecimalString.NilEmpty.string_of_uint d) = false.
Proof. induction d; cbn; done. Qed.

Lemma string_of_uint_no_dash (d : Decimal.uint) :
  str_contains "-"%char (DecimalString.NilEmpty.string_of_uint d) = false.
Proof. induction d; cbn; done. Qed.

Lemma str_int_positive (n : Z) :
  0 < n →
  ∃ p, n = Z.pos p ∧ str_int n = DecimalString.NilEmpty.string_of_uint (Pos.to_uint p).
Proof.
  intros Hn. destruct n as [|p|p]; try lia. exists p. split; [done|].
  unfold str_int. cbn. unfold DecimalString.NilZero.string_of_uint.
  pose proof (DecimalPos.Unsigned.to_uint_nonnil p).
  by destruct (Pos.to_uint p).
Qed.

Lemma str_int_inj (n1 n2 : Z) : 0 < n1 → 0 < n2 → str_int n1 = str_int n2 → n1 = n2.
Proof.
  intros H1 H2 E.
  destruct (str_int_positive n1 H1) as (p1 & -> & E1).
  destruct (str_int_positive n2 H2) as (p2 & -> & E2).
  rewrite E1, E2 in E. apply (f_equal DecimalString.NilEmpty.uint_of_string) in E.
  rewrite !DecimalString.NilEmpty.usu in E. injection E as E.
  by apply DecimalPos.Unsigned.to_uint_inj in E as ->.
Qed.

Lemma str_int_plain (n : Z) :
  0 < n →
  str_contains sep (str_int n) = false ∧ str_contains "-"%char (str_int n) = false ∧
  str_int n ≠ "".
Proof.
  intros Hn. destruct (str_int_positive n Hn) as (p & -> & ->).
  split; [apply string_of_uint_no_slash|]. split; [apply string_of_uint_no_dash|].
  pose proof (DecimalPos.Unsigned.to_uint_nonnil p). by destruct (Pos.to_uint p).
Qed.

Lemma digit_inj (a b : Z) : 0 ≤ a < 10 → 0 ≤ b < 10 → digit a = digit b → a = b.
Proof.
  intros Ha Hb E. unfold digit in E. apply (f_equal nat_of_ascii) in E.
  rewrite !nat_ascii_embedding in E by lia. lia.
Qed.

Lemma two_digits_inj (a b : Z) (r1 r2 : string) :
  0 ≤ a < 100 → 0 ≤ b < 100 →
  two_digits a +:+ r1 = two_digits b +:+ r2 → a = b ∧ r1 = r2.
Proof.
  intros Ha Hb E. unfold two_digits in E. rewrite !str_app_cons, !str_app_nil_l in E.
  injection E as E1 E2 E3. split; [|done].
  apply digit_inj in E1; [|Z.div_mod_to_equations; lia..].
  apply digit_inj in E2; [|Z.div_mod_to_equations; lia..].
  Z.div_mod_to_equations. lia.
Qed.

Lemma two_digits_plain (n : Z) : 0 ≤ n < 100 → str_contains sep (two_digits n) = false.
Proof.
  intros Hn.
  assert (∀ k, 0 ≤ k < 10 → bool_decide (digit k = sep) = false) as Hd.
  { intros k Hk. apply bool_decide_eq_false. intros E.
    apply (f_equal nat_of_ascii) in E. unfold digit in E.
    rewrite nat_ascii_embedding in E by lia.
    change (nat_of_ascii sep) with 47%nat in E. lia. }
  unfold two_digits. cbn. rewrite !Hd; [done|Z.div_mod_to_equations; lia..].
Qed.

(** Two strings with the same separator after a separator-free head have
    the same head and the same rest. *)
Lemma split_at_first (c : ascii) (a1 a2 r1 r2 : string) :
  str_contains c a1 = false → str_contains c a2 = false →
  a1 +:+ String c r1 = a2 +:+ String c r2 → a1 = a2 ∧ r1 = r2.
Proof.
  revert a2. induction a1 as [|x a1 IH]; intros [|y a2] H1 H2 E.
  - rewrite !str_app_nil_l in E. by injection E.
  - rewrite str_app_nil_l, str_app_cons in E. injection E as <- _.
    cbn in H2. by rewrite bool_decide_eq_true_2 in H2.
  - rewrite str_app_nil_l, str_app_cons in E. injection E as -> _.
    cbn in H1. by rewrite bool_decide_eq_true_2 in H1.
  - rewrite !str_app_cons in E. injection E as -> E.
    cbn in H1, H2. apply orb_false_iff in H1 as [_ H1]. apply orb_false_iff in H2 as [_ H2].
    destruct (IH a2 H1 H2 E) as [-> ->]. done.
Qed.

Lemma strftime_Ymd_inj (t1 t2 : date) (r1 r2 : string) :
  plausible t1 → plausible t2 →
  strftime_Ymd t1 +:+ r1 = strftime_Ymd t2 +:+ r2 → t1 = t2 ∧ r1 = r2.
Proof.
  intros (Hy1 & Hm1 & Hd1) (Hy2 & Hm2 & Hd2) E. unfold strftime_Ymd in E.
  rewrite !str_app_assoc in E.
  change ("-" +:+ ?x) with (String "-"%char x) in E.
  destruct (str_int_plain (year t1)) as (_ & Hp1 & _); [lia|].
  destruct (str_int_plain (year t2)) as (_ & Hp2 & _); [lia|].
  apply split_at_first in E as [Ey E]; [|done..].
  apply str_int_inj in Ey; [|lia..].
  apply two_digits_inj in E as [Em E]; [|lia..].
  apply (inj (String.app "-")) in E.
  apply two_digits_inj in E as [Ed E]; [|lia..].
  destruct t1, t2; cbn in *; by subst.
Qed.

Lemma endswith_contains (c : ascii) (s : string) :
  str_contains c s = false → endswith c s = false.
Proof.
  induction s as [|a s IH]; [done|]. intros H. cbn in H.
  apply orb_false_iff in H as [Ha Hs]. destruct s as [|b s]; [exact Ha|].
  change (endswith c (String a (String b s))) with (endswith c (String b s)). by apply IH.
Qed.

Lemma startswith_contains (c : ascii) (s : string) :
  str_contains c s = false → startswith c s = false.
Proof. destruct s as [|a s]; [done|]. cbn. by intros [-> _]%orb_false_iff. Qed.

Lemma endswith_app (c : ascii) (a b : string) :
  b ≠ "" → endswith c (a +:+ b) = endswith c b.
Proof.
  intros Hb. induction a as [|x a IH]; [done|]. rewrite str_app_cons.
  destruct (a +:+ b) as [|y r] eqn:E; [|exact IH].
  destruct a; [by rewrite str_app_nil_l in E|by rewrite str_app_cons in E].
Qed.

Lemma os_path_join_plain (a b : string) :
  a ≠ "" → endswith sep a = false → startswith sep b = false →
  os_path_join a b = a +:+ "/" +:+ b.
Proof.
  intros Ha He Hs. unfold os_path_join. rewrite Hs, He.
  by rewrite bool_decide_eq_false_2.
Qed.

Lemma log_file_name_plain (today : date) :
  plausible today → str_contains sep (strftime_Ymd today +:+ ".log") = false.
Proof.
  intros (Hy & Hm & Hd). unfold strftime_Ymd.
  destruct (str_int_plain (year today)) as (Hs & _); [lia|].
  rewrite !str_contains_app, Hs, !two_digits_plain by lia. done.
Qed.

(** X17. The layout of the log tree: for a log directory without a
    trailing slash, a plausible date and a month name without slashes at
    either end, [setup_logger] creates [<log dir>/<year>/<month name>] and
    logs to [<YYYY-MM-DD>.log] directly inside it. *)
Theorem setup_logger_layout (LOG_DIRECTORY : string) (today : date) (month_name : string) :
  plausible today →
  LOG_DIRECTORY ≠ "" → endswith sep LOG_DIRECTORY = false →
  month_name ≠ "" → startswith sep month_name = false → endswith sep month_name = false →
  let month_dir := LOG_DIRECTORY +:+ "/" +:+ str_int (year today) +:+ "/" +:+ month_name in
  setup_logger LOG_DIRECTORY today month_name
    = (month_dir, month_dir +:+ "/" +:+ strftime_Ymd today +:+ ".log") ∧
  os_path_basename (setup_logger LOG_DIRECTORY today month_name).2
    = strftime_Ymd today +:+ ".log".
Proof.
  intros Hpl HL HLe Hm Hms Hme month_dir. pose proof Hpl as (Hy & _ & _).
  destruct (str_int_plain (year today)) as (Hs & _ & Hne); [lia|].
  assert (∀ a b : string, a ≠ "" → a +:+ b ≠ "") as Hnonempty.
  { intros [|x a] b Ha; [done|by rewrite str_app_cons]. }
  set (year_dir := LOG_DIRECTORY +:+ "/" +:+ str_int (year today)).
  assert (os_path_join LOG_DIRECTORY (str_int (year today)) = year_dir) as Eyear.
  { apply os_path_join_plain; [done..|by apply startswith_contains]. }
  assert (endswith sep year_dir = false) as Hyear_end.
  { unfold year_dir. rewrite endswith_app by done.
    change ("/" +:+ str_int (year today)) with (String sep "" +:+ str_int (year today)).
    rewrite endswith_app by done. by apply endswith_contains. }
  assert (os_path_join year_dir month_name = month_dir) as Emonth.
  { rewrite os_path_join_plain; [|by apply Hnonempty|done..].
    unfold month_dir, year_dir. by rewrite !str_app_assoc. }
  assert (endswith sep month_dir = false) as Hmonth_end.
  { unfold month_dir. by rewrite !endswith_app by (done || by apply Hnonempty). }
  assert (setup_logger LOG_DIRECTORY today month_name
          = (month_dir, os_path_join month_dir (strftime_Ymd today +:+ ".log"))) as Eset.
  { unfold setup_logger. by rewrite Eyear, Emonth. }
  split.
  - rewrite Eset. f_equal. apply os_path_join_plain; [by apply Hnonempty|done|].
    apply startswith_contains. by apply log_file_name_plain.
  - unfold setup_logger. cbn [snd]. apply os_path_basename_join.
    by apply log_file_name_plain.
Qed.

(** X18. One log file per calendar day: the log paths computed for two
    plausible dates coincide only if the dates are the same, whatever the
    log directories and month names. *)
Theorem setup_logger_one_file_per_day (L1 L2 : string) (t1 t2 : date) (m1 m2 : string) :
  plausible t1 → plausible t2 →
  (setup_logger L1 t1 m1).2 = (setup_logger L2 t2 m2).2 → t1 = t2.
Proof.
  intros H1 H2 E. apply (f_equal os_path_basename) in E.
  unfold setup_logger in E. cbn [snd] in E.
  rewrite !os_path_basename_join in E by (by apply log_file_name_plain).
  by apply strftime_Ymd_inj in E as [-> _].
Qed.

(** ** The further properties at the sample worlds *)

Lemma delete_next_backups_contract_witness :
  let s := initial Sample.fs in
  let s' := (delete_next_backups Sample.cfg Sample.env "Sunday" 3 s).2 in
  delete_next_backups Sample.cfg Sample.env "Sunday" 3 s = (Normal tt, s') ∧
  frames s' = frames s ∧ process_success s' = process_success s ∧
  files s' ⊆ files s.
Proof.
  intros s s'.
  assert (delete_next_backups Sample.cfg Sample.env "Sunday" 3 s = (Normal tt, s')) as H
    by (vm_compute; reflexivity).
  split; [exact H|].
  destruct (delete_next_backups_contract Sample.cfg Sample.env "Sunday" 3 s (Normal tt) s' H)
    as (Hfr & Hps & Hsub & _).
  exact (conj Hfr (conj Hps Hsub)).
Defined.

Lemma delete_next_backups_idempotent_witness :
  let s := initial Sample.fs in
  let s1 := (delete_next_backups Sample.cfg Sample.env "Sunday" 3 s).2 in
  delete_next_backups Sample.cfg Sample.env "Sunday" 3 s = (Normal tt, s1) ∧
  delete_next_backups Sample.cfg Sample.env "Sunday" 3 s1 = (Normal tt, s1).
Proof.
  intros s s1.
  assert (delete_next_backups Sample.cfg Sample.env "Sunday" 3 s = (Normal tt, s1)) as H
    by (vm_compute; reflexivity).
  split; [exact H|].
  exact (delete_next_backups_idempotent Sample.cfg Sample.env "Sunday" 3 s s1 H).
Defined.

Lemma missing_source_file_is_fatal_witness :
  let cfg := Sample.cfg in
  let env := Edge.env_friday in
  (FILES_MAP cfg !! day_of_week env = Some "fri.bak" ∧ "fri.bak" ≠ "" ∧
   ¬ present env (started env Sample.fs) (source_path cfg "fri.bak")) ∧
  ∃ s',
    run cfg env Sample.fs = (Raised (SystemExit 1), s') ∧
    process_success s' = false ∧
    contains "fri.bak" (missing_file_notice cfg env "fri.bak").2 ∧
    contains (SOURCE_DIRECTORY cfg) (missing_file_notice cfg env "fri.bak").2 ∧
    (∀ p, p ≠ source_path cfg (zip_name "fri.bak") → files s' !! p = Sample.fs !! p) ∧
    ((¬ present env s' (source_path cfg (zip_name "fri.bak")) ∧
      notifications s' = [missing_file_notice cfg env "fri.bak"])
     ∨ ∃ err, notifications s' =
                [missing_file_notice cfg env "fri.bak"; cleanup_notice env err]).
Proof.
  intros cfg env.
  assert (FILES_MAP cfg !! day_of_week env = Some "fri.bak") as H1 by (vm_compute; reflexivity).
  assert ("fri.bak" ≠ "") as H2 by discriminate.
  assert (¬ present env (started env Sample.fs) (source_path cfg "fri.bak")) as H3.
  { intros [[c Hc]|Hd]; vm_compute in *; discriminate. }
  split; [exact (conj H1 (conj H2 H3))|].
  exact (missing_source_file_is_fatal cfg env Sample.fs "fri.bak" H1 H2 H3).
Defined.

Lemma empty_file_name_is_unmapped_witness :
  FILES_MAP Edge.cfg_empty_name !! day_of_week Sample.env = Some "" ∧
  ∃ s', run Edge.cfg_empty_name Sample.env Sample.fs = (Raised (SystemExit 1), s') ∧
        notifications s' = [unmapped_notice Sample.env] ∧ files s' = Sample.fs ∧
        process_success s' = false.
Proof.
  assert (FILES_MAP Edge.cfg_empty_name !! day_of_week Sample.env = Some "") as H
    by (vm_compute; reflexivity).
  split; [exact H|].
  exact (empty_file_name_is_unmapped Edge.cfg_empty_name Sample.env Sample.fs H).
Defined.

Lemma unsupported_weekday_fails_after_transfer_witness :
  let cfg := Edge.cfg_dimanche in
  let env := Edge.env_dimanche in
  let s0 := (compress_and_transfer cfg env "sun.bak" (started env Sample.fs)).2 in
  (FILES_MAP cfg !! day_of_week env = Some "sun.bak" ∧ "sun.bak" ≠ "" ∧
   present env (started env Sample.fs) (source_path cfg "sun.bak") ∧
   compress_and_transfer cfg env "sun.bak" (started env Sample.fs) = (Normal tt, s0) ∧
   (day_of_week env ∉ days_of_week)) ∧
  ∃ s' msg member,
    run cfg env Sample.fs = (Raised (SystemExit 1), s') ∧
    get_next_days (day_of_week env) (DAYS_TO_DELETE cfg)
      = Raised (Exception "ValueError" msg) ∧
    head (notifications s') = Some (processing_notice env msg) ∧
    files s' !! copy_target env (source_path cfg (zip_name "sun.bak"))
                  (FILE_SERVER_DIRECTORY cfg) = Some (Archive [member]) ∧
    (∀ p, p ≠ source_path cfg (zip_name "sun.bak") → files s' !! p = files s0 !! p).
Proof.
  intros cfg env s0.
  assert (FILES_MAP cfg !! day_of_week env = Some "sun.bak") as H1 by (vm_compute; reflexivity).
  assert ("sun.bak" ≠ "") as H2 by discriminate.
  assert (present env (started env Sample.fs) (source_path cfg "sun.bak")) as H3.
  { left. vm_compute. eexists. reflexivity. }
  assert (compress_and_transfer cfg env "sun.bak" (started env Sample.fs) = (Normal tt, s0))
    as H4 by (vm_compute; reflexivity).
  assert (day_of_week env ∉ days_of_week) as H5.
  { unfold days_of_week. rewrite !not_elem_of_cons. repeat split; try discriminate.
    apply not_elem_of_nil. }
  split; [exact (conj H1 (conj H2 (conj H3 (conj H4 H5))))|].
  exact (unsupported_weekday_fails_after_transfer cfg env Sample.fs "sun.bak" s0
           H1 H2 H3 H4 H5).
Defined.

Lemma deletion_failure_still_reports_success_witness :
  let cfg := Sample.cfg in
  let env := Sample.env_delete_fails in
  let s0 := (compress_and_transfer cfg env "sun.bak" (started env Sample.fs)).2 in
  let s2 := (for_each ["Monday"] (delete_day cfg env) (push_frame s0)).2 in
  let s3 := (os_remove env (source_path cfg "tue.bak") s2).2 in
  (FILES_MAP cfg !! day_of_week env = Some "sun.bak" ∧ "sun.bak" ≠ "" ∧
   present env (started env Sample.fs) (source_path cfg "sun.bak") ∧
   compress_and_transfer cfg env "sun.bak" (started env Sample.fs) = (Normal tt, s0) ∧
   get_next_days (day_of_week env) (DAYS_TO_DELETE cfg)
     = Normal (["Monday"] ++ "Tuesday" :: ["Wednesday"])%list ∧
   for_each ["Monday"] (delete_day cfg env) (push_frame s0) = (Normal tt, s2) ∧
   FILES_MAP cfg !! "Tuesday" = Some "tue.bak" ∧ "tue.bak" ≠ "" ∧
   present env s2 (source_path cfg "tue.bak") ∧
   os_remove env (source_path cfg "tue.bak") s2
     = (Raised (Exception "OSError" "Permission denied"), s3)) ∧
  ∃ s',
    run cfg env Sample.fs = (Raised (SystemExit 1), s') ∧
    ((process_success s' = true ∧
      notifications s' =
        [deletion_notice "Tuesday" (source_path cfg "tue.bak") "Permission denied";
         success_notice env "sun.bak"])
     ∨ ∃ err', process_success s' = false ∧
               notifications s' =
                 [deletion_notice "Tuesday" (source_path cfg "tue.bak") "Permission denied";
                  cleanup_notice env err']).
Proof.
  intros cfg env s0 s2 s3.
  assert (FILES_MAP cfg !! day_of_week env = Some "sun.bak") as H1 by (vm_compute; reflexivity).
  assert ("sun.bak" ≠ "") as H2 by discriminate.
  assert (present env (started env Sample.fs) (source_path cfg "sun.bak")) as H3.
  { left. vm_compute. eexists. reflexivity. }
  assert (compress_and_transfer cfg env "sun.bak" (started env Sample.fs) = (Normal tt, s0))
    as H4 by (vm_compute; reflexivity).
  assert (get_next_days (day_of_week env) (DAYS_TO_DELETE cfg)
          = Normal (["Monday"] ++ "Tuesday" :: ["Wednesday"])%list)
    as H5 by (vm_compute; reflexivity).
  assert (for_each ["Monday"] (delete_day cfg env) (push_frame s0) = (Normal tt, s2))
    as H6 by (vm_compute; reflexivity).
  assert (FILES_MAP cfg !! "Tuesday" = Some "tue.bak") as H7 by (vm_compute; reflexivity).
  assert ("tue.bak" ≠ "") as H8 by discriminate.
  assert (present env s2 (source_path cfg "tue.bak")) as H9.
  { left. vm_compute. eexists. reflexivity. }
  assert (os_remove env (source_path cfg "tue.bak") s2
          = (Raised (Exception "OSError" "Permission denied"), s3))
    as H10 by (vm_compute; reflexivity).
  split; [exact (conj H1 (conj H2 (conj H3 (conj H4 (conj H5 (conj H6
                  (conj H7 (conj H8 (conj H9 H10)))))))))|].
  exact (deletion_failure_still_reports_success cfg env Sample.fs "sun.bak" s0 ["Monday"]
           "Tuesday" ["Wednesday"] "tue.bak" "OSError" "Permission denied" s2 s3
           H1 H2 H3 H4 H5 H6 H7 H8 H9 H10).
Defined.

Lemma run_touches_only_its_files_witness :
  let cfg := Sample.cfg in
  let env := Sample.env_delete_fails in
  let r := run cfg env Sample.fs in
  (FILES_MAP cfg !! day_of_week env = Some "sun.bak" ∧ run cfg env Sample.fs = (r.1, r.2)) ∧
  ∀ p, p ≠ source_path cfg (zip_name "sun.bak") →
       p ≠ copy_target env (source_path cfg (zip_name "sun.bak")) (FILE_SERVER_DIRECTORY cfg) →
       files r.2 !! p = Sample.fs !! p
       ∨ (files r.2 !! p = None ∧
          ∃ days d name,
            get_next_days (day_of_week env) (DAYS_TO_DELETE cfg) = Normal days ∧
            d ∈ days ∧ FILES_MAP cfg !! d = Some name ∧ p = source_path cfg name).
Proof.
  intros cfg env r.
  assert (FILES_MAP cfg !! day_of_week env = Some "sun.bak") as H1 by (vm_compute; reflexivity).
  assert (run cfg env Sample.fs = (r.1, r.2)) as H2 by (unfold r; apply surjective_pairing).
  split; [exact (conj H1 H2)|].
  exact (run_touches_only_its_files cfg env Sample.fs "sun.bak" r.1 r.2 H1 H2).
Defined.

Lemma week_long_window_removes_source_witness :
  let cfg := Edge.cfg_week in
  let s' := (run cfg Sample.env Sample.fs).2 in
  (7 ≤ DAYS_TO_DELETE cfg ∧ FILES_MAP cfg !! day_of_week Sample.env = Some "sun.bak" ∧
   run cfg Sample.env Sample.fs = (Normal tt, s')) ∧
  ¬ present Sample.env s' (source_path cfg "sun.bak").
Proof.
  intros cfg s'.
  assert (7 ≤ DAYS_TO_DELETE cfg) as H1 by (vm_compute; discriminate).
  assert (FILES_MAP cfg !! day_of_week Sample.env = Some "sun.bak") as H2
    by (vm_compute; reflexivity).
  assert (run cfg Sample.env Sample.fs = (Normal tt, s')) as H3 by (vm_compute; reflexivity).
  split; [exact (conj H1 (conj H2 H3))|].
  exact (week_long_window_removes_source cfg Sample.env Sample.fs "sun.bak" s' H1 H2 H3).
Defined.

Lemma setup_logger_layout_witness :
  (plausible Edge.third_of_november ∧ "/var/log/backup" ≠ "" ∧
   endswith sep "/var/log/backup" = false ∧ "November" ≠ "" ∧
   startswith sep "November" = false ∧ endswith sep "November" = false) ∧
  let month_dir :=
    "/var/log/backup" +:+ "/" +:+ str_int (year Edge.third_of_november) +:+ "/" +:+ "November" in
  setup_logger "/var/log/backup" Edge.third_of_november "November"
    = (month_dir, month_dir +:+ "/" +:+ strftime_Ymd Edge.third_of_november +:+ ".log") ∧
  os_path_basename (setup_logger "/var/log/backup" Edge.third_of_november "November").2
    = strftime_Ymd Edge.third_of_november +:+ ".log".
Proof.
  assert (plausible Edge.third_of_november) as H1 by (unfold plausible; cbn; lia).
  assert ("/var/log/backup" ≠ "") as H2 by discriminate.
  assert (endswith sep "/var/log/backup" = false) as H3 by reflexivity.
  assert ("November" ≠ "") as H4 by discriminate.
  assert (startswith sep "November" = false) as H5 by reflexivity.
  assert (endswith sep "November" = false) as H6 by reflexivity.
  split; [exact (conj H1 (conj H2 (conj H3 (conj H4 (conj H5 H6)))))|].
  exact (setup_logger_layout "/var/log/backup" Edge.third_of_november "November"
           H1 H2 H3 H4 H5 H6).
Defined.

Lemma setup_logger_one_file_per_day_witness :
  (plausible Edge.third_of_november ∧
   (setup_logger "/var/log/backup" Edge.third_of_november "November").2
   = (setup_logger "/var/log/backup" Edge.third_of_november "November").2) ∧
  Edge.third_of_november = Edge.third_of_november.
Proof.
  assert (plausible Edge.third_of_november) as H1 by (unfold plausible; cbn; lia).
  assert ((setup_logger "/var/log/backup" Edge.third_of_november "November").2
          = (setup_logger "/var/log/backup" Edge.third_of_november "November").2) as H2
    by reflexivity.
  split; [exact (conj H1 H2)|].
  exact (setup_logger_one_file_per_day _ _ _ _ _ _ H1 H1 H2).
Defined.

Lemma compress_and_transfer_contract_witness :
  let cfg := Sample.cfg in
  let env := Sample.env in
  let s := started env Sample.fs in
  let s1 := (compress_and_transfer cfg env "sun.bak" s).2 in
  compress_and_transfer cfg env "sun.bak" s = (Normal tt, s1) ∧
  source_path cfg (zip_name "sun.bak")
    ≠ copy_target env (source_path cfg (zip_name "sun.bak")) (FILE_SERVER_DIRECTORY cfg) ∧
  ∃ member,
    files s1 !! source_path cfg (zip_name "sun.bak") = Some (Archive [member]) ∧
    files s1 !! copy_target env (source_path cfg (zip_name "sun.bak"))
                  (FILE_SERVER_DIRECTORY cfg) = Some (Archive [member]).
Proof.
  intros cfg env s s1.
  assert (compress_and_transfer cfg env "sun.bak" s = (Normal tt, s1)) as H
    by (vm_compute; reflexivity).
  split; [exact H|].
  destruct (compress_and_transfer_contract cfg env "sun.bak" s (Normal tt) s1 H)
    as (_ & _ & _ & _ & Hok).
  exact (Hok eq_refl).
Defined.

